(** * Verification of the cave-daemon tooling scripts

    The development embeds [scripts/generate_openapi.py],
    [scripts/generate_sbom.py], [scripts/generate_slsa.py] and the security
    test suite, and states the properties of the key-management contract they
    encode.  Python expressions become terms of an error monad over JSON-like
    values, so a dictionary display, a subscript or a call reads in Rocq as
    it does in the script.  What belongs to the platform (the process
    launcher, the clock, the file system) is a parameter; strings are ASCII
    text. *)

From Stdlib Require Import String Ascii List ZArith Lia Bool DecimalString.
From stdpp Require Import gmap strings list.
Import ListNotations.

Local Open Scope string_scope.
Local Open Scope Z_scope.

(** ** Python values and expressions *)

Module Py.

(** The values the scripts build: [None], booleans, integers, strings, lists
    and insertion-ordered dictionaries with string keys. *)
#[warnings="-register-all"]
Inductive value : Type :=
| VNone
| VBool (b : bool)
| VInt (n : Z)
| VStr (s : string)
| VList (xs : list value)
| VDict (kvs : list (string * value)).

(** Exceptions raised by the fragment of Python in use. *)
Inductive exn : Type :=
| KeyError (k : string)
| TypeError (msg : string)
| AttributeError (msg : string)
| OSError (msg : string)
| SystemExit (msg : string)
| JSONDecodeError.

Inductive result (A : Type) : Type :=
| Ok (a : A)
| Raise (e : exn).
Arguments Ok {A} a.
Arguments Raise {A} e.

Definition bind {A B : Type} (m : result A) (f : A -> result B) : result B :=
  match m with
  | Ok a => f a
  | Raise e => Raise e
  end.

Notation "x <- m ;; k" := (bind m (fun x => k))
  (at level 100, m at next level, right associativity).

(** An expression is a computation that yields a value or raises. *)
Definition expr : Type := result value.

Definition none : expr := Ok VNone.
Definition py_true : expr := Ok (VBool true).
Definition py_false : expr := Ok (VBool false).
Definition int (n : Z) : expr := Ok (VInt n).
Definition str (s : string) : expr := Ok (VStr s).

(** A reference to a local variable already bound to a value. *)
Definition var (v : value) : expr := Ok v.

(** The newline character of a Python string literal's backslash-n. *)
Definition nl : string := String (ascii_of_nat 10) EmptyString.

(** Lookup in an ordered dictionary: first binding of the key. *)
Fixpoint assoc (k : string) (kvs : list (string * value)) : option value :=
  match kvs with
  | [] => None
  | (k', v) :: rest => if String.eqb k k' then Some v else assoc k rest
  end.

(** [d[k] = v] on an ordered dictionary: an existing key keeps its position,
    a new key goes last. *)
Fixpoint setitem (k : string) (v : value) (kvs : list (string * value))
  : list (string * value) :=
  match kvs with
  | [] => [(k, v)]
  | (k', v') :: rest =>
      if String.eqb k k' then (k, v) :: rest else (k', v') :: setitem k v rest
  end.

(** Evaluation of the items of a dictionary display, left to right, into the
    dictionary under construction. *)
Fixpoint eval_items (items : list (string * expr)) (acc : list (string * value))
  : result (list (string * value)) :=
  match items with
  | [] => Ok acc
  | (k, e) :: rest => v <- e ;; eval_items rest (setitem k v acc)
  end.

(** A dictionary display [{k1: e1, ..., kn: en}]. *)
Definition dict (items : list (string * expr)) : expr :=
  kvs <- eval_items items [] ;; Ok (VDict kvs).

(** A display that starts by unpacking a mapping: [{**base, k1: e1, ...}]. *)
Definition dict_unpack (base : expr) (items : list (string * expr)) : expr :=
  b <- base ;;
  match b with
  | VDict kvs0 =>
      kvs <- eval_items items (fold_left (fun acc kv => setitem (fst kv) (snd kv) acc) kvs0 []) ;;
      Ok (VDict kvs)
  | _ => Raise (TypeError "argument after ** must be a mapping")
  end.

Fixpoint eval_list (es : list expr) : result (list value) :=
  match es with
  | [] => Ok []
  | e :: rest => v <- e ;; vs <- eval_list rest ;; Ok (v :: vs)
  end.

(** A list display [[e1, ..., en]]. *)
Definition py_list (es : list expr) : expr :=
  vs <- eval_list es ;; Ok (VList vs).

(** Subscription [e[k]] with a string key. *)
Definition getitem (e : expr) (k : string) : expr :=
  d <- e ;;
  match d with
  | VDict kvs =>
      match assoc k kvs with
      | Some v => Ok v
      | None => Raise (KeyError k)
      end
  | VList _ => Raise (TypeError "list indices must be integers or slices, not str")
  | _ => Raise (TypeError "object is not subscriptable")
  end.

(** [d.copy()]: a shallow copy; values are immutable here, so the copy is the
    dictionary itself. *)
Definition copy (e : expr) : expr :=
  d <- e ;;
  match d with
  | VDict kvs => Ok (VDict kvs)
  | VList xs => Ok (VList xs)
  | _ => Raise (AttributeError "object has no attribute 'copy'")
  end.

Notation "e .[ k ]" := (getitem e k) (at level 1, left associativity, format "e .[ k ]").

End Py.

(** ** The standard library's [json.dumps] with an integer [indent] *)

Module Json.
Import Py.

Definition dquote : string := String (ascii_of_nat 34) EmptyString.
Definition backslash : string := String (ascii_of_nat 92) EmptyString.

Definition hex_digit (n : nat) : ascii :=
  match String.get n "0123456789abcdef" with
  | Some c => c
  | None => "0"%char
  end.

(** The replacement [ESCAPE_DCT] gives to one character under
    [ensure_ascii]: the short escapes, [\u00xx] for the other characters
    outside space..tilde, the character itself otherwise.  Strings are byte
    strings here, so every code is below 256. *)
Definition escape_char (c : ascii) : string :=
  let n := nat_of_ascii c in
  if Nat.eqb n 34 then backslash ++ dquote
  else if Nat.eqb n 92 then backslash ++ backslash
  else if Nat.eqb n 10 then backslash ++ "n"
  else if Nat.eqb n 13 then backslash ++ "r"
  else if Nat.eqb n 9 then backslash ++ "t"
  else if Nat.eqb n 12 then backslash ++ "f"
  else if Nat.eqb n 8 then backslash ++ "b"
  else if (Nat.ltb n 32 || Nat.ltb 126 n)%bool then
    backslash ++ "u00" ++
      String (hex_digit (Nat.div n 16)) (String (hex_digit (Nat.modulo n 16)) EmptyString)
  else String c EmptyString.

Fixpoint escape (s : string) : string :=
  match s with
  | EmptyString => EmptyString
  | String c rest => escape_char c ++ escape rest
  end.

(** [py_encode_basestring_ascii]. *)
Definition encode_basestring_ascii (s : string) : string :=
  dquote ++ escape s ++ dquote.

(** [int.__repr__]. *)
Definition int_repr (n : Z) : string :=
  DecimalString.NilZero.string_of_int (Z.to_int n).

Fixpoint spaces (n : nat) : string :=
  match n with
  | O => EmptyString
  | S m => String " "%char (spaces m)
  end.

(** [_iterencode] of [json.encoder._make_iterencode], joined: [indent] is the
    number of spaces per level, [level] the current indent level.  With an
    indent the item separator is a comma and the key separator colon-space;
    empty containers are written closed on one line. *)
Fixpoint iterencode (indent level : nat) (o : value) {struct o} : string :=
  let newline_indent := nl ++ spaces (indent * S level) in
  let closing := nl ++ spaces (indent * level) in
  match o with
  | VNone => "null"
  | VBool true => "true"
  | VBool false => "false"
  | VInt n => int_repr n
  | VStr s => encode_basestring_ascii s
  | VList xs =>
      match xs with
      | [] => "[]"
      | _ =>
          "[" ++ newline_indent ++
          (fix items (l : list value) : string :=
             match l with
             | [] => EmptyString
             | x :: l' =>
                 iterencode indent (S level) x ++
                 match l' with
                 | [] => EmptyString
                 | _ => "," ++ newline_indent ++ items l'
                 end
             end) xs ++
          closing ++ "]"
      end
  | VDict kvs =>
      match kvs with
      | [] => "{}"
      | _ =>
          "{" ++ newline_indent ++
          (fix items (l : list (string * value)) : string :=
             match l with
             | [] => EmptyString
             | (k, x) :: l' =>
                 encode_basestring_ascii k ++ ": " ++ iterencode indent (S level) x ++
                 match l' with
                 | [] => EmptyString
                 | _ => "," ++ newline_indent ++ items l'
                 end
             end) kvs ++
          closing ++ "}"
      end
  end.

(** [json.dumps(obj, indent=indent)]. *)
Definition dumps (obj : value) (indent : nat) : string :=
  iterencode indent 0 obj.

End Json.

(** ** Python string methods on ASCII text *)

Module Text.

(** [s.startswith(p)]. *)
Definition startswith (s p : string) : bool := String.prefix p s.

(** [needle in hay]: [needle] occurs in [hay] as a substring. *)
Fixpoint contains (needle hay : string) : bool :=
  String.prefix needle hay
  || match hay with
     | EmptyString => false
     | String _ rest => contains needle rest
     end.

(** [c.lower()] for one character: the letters A to Z move to a to z. *)
Definition lower_char (c : ascii) : ascii :=
  let n := nat_of_ascii c in
  if Nat.leb 65 n && Nat.leb n 90 then ascii_of_nat (n + 32) else c.

(** [s.lower()]. *)
Fixpoint lower (s : string) : string :=
  match s with
  | EmptyString => EmptyString
  | String c rest => String (lower_char c) (lower rest)
  end.

(** [s.split(sep)] for a separator of one character: the pieces between the
    separators, empty pieces included; at least one piece. *)
Fixpoint split (sep : ascii) (s : string) : list string :=
  match s with
  | EmptyString => [EmptyString]
  | String c rest =>
      if Ascii.eqb c sep then EmptyString :: split sep rest
      else
        match split sep rest with
        | piece :: pieces => String c piece :: pieces
        | [] => [String c EmptyString]
        end
  end.

(** [set(s) <= allowed]: every character of [s] is one of [allowed]. *)
Fixpoint chars_within (allowed : list ascii) (s : string) : bool :=
  match s with
  | EmptyString => true
  | String c rest => existsb (Ascii.eqb c) allowed && chars_within allowed rest
  end.

(** The characters at which [str.splitlines] ends a line, among those below
    128: line feed, carriage return, vertical tab, form feed, and the file,
    group and record separators. *)
Definition is_linebreak (c : ascii) : bool :=
  let n := nat_of_ascii c in
  (Nat.leb 10 n && Nat.leb n 13) || (Nat.leb 28 n && Nat.leb n 30).

(** [s.splitlines()]: [after_cr] tells that the previous character was a
    carriage return, which a line feed then completes. *)
Fixpoint splitlines_from (s : string) (after_cr : bool) : list string :=
  match s with
  | EmptyString => []
  | String c rest =>
      if after_cr && Nat.eqb (nat_of_ascii c) 10 then splitlines_from rest false
      else if is_linebreak c then
        EmptyString :: splitlines_from rest (Nat.eqb (nat_of_ascii c) 13)
      else
        match splitlines_from rest false with
        | line :: lines => String c line :: lines
        | [] => [String c EmptyString]
        end
  end.

Definition splitlines (s : string) : list string := splitlines_from s false.

(** Insertion into a list of strings sorted by code points. *)
Fixpoint insert_sorted (s : string) (l : list string) : list string :=
  match l with
  | [] => [s]
  | x :: rest => if String.leb s x then s :: l else x :: insert_sorted s rest
  end.

(** [sorted(l)] on strings. *)
Definition sorted (l : list string) : list string :=
  fold_right insert_sorted [] l.

(** [s.isascii()]: every character is below 128.  On such strings the
    methods above are Python's. *)
Definition is_ascii (s : string) : bool :=
  forallb (fun c => Nat.ltb (nat_of_ascii c) 128) (list_ascii_of_string s).

End Text.

(** ** [pathlib.Path] on POSIX and the file system *)

Module Pathlib.
Import Py Text.

(** The root [posixpath.splitroot] finds: a slash, two slashes when the path
    starts with exactly two, or none. *)
Definition root (p : string) : string :=
  match p with
  | String "/" (String "/" (String "/" _)) => "/"
  | String "/" (String "/" _) => "//"
  | String "/" _ => "/"
  | _ => ""
  end.

(** The parts after the root: the pieces between slashes, without the empty
    ones and without ["."]. *)
Definition tail (p : string) : list string :=
  List.filter (fun x => negb (String.eqb x "") && negb (String.eqb x "."))
              (split "/" p).

(** [str(Path(p))]: the root and the parts joined by slashes, ["."] when
    there is neither.  [".."] and symbolic links are left to the file
    system. *)
Definition str_of_path (p : string) : string :=
  match root p ++ String.concat "/" (tail p) with
  | EmptyString => "."
  | s => s
  end.

(** [str(Path(p).parent)]. *)
Definition parent (p : string) : string :=
  match root p ++ String.concat "/" (removelast (tail p)) with
  | EmptyString => "."
  | s => s
  end.

(** The file system belongs to the platform.  [fs_write path data s] is what
    opening [path] for writing and writing [data] does in the state [s]: the
    exception raised, if any, and the state left (a write that fails may
    still have created or truncated the file).  [fs_read path s] is the text
    a read of [path] gives in [s], if it can be read. *)
Class FileSystem (FS : Type) : Type := {
  fs_write : string -> string -> FS -> option exn * FS;
  fs_read : string -> FS -> option string
}.

(** A path that holds, after a write that succeeded, the text written: what
    a regular file does (a device such as /dev/null does not). *)
Definition regular_file {FS : Type} {file_system : FileSystem FS} (path : string) : Prop :=
  forall (data : string) (s s' : FS),
    fs_write path data s = (None, s') -> fs_read path s' = Some data.

(** [Path.write_text(data)] on the path whose [str] is [path]: the number of
    characters written, or the exception of the file system. *)
Definition write_text {FS : Type} {file_system : FileSystem FS} (path data : string)
  (s : FS)
  : result Z * FS :=
  match fs_write path data s with
  | (None, s') => (Ok (Z.of_nat (String.length data)), s')
  | (Some e, s') => (Raise e, s')
  end.

End Pathlib.

(** ** scripts/generate_openapi.py *)

Module OpenAPI.
Import Py.

Definition sandbox_response_example : expr :=
  dict [
    ("id", str "9f9c9872-2d9c-4c25-9c36-4e45be927834");
    ("namespace", str "demo");
    ("name", str "runner");
    ("runtime", str "process");
    ("status", str "created");
    ("limits", dict [
      ("cpu_millis", int 750);
      ("memory_mib", int 1024);
      ("disk_mib", int 1024);
      ("timeout_seconds", int 120)
    ]);
    ("created_at", str "2025-10-18T12:34:56Z");
    ("updated_at", str "2025-10-18T12:34:56Z");
    ("last_started_at", none);
    ("last_stopped_at", none)
  ].

Definition exec_response_example : expr :=
  dict [
    ("exit_code", int 0);
    ("stdout", str ("hello" ++ nl));
    ("stderr", str "");
    ("duration_ms", int 42);
    ("timed_out", py_false)
  ].

Definition execution_record_example : expr :=
  dict [
    ("command", str "python");
    ("args", py_list [str "-c"; str "print('hello')"]);
    ("executed_at", str "2025-10-18T12:35:10Z");
    ("exit_code", int 0);
    ("stdout", str ("hello" ++ nl));
    ("stderr", str "");
    ("duration_ms", int 55);
    ("timed_out", py_false)
  ].

Definition issued_key_example : expr :=
  dict [
    ("token", str "bkg_demo_abcdefghijklmno");
    ("info", dict [
      ("id", str "4b2a4d3a-4cbe-4b05-87a3-9528cdf6a1ed");
      ("scope", dict [("type", str "namespace"); ("namespace", str "demo")]);
      ("rate_limit", int 100);
      ("created_at", str "2025-10-18T12:00:00Z");
      ("last_used_at", none);
      ("expires_at", str "2025-11-17T12:00:00Z");
      ("key_prefix", str "bkg_demo_abcd")
    ])
  ].

Definition rotation_webhook_payload_example : expr :=
  dict [
    ("event", str "cave.auth.key.rotated");
    ("key_id", str "a7d6b321-2c52-4e76-9af2-2f893d4856fc");
    ("previous_key_id", str "4b2a4d3a-4cbe-4b05-87a3-9528cdf6a1ed");
    ("rotated_at", str "2025-10-18T12:10:00Z");
    ("scope", dict [("type", str "admin")]);
    ("owner", str "admin");
    ("key_prefix", str "bkg_admin_new")
  ].

Definition rotated_key_example : expr :=
  previous <- copy (issued_key_example.["info"]) ;;
  current <-
    dict [
      ("id", str "a7d6b321-2c52-4e76-9af2-2f893d4856fc");
      ("scope", dict [("type", str "admin")]);
      ("rate_limit", int 200);
      ("created_at", str "2025-10-18T12:10:00Z");
      ("key_prefix", str "bkg_admin_new");
      ("rotated_from", str "4b2a4d3a-4cbe-4b05-87a3-9528cdf6a1ed");
      ("rotated_at", str "2025-10-18T12:10:00Z")
    ] ;;
  dict [
    ("token", str "bkg_admin_newtokenvalue");
    ("info", var current);
    ("previous", var previous);
    ("webhook", dict [
      ("event_id", str "5b0c33d4-a1d8-4a1c-9844-3d955b1b4c6e");
      ("signature", str "sha256=abc123...");
      ("payload", rotation_webhook_payload_example)
    ])
  ].

Definition error_example (message : string) : expr :=
  dict [("error", str message)].

(** *** The schemas of [components] *)

(** [components["schemas"]["ErrorResponse"]], lines 119-126. *)
Definition schema_ErrorResponse : expr :=
  dict [
    ("type", str "object");
    ("required", py_list [str "error"]);
    ("properties", dict [
      ("error", dict [
        ("type", str "string");
        ("description", str "Human readable error message.")
      ])
    ]);
    ("example", error_example "sandbox 123 not found")
  ].

(** [components["schemas"]["SandboxLimits"]], lines 127-136. *)
Definition schema_SandboxLimits : expr :=
  dict [
    ("type", str "object");
    ("required", py_list [
      str "cpu_millis";
      str "memory_mib";
      str "disk_mib";
      str "timeout_seconds"
    ]);
    ("properties", dict [
      ("cpu_millis", dict [
        ("type", str "integer");
        ("format", str "int32");
        ("description", str "CPU time slice in milli-CPUs.")
      ]);
      ("memory_mib", dict [
        ("type", str "integer");
        ("format", str "int64");
        ("description", str "Memory limit in MiB.")
      ]);
      ("disk_mib", dict [
        ("type", str "integer");
        ("format", str "int64");
        ("description", str "Ephemeral disk limit in MiB.")
      ]);
      ("timeout_seconds", dict [
        ("type", str "integer");
        ("format", str "int32");
        ("description", str "Execution timeout in seconds.")
      ])
    ])
  ].

(** [components["schemas"]["SandboxResponse"]], lines 137-162. *)
Definition schema_SandboxResponse : expr :=
  dict [
    ("type", str "object");
    ("required", py_list [
      str "id";
      str "namespace";
      str "name";
      str "runtime";
      str "status";
      str "limits";
      str "created_at";
      str "updated_at"
    ]);
    ("properties", dict [
      ("id", dict [("type", str "string"); ("format", str "uuid")]);
      ("namespace", dict [("type", str "string")]);
      ("name", dict [("type", str "string")]);
      ("runtime", dict [("type", str "string")]);
      ("status", dict [
        ("type", str "string");
        ("description", str "Current sandbox lifecycle state.")
      ]);
      ("limits", dict [("$ref", str "#/components/schemas/SandboxLimits")]);
      ("created_at", dict [("type", str "string"); ("format", str "date-time")]);
      ("updated_at", dict [("type", str "string"); ("format", str "date-time")]);
      ("last_started_at", dict [
        ("type", str "string");
        ("format", str "date-time");
        ("nullable", py_true)
      ]);
      ("last_stopped_at", dict [
        ("type", str "string");
        ("format", str "date-time");
        ("nullable", py_true)
      ])
    ]);
    ("example", sandbox_response_example)
  ].

(** [components["schemas"]["CreateSandboxLimits"]], lines 163-172. *)
Definition schema_CreateSandboxLimits : expr :=
  dict [
    ("type", str "object");
    ("properties", dict [
      ("cpu_millis", dict [("type", str "integer"); ("format", str "int32")]);
      ("memory_mib", dict [("type", str "integer"); ("format", str "int64")]);
      ("disk_mib", dict [("type", str "integer"); ("format", str "int64")]);
      ("timeout_seconds", dict [("type", str "integer"); ("format", str "int32")])
    ]);
    ("description", str "Optional overrides for namespace defaults.")
  ].

(** [components["schemas"]["CreateSandboxRequest"]], lines 173-193. *)
Definition schema_CreateSandboxRequest : expr :=
  dict [
    ("type", str "object");
    ("required", py_list [str "namespace"; str "name"]);
    ("properties", dict [
      ("namespace", dict [("type", str "string")]);
      ("name", dict [("type", str "string")]);
      ("runtime", dict [
        ("type", str "string");
        ("description", str "Sandbox runtime identifier (defaults to process).")
      ]);
      ("limits", dict [("$ref", str "#/components/schemas/CreateSandboxLimits")])
    ]);
    ("example", dict [
      ("namespace", str "demo");
      ("name", str "runner");
      ("runtime", str "process");
      ("limits", dict [
        ("cpu_millis", int 750);
        ("memory_mib", int 1024);
        ("disk_mib", int 1024);
        ("timeout_seconds", int 120)
      ])
    ])
  ].

(** [components["schemas"]["ExecRequest"]], lines 194-213. *)
Definition schema_ExecRequest : expr :=
  dict [
    ("type", str "object");
    ("required", py_list [str "command"]);
    ("properties", dict [
      ("command", dict [("type", str "string")]);
      ("args", dict [
        ("type", str "array");
        ("items", dict [("type", str "string")]);
        ("description", str "Command arguments.")
      ]);
      ("stdin", dict [
        ("type", str "string");
        ("description", str "Optional STDIN payload.")
      ]);
      ("timeout_ms", dict [
        ("type", str "integer");
        ("format", str "int64");
        ("description", str "Optional execution timeout in milliseconds.")
      ])
    ]);
    ("example", dict [
      ("command", str "python");
      ("args", py_list [str "-c"; str "print('hello')"]);
      ("stdin", none);
      ("timeout_ms", int 2000)
    ])
  ].

(** [components["schemas"]["ExecResponse"]], lines 214-225. *)
Definition schema_ExecResponse : expr :=
  dict [
    ("type", str "object");
    ("required", py_list [str "duration_ms"; str "timed_out"]);
    ("properties", dict [
      ("exit_code", dict [
        ("type", str "integer");
        ("format", str "int32");
        ("nullable", py_true)
      ]);
      ("stdout", dict [("type", str "string"); ("nullable", py_true)]);
      ("stderr", dict [("type", str "string"); ("nullable", py_true)]);
      ("duration_ms", dict [("type", str "integer"); ("format", str "int64")]);
      ("timed_out", dict [("type", str "boolean")])
    ]);
    ("example", exec_response_example)
  ].

(** [components["schemas"]["ExecutionRecord"]], lines 226-240. *)
Definition schema_ExecutionRecord : expr :=
  dict [
    ("type", str "object");
    ("required", py_list [
      str "command";
      str "args";
      str "executed_at";
      str "duration_ms";
      str "timed_out"
    ]);
    ("properties", dict [
      ("command", dict [("type", str "string")]);
      ("args", dict [("type", str "array"); ("items", dict [("type", str "string")])]);
      ("executed_at", dict [("type", str "string"); ("format", str "date-time")]);
      ("exit_code", dict [
        ("type", str "integer");
        ("format", str "int32");
        ("nullable", py_true)
      ]);
      ("stdout", dict [("type", str "string"); ("nullable", py_true)]);
      ("stderr", dict [("type", str "string"); ("nullable", py_true)]);
      ("duration_ms", dict [("type", str "integer"); ("format", str "int64")]);
      ("timed_out", dict [("type", str "boolean")])
    ]);
    ("example", execution_record_example)
  ].

(** [components["schemas"]["CreateKeyScope"]], lines 241-260. *)
Definition schema_CreateKeyScope : expr :=
  dict [
    ("oneOf", py_list [
      dict [
        ("type", str "object");
        ("required", py_list [str "type"]);
        ("properties", dict [
          ("type", dict [("type", str "string"); ("enum", py_list [str "admin"])])
        ])
      ];
      dict [
        ("type", str "object");
        ("required", py_list [str "type"; str "namespace"]);
        ("properties", dict [
          ("type", dict [("type", str "string"); ("enum", py_list [str "namespace"])]);
          ("namespace", dict [("type", str "string")])
        ])
      ]
    ]);
    ("discriminator", dict [("propertyName", str "type")])
  ].

(** [components["schemas"]["CreateKeyRequest"]], lines 261-274. *)
Definition schema_CreateKeyRequest : expr :=
  dict [
    ("type", str "object");
    ("required", py_list [str "scope"]);
    ("properties", dict [
      ("scope", dict [("$ref", str "#/components/schemas/CreateKeyScope")]);
      ("rate_limit", dict [
        ("type", str "integer");
        ("format", str "int32");
        ("description", str "Requests per minute (defaults to 100).")
      ]);
      ("ttl_seconds", dict [
        ("type", str "integer");
        ("format", str "int64");
        ("description", str "Optional time-to-live for the key.")
      ])
    ]);
    ("example", dict [
      ("scope", dict [("type", str "namespace"); ("namespace", str "demo")]);
      ("rate_limit", int 100);
      ("ttl_seconds", int 2592000)
    ])
  ].

(** [components["schemas"]["KeyScope"]], lines 275-294. *)
Definition schema_KeyScope : expr :=
  dict [
    ("oneOf", py_list [
      dict [
        ("type", str "object");
        ("required", py_list [str "type"]);
        ("properties", dict [
          ("type", dict [("type", str "string"); ("enum", py_list [str "admin"])])
        ])
      ];
      dict [
        ("type", str "object");
        ("required", py_list [str "type"; str "namespace"]);
        ("properties", dict [
          ("type", dict [("type", str "string"); ("enum", py_list [str "namespace"])]);
          ("namespace", dict [("type", str "string")])
        ])
      ]
    ]);
    ("discriminator", dict [("propertyName", str "type")])
  ].

(** [components["schemas"]["KeyInfo"]], lines 295-309. *)
Definition schema_KeyInfo : expr :=
  dict [
    ("type", str "object");
    ("required", py_list [
      str "id";
      str "scope";
      str "rate_limit";
      str "created_at";
      str "key_prefix"
    ]);
    ("properties", dict [
      ("id", dict [("type", str "string"); ("format", str "uuid")]);
      ("scope", dict [("$ref", str "#/components/schemas/KeyScope")]);
      ("rate_limit", dict [("type", str "integer"); ("format", str "int32")]);
      ("created_at", dict [("type", str "string"); ("format", str "date-time")]);
      ("last_used_at", dict [
        ("type", str "string");
        ("format", str "date-time");
        ("nullable", py_true)
      ]);
      ("expires_at", dict [
        ("type", str "string");
        ("format", str "date-time");
        ("nullable", py_true)
      ]);
      ("key_prefix", dict [
        ("type", str "string");
        ("description", str "Truncated token prefix for audit displays.")
      ]);
      ("rotated_from", dict [
        ("type", str "string");
        ("format", str "uuid");
        ("nullable", py_true)
      ]);
      ("rotated_at", dict [
        ("type", str "string");
        ("format", str "date-time");
        ("nullable", py_true)
      ])
    ])
  ].

(** [components["schemas"]["IssuedKeyResponse"]], lines 310-318. *)
Definition schema_IssuedKeyResponse : expr :=
  dict [
    ("type", str "object");
    ("required", py_list [str "token"; str "info"]);
    ("properties", dict [
      ("token", dict [
        ("type", str "string");
        ("description", str "Full bearer token. Shown once.")
      ]);
      ("info", dict [("$ref", str "#/components/schemas/KeyInfo")])
    ]);
    ("example", issued_key_example)
  ].

(** [components["schemas"]["RotateKeyRequest"]], lines 319-336. *)
Definition schema_RotateKeyRequest : expr :=
  dict [
    ("type", str "object");
    ("required", py_list [str "key_id"]);
    ("properties", dict [
      ("key_id", dict [("type", str "string"); ("format", str "uuid")]);
      ("rate_limit", dict [
        ("type", str "integer");
        ("format", str "int32");
        ("description", str "Override rate limit for the rotated key (requests per minute).")
      ]);
      ("ttl_seconds", dict [
        ("type", str "integer");
        ("format", str "int64");
        ("description", str "Optional TTL for the rotated key in seconds.")
      ])
    ]);
    ("example", dict [
      ("key_id", str "4b2a4d3a-4cbe-4b05-87a3-9528cdf6a1ed");
      ("rate_limit", int 200)
    ])
  ].

(** [components["schemas"]["RotationWebhookPayload"]], lines 337-358. *)
Definition schema_RotationWebhookPayload : expr :=
  dict [
    ("type", str "object");
    ("required", py_list [
      str "event";
      str "key_id";
      str "previous_key_id";
      str "rotated_at";
      str "scope";
      str "owner";
      str "key_prefix"
    ]);
    ("properties", dict [
      ("event", dict [("type", str "string")]);
      ("key_id", dict [("type", str "string"); ("format", str "uuid")]);
      ("previous_key_id", dict [("type", str "string"); ("format", str "uuid")]);
      ("rotated_at", dict [("type", str "string"); ("format", str "date-time")]);
      ("scope", dict [("$ref", str "#/components/schemas/KeyScope")]);
      ("owner", dict [("type", str "string")]);
      ("key_prefix", dict [("type", str "string")])
    ]);
    ("example", rotation_webhook_payload_example)
  ].

(** [components["schemas"]["RotationWebhookResponse"]], lines 359-367. *)
Definition schema_RotationWebhookResponse : expr :=
  dict [
    ("type", str "object");
    ("required", py_list [str "event_id"; str "signature"; str "payload"]);
    ("properties", dict [
      ("event_id", dict [("type", str "string"); ("format", str "uuid")]);
      ("signature", dict [("type", str "string")]);
      ("payload", dict [("$ref", str "#/components/schemas/RotationWebhookPayload")])
    ])
  ].

(** [components["schemas"]["RotatedKeyResponse"]], lines 368-378. *)
Definition schema_RotatedKeyResponse : expr :=
  dict [
    ("type", str "object");
    ("required", py_list [str "token"; str "info"; str "previous"; str "webhook"]);
    ("properties", dict [
      ("token", dict [("type", str "string")]);
      ("info", dict [("$ref", str "#/components/schemas/KeyInfo")]);
      ("previous", dict [("$ref", str "#/components/schemas/KeyInfo")]);
      ("webhook", dict [("$ref", str "#/components/schemas/RotationWebhookResponse")])
    ]);
    ("example", rotated_key_example)
  ].

(** The local [components] of [build_spec]. *)
Definition build_spec_components : expr :=
  dict [
    ("securitySchemes", dict [
      ("bearerAuth", dict [
        ("type", str "http");
        ("scheme", str "bearer");
        ("bearerFormat", str "API Token")
      ])
    ]);
    ("schemas", dict [
      ("ErrorResponse", schema_ErrorResponse);
      ("SandboxLimits", schema_SandboxLimits);
      ("SandboxResponse", schema_SandboxResponse);
      ("CreateSandboxLimits", schema_CreateSandboxLimits);
      ("CreateSandboxRequest", schema_CreateSandboxRequest);
      ("ExecRequest", schema_ExecRequest);
      ("ExecResponse", schema_ExecResponse);
      ("ExecutionRecord", schema_ExecutionRecord);
      ("CreateKeyScope", schema_CreateKeyScope);
      ("CreateKeyRequest", schema_CreateKeyRequest);
      ("KeyScope", schema_KeyScope);
      ("KeyInfo", schema_KeyInfo);
      ("IssuedKeyResponse", schema_IssuedKeyResponse);
      ("RotateKeyRequest", schema_RotateKeyRequest);
      ("RotationWebhookPayload", schema_RotationWebhookPayload);
      ("RotationWebhookResponse", schema_RotationWebhookResponse);
      ("RotatedKeyResponse", schema_RotatedKeyResponse)
    ])
  ].

(** The local [responses] of [build_spec]. *)
Definition build_spec_responses : expr :=
  dict [
    ("400", dict [
      ("description", str "Bad request");
      ("content", dict [
        ("application/json", dict [
          ("schema", dict [("$ref", str "#/components/schemas/ErrorResponse")]);
          ("example", error_example "namespace query parameter is required")
        ])
      ])
    ]);
    ("401", dict [
      ("description", str "Unauthorized");
      ("content", dict [
        ("application/json", dict [
          ("schema", dict [("$ref", str "#/components/schemas/ErrorResponse")]);
          ("example", error_example "missing Authorization bearer token")
        ])
      ])
    ]);
    ("403", dict [
      ("description", str "Forbidden");
      ("content", dict [
        ("application/json", dict [
          ("schema", dict [("$ref", str "#/components/schemas/ErrorResponse")]);
          ("example", error_example "insufficient permissions for requested scope")
        ])
      ])
    ]);
    ("404", dict [
      ("description", str "Not found");
      ("content", dict [
        ("application/json", dict [
          ("schema", dict [("$ref", str "#/components/schemas/ErrorResponse")]);
          ("example", error_example "sandbox 9f9c... not found")
        ])
      ])
    ]);
    ("409", dict [
      ("description", str "Conflict");
      ("content", dict [
        ("application/json", dict [
          ("schema", dict [("$ref", str "#/components/schemas/ErrorResponse")]);
          ("example", error_example "sandbox 'runner' already exists in namespace 'demo'")
        ])
      ])
    ]);
    ("500", dict [
      ("description", str "Internal server error");
      ("content", dict [
        ("application/json", dict [
          ("schema", dict [("$ref", str "#/components/schemas/ErrorResponse")]);
          ("example", error_example "unexpected internal error")
        ])
      ])
    ])
  ].

(** *** The operations of [paths] *)

Section Paths.
Variables components responses : value.

(** [paths["/healthz"]["get"]], lines 411-418. *)
Definition getHealthz : expr :=
  dict [
    ("tags", py_list [str "Operations"]);
    ("summary", str "Health probe");
    ("operationId", str "getHealthz");
    ("responses", dict [("200", dict [("description", str "Service is healthy")])])
  ].

(** [paths["/metrics"]["get"]], lines 421-436. *)
Definition getMetrics : expr :=
  dict [
    ("tags", py_list [str "Operations"]);
    ("summary", str "Prometheus metrics");
    ("operationId", str "getMetrics");
    ("responses", dict [
      ("200", dict [
        ("description", str "Metrics payload");
        ("content", dict [
          ("text/plain", dict [
            ("schema", dict [("type", str "string")]);
            ("example", str ("# metrics" ++ nl ++ "bkg_cave_daemon_up 1" ++ nl))
          ])
        ])
      ])
    ])
  ].

(** [paths["/api/v1/sandboxes"]["post"]], lines 439-469. *)
Definition createSandbox : expr :=
  dict [
    ("tags", py_list [str "Sandboxes"]);
    ("summary", str "Create a sandbox");
    ("operationId", str "createSandbox");
    ("security", py_list [dict [("bearerAuth", py_list [])]]);
    ("requestBody", dict [
      ("required", py_true);
      ("content", dict [
        ("application/json", dict [
          ("schema", dict [("$ref", str "#/components/schemas/CreateSandboxRequest")]);
          ("example", (var components).["schemas"].["CreateSandboxRequest"].["example"])
        ])
      ])
    ]);
    ("responses", dict [
      ("200", dict [
        ("description", str "Sandbox created");
        ("content", dict [
          ("application/json", dict [
            ("schema", dict [("$ref", str "#/components/schemas/SandboxResponse")]);
            ("example", sandbox_response_example)
          ])
        ])
      ]);
      ("400", (var responses).["400"]);
      ("401", (var responses).["401"]);
      ("403", (var responses).["403"]);
      ("409", (var responses).["409"]);
      ("500", (var responses).["500"])
    ])
  ].

(** [paths["/api/v1/sandboxes"]["get"]], lines 470-502. *)
Definition listSandboxes : expr :=
  dict [
    ("tags", py_list [str "Sandboxes"]);
    ("summary", str "List sandboxes in a namespace");
    ("operationId", str "listSandboxes");
    ("security", py_list [dict [("bearerAuth", py_list [])]]);
    ("parameters", py_list [
      dict [
        ("name", str "namespace");
        ("in", str "query");
        ("required", py_true);
        ("schema", dict [("type", str "string")]);
        ("description", str "Namespace identifier to filter sandboxes.")
      ]
    ]);
    ("responses", dict [
      ("200", dict [
        ("description", str "Sandboxes");
        ("content", dict [
          ("application/json", dict [
            ("schema", dict [
              ("type", str "array");
              ("items", dict [("$ref", str "#/components/schemas/SandboxResponse")])
            ]);
            ("example", py_list [sandbox_response_example])
          ])
        ])
      ]);
      ("400", (var responses).["400"]);
      ("401", (var responses).["401"]);
      ("403", (var responses).["403"]);
      ("500", (var responses).["500"])
    ])
  ].

(** [paths["/api/v1/sandboxes/{id}/status"]["get"]], lines 505-533. *)
Definition getSandbox : expr :=
  dict [
    ("tags", py_list [str "Sandboxes"]);
    ("summary", str "Inspect sandbox");
    ("operationId", str "getSandbox");
    ("security", py_list [dict [("bearerAuth", py_list [])]]);
    ("parameters", py_list [
      dict [
        ("name", str "id");
        ("in", str "path");
        ("required", py_true);
        ("schema", dict [("type", str "string"); ("format", str "uuid")])
      ]
    ]);
    ("responses", dict [
      ("200", dict [
        ("description", str "Sandbox details");
        ("content", dict [
          ("application/json", dict [
            ("schema", dict [("$ref", str "#/components/schemas/SandboxResponse")]);
            ("example", sandbox_response_example)
          ])
        ])
      ]);
      ("401", (var responses).["401"]);
      ("403", (var responses).["403"]);
      ("404", (var responses).["404"]);
      ("500", (var responses).["500"])
    ])
  ].

(** [paths["/api/v1/sandboxes/{id}/start"]["post"]], lines 536-565. *)
Definition startSandbox : expr :=
  dict [
    ("tags", py_list [str "Sandboxes"]);
    ("summary", str "Start a sandbox");
    ("operationId", str "startSandbox");
    ("security", py_list [dict [("bearerAuth", py_list [])]]);
    ("parameters", py_list [
      dict [
        ("name", str "id");
        ("in", str "path");
        ("required", py_true);
        ("schema", dict [("type", str "string"); ("format", str "uuid")])
      ]
    ]);
    ("responses", dict [
      ("200", dict [
        ("description", str "Sandbox started");
        ("content", dict [
          ("application/json", dict [
            ("schema", dict [("$ref", str "#/components/schemas/SandboxResponse")]);
            ("example", dict_unpack (sandbox_response_example) [
              ("status", str "running");
              ("last_started_at", str "2025-10-18T12:35:05Z")
            ])
          ])
        ])
      ]);
      ("401", (var responses).["401"]);
      ("403", (var responses).["403"]);
      ("404", (var responses).["404"]);
      ("409", (var responses).["409"]);
      ("500", (var responses).["500"])
    ])
  ].

(** [paths["/api/v1/sandboxes/{id}/exec"]["post"]], lines 568-605. *)
Definition execSandbox : expr :=
  dict [
    ("tags", py_list [str "Sandboxes"]);
    ("summary", str "Execute a command inside a sandbox");
    ("operationId", str "execSandbox");
    ("security", py_list [dict [("bearerAuth", py_list [])]]);
    ("parameters", py_list [
      dict [
        ("name", str "id");
        ("in", str "path");
        ("required", py_true);
        ("schema", dict [("type", str "string"); ("format", str "uuid")])
      ]
    ]);
    ("requestBody", dict [
      ("required", py_true);
      ("content", dict [
        ("application/json", dict [
          ("schema", dict [("$ref", str "#/components/schemas/ExecRequest")]);
          ("example", (var components).["schemas"].["ExecRequest"].["example"])
        ])
      ])
    ]);
    ("responses", dict [
      ("200", dict [
        ("description", str "Execution result");
        ("content", dict [
          ("application/json", dict [
            ("schema", dict [("$ref", str "#/components/schemas/ExecResponse")]);
            ("example", exec_response_example)
          ])
        ])
      ]);
      ("401", (var responses).["401"]);
      ("403", (var responses).["403"]);
      ("404", (var responses).["404"]);
      ("500", (var responses).["500"])
    ])
  ].

(** [paths["/api/v1/sandboxes/{id}/stop"]["post"]], lines 608-629. *)
Definition stopSandbox : expr :=
  dict [
    ("tags", py_list [str "Sandboxes"]);
    ("summary", str "Stop a sandbox");
    ("operationId", str "stopSandbox");
    ("security", py_list [dict [("bearerAuth", py_list [])]]);
    ("parameters", py_list [
      dict [
        ("name", str "id");
        ("in", str "path");
        ("required", py_true);
        ("schema", dict [("type", str "string"); ("format", str "uuid")])
      ]
    ]);
    ("responses", dict [
      ("204", dict [("description", str "Sandbox stopped")]);
      ("401", (var responses).["401"]);
      ("403", (var responses).["403"]);
      ("404", (var responses).["404"]);
      ("409", (var responses).["409"]);
      ("500", (var responses).["500"])
    ])
  ].

(** [paths["/api/v1/sandboxes/{id}"]["delete"]], lines 632-652. *)
Definition deleteSandbox : expr :=
  dict [
    ("tags", py_list [str "Sandboxes"]);
    ("summary", str "Delete a sandbox");
    ("operationId", str "deleteSandbox");
    ("security", py_list [dict [("bearerAuth", py_list [])]]);
    ("parameters", py_list [
      dict [
        ("name", str "id");
        ("in", str "path");
        ("required", py_true);
        ("schema", dict [("type", str "string"); ("format", str "uuid")])
      ]
    ]);
    ("responses", dict [
      ("204", dict [("description", str "Sandbox deleted")]);
      ("401", (var responses).["401"]);
      ("403", (var responses).["403"]);
      ("404", (var responses).["404"]);
      ("500", (var responses).["500"])
    ])
  ].

(** [paths["/api/v1/sandboxes/{id}/executions"]["get"]], lines 655-693. *)
Definition listSandboxExecutions : expr :=
  dict [
    ("tags", py_list [str "Sandboxes"]);
    ("summary", str "List recent executions");
    ("operationId", str "listSandboxExecutions");
    ("security", py_list [dict [("bearerAuth", py_list [])]]);
    ("parameters", py_list [
      dict [
        ("name", str "id");
        ("in", str "path");
        ("required", py_true);
        ("schema", dict [("type", str "string"); ("format", str "uuid")])
      ];
      dict [
        ("name", str "limit");
        ("in", str "query");
        ("required", py_false);
        ("schema", dict [
          ("type", str "integer");
          ("format", str "int32");
          ("minimum", int 1);
          ("maximum", int 100)
        ]);
        ("description", str "Maximum number of execution records (default 20).")
      ]
    ]);
    ("responses", dict [
      ("200", dict [
        ("description", str "Execution history");
        ("content", dict [
          ("application/json", dict [
            ("schema", dict [
              ("type", str "array");
              ("items", dict [("$ref", str "#/components/schemas/ExecutionRecord")])
            ]);
            ("example", py_list [execution_record_example])
          ])
        ])
      ]);
      ("401", (var responses).["401"]);
      ("403", (var responses).["403"]);
      ("404", (var responses).["404"]);
      ("500", (var responses).["500"])
    ])
  ].

(** [paths["/api/v1/auth/keys"]["post"]], lines 696-724. *)
Definition issueKey : expr :=
  dict [
    ("tags", py_list [str "Auth"]);
    ("summary", str "Issue an API key");
    ("operationId", str "issueKey");
    ("security", py_list [dict [("bearerAuth", py_list [])]; dict []]);
    ("requestBody", dict [
      ("required", py_true);
      ("content", dict [
        ("application/json", dict [
          ("schema", dict [("$ref", str "#/components/schemas/CreateKeyRequest")]);
          ("example", (var components).["schemas"].["CreateKeyRequest"].["example"])
        ])
      ])
    ]);
    ("responses", dict [
      ("201", dict [
        ("description", str "API key issued");
        ("content", dict [
          ("application/json", dict [
            ("schema", dict [("$ref", str "#/components/schemas/IssuedKeyResponse")]);
            ("example", issued_key_example)
          ])
        ])
      ]);
      ("401", (var responses).["401"]);
      ("403", (var responses).["403"]);
      ("500", (var responses).["500"])
    ])
  ].

(** [paths["/api/v1/auth/keys"]["get"]], lines 725-747. *)
Definition listKeys : expr :=
  dict [
    ("tags", py_list [str "Auth"]);
    ("summary", str "List issued API keys");
    ("operationId", str "listKeys");
    ("security", py_list [dict [("bearerAuth", py_list [])]]);
    ("responses", dict [
      ("200", dict [
        ("description", str "Known API keys");
        ("content", dict [
          ("application/json", dict [
            ("schema", dict [
              ("type", str "array");
              ("items", dict [("$ref", str "#/components/schemas/KeyInfo")])
            ]);
            ("example", py_list [issued_key_example.["info"]])
          ])
        ])
      ]);
      ("401", (var responses).["401"]);
      ("403", (var responses).["403"]);
      ("500", (var responses).["500"])
    ])
  ].

(** [paths["/api/v1/auth/keys/rotate"]["post"]], lines 750-780. *)
Definition rotateKey : expr :=
  dict [
    ("tags", py_list [str "Auth"]);
    ("summary", str "Rotate an API key");
    ("operationId", str "rotateKey");
    ("security", py_list [dict [("bearerAuth", py_list [])]]);
    ("requestBody", dict [
      ("required", py_true);
      ("content", dict [
        ("application/json", dict [
          ("schema", dict [("$ref", str "#/components/schemas/RotateKeyRequest")]);
          ("example", (var components).["schemas"].["RotateKeyRequest"].["example"])
        ])
      ])
    ]);
    ("responses", dict [
      ("200", dict [
        ("description", str "API key rotated");
        ("content", dict [
          ("application/json", dict [
            ("schema", dict [("$ref", str "#/components/schemas/RotatedKeyResponse")]);
            ("example", rotated_key_example)
          ])
        ])
      ]);
      ("400", (var responses).["400"]);
      ("401", (var responses).["401"]);
      ("403", (var responses).["403"]);
      ("404", (var responses).["404"]);
      ("500", (var responses).["500"])
    ])
  ].

(** [paths["/api/v1/auth/keys/rotated"]["post"]], lines 783-812. *)
Definition verifyRotationWebhook : expr :=
  dict [
    ("tags", py_list [str "Auth"]);
    ("summary", str "Verify a rotation webhook payload");
    ("operationId", str "verifyRotationWebhook");
    ("security", py_list [dict [("bearerAuth", py_list [])]]);
    ("parameters", py_list [
      dict [
        ("name", str "X-Cave-Webhook-Signature");
        ("in", str "header");
        ("required", py_true);
        ("schema", dict [("type", str "string")]);
        ("description", str "HMAC signature generated with CAVE_ROTATION_WEBHOOK_SECRET.")
      ]
    ]);
    ("requestBody", dict [
      ("required", py_true);
      ("content", dict [
        ("application/json", dict [
          ("schema", dict [("$ref", str "#/components/schemas/RotationWebhookPayload")]);
          ("example", rotation_webhook_payload_example)
        ])
      ])
    ]);
    ("responses", dict [
      ("204", dict [("description", str "Webhook accepted")]);
      ("401", (var responses).["401"]);
      ("403", (var responses).["403"]);
      ("500", (var responses).["500"])
    ])
  ].

(** [paths["/api/v1/auth/keys/{id}"]["delete"]], lines 815-835. *)
Definition revokeKey : expr :=
  dict [
    ("tags", py_list [str "Auth"]);
    ("summary", str "Revoke an API key");
    ("operationId", str "revokeKey");
    ("security", py_list [dict [("bearerAuth", py_list [])]]);
    ("parameters", py_list [
      dict [
        ("name", str "id");
        ("in", str "path");
        ("required", py_true);
        ("schema", dict [("type", str "string"); ("format", str "uuid")])
      ]
    ]);
    ("responses", dict [
      ("204", dict [("description", str "Key revoked")]);
      ("401", (var responses).["401"]);
      ("403", (var responses).["403"]);
      ("404", (var responses).["404"]);
      ("500", (var responses).["500"])
    ])
  ].

(** The local [paths] of [build_spec]. *)
Definition build_spec_paths : expr :=
  dict [
    ("/healthz", dict [("get", getHealthz)]);
    ("/metrics", dict [("get", getMetrics)]);
    ("/api/v1/sandboxes", dict [("post", createSandbox); ("get", listSandboxes)]);
    ("/api/v1/sandboxes/{id}/status", dict [("get", getSandbox)]);
    ("/api/v1/sandboxes/{id}/start", dict [("post", startSandbox)]);
    ("/api/v1/sandboxes/{id}/exec", dict [("post", execSandbox)]);
    ("/api/v1/sandboxes/{id}/stop", dict [("post", stopSandbox)]);
    ("/api/v1/sandboxes/{id}", dict [("delete", deleteSandbox)]);
    ("/api/v1/sandboxes/{id}/executions", dict [("get", listSandboxExecutions)]);
    ("/api/v1/auth/keys", dict [("post", issueKey); ("get", listKeys)]);
    ("/api/v1/auth/keys/rotate", dict [("post", rotateKey)]);
    ("/api/v1/auth/keys/rotated", dict [("post", verifyRotationWebhook)]);
    ("/api/v1/auth/keys/{id}", dict [("delete", revokeKey)])
  ].

End Paths.

(** [build_spec], lines 109-859: the locals are bound in the order of the
    script's assignments, then the document is returned. *)
Definition build_spec : expr :=
  components <- build_spec_components ;;
  responses <- build_spec_responses ;;
  paths <- build_spec_paths components responses ;;
  dict [
    ("openapi", str "3.0.3");
    ("info", dict [
      ("title", str "Cave Daemon API");
      ("version", str "0.1.0");
      ("description", str "REST interface for managing sandboxes, executing workloads, and issuing API keys. See docs/api.md for narrative documentation.")
    ]);
    ("servers", py_list [
      dict [
        ("url", str "http://localhost:8080");
        ("description", str "Local development")
      ]
    ]);
    ("tags", py_list [
      dict [
        ("name", str "Operations");
        ("description", str "Health and telemetry endpoints.")
      ];
      dict [
        ("name", str "Sandboxes");
        ("description", str "Sandbox lifecycle management.")
      ];
      dict [
        ("name", str "Auth");
        ("description", str "API key issuance and revocation.")
      ]
    ]);
    ("paths", var paths);
    ("components", var components)
  ].

(** The local [output] of [main], as [str] gives it: the path made of
    [argv[1]] when there is one. *)
Definition output (argv : list string) : string :=
  Pathlib.str_of_path
    match argv with
    | _ :: p :: _ => p
    | _ => "openapi.yaml"
    end.

(** [main], lines 862-865: the outcome and the files it leaves.  An
    exception ends the run where it is raised. *)
Definition main {FS : Type} {file_system : Pathlib.FileSystem FS} (argv : list string)
  (fs : FS)
  : result unit * FS :=
  let output := output argv in
  match build_spec with
  | Raise e => (Raise e, fs)
  | Ok spec =>
      match Pathlib.write_text output (Json.dumps spec 2 ++ nl) fs with
      | (Ok _, fs') => (Ok tt, fs')
      | (Raise e, fs') => (Raise e, fs')
      end
  end.

End OpenAPI.

(** ** Reading an OpenAPI document *)

Module Doc.
Import Py.

(** Structural equality of values; dictionaries are compared with the order
    of their items. *)
Fixpoint value_eqb (a b : value) {struct a} : bool :=
  match a, b with
  | VNone, VNone => true
  | VBool x, VBool y => Bool.eqb x y
  | VInt x, VInt y => Z.eqb x y
  | VStr x, VStr y => String.eqb x y
  | VList xs, VList ys =>
      (fix go (l1 l2 : list value) : bool :=
         match l1, l2 with
         | [], [] => true
         | x :: l1', y :: l2' => value_eqb x y && go l1' l2'
         | _, _ => false
         end) xs ys
  | VDict xs, VDict ys =>
      (fix go (l1 l2 : list (string * value)) : bool :=
         match l1, l2 with
         | [], [] => true
         | (k1, x) :: l1', (k2, y) :: l2' => String.eqb k1 k2 && value_eqb x y && go l1' l2'
         | _, _ => false
         end) xs ys
  | _, _ => false
  end.

(** Member [k] of an object, [None] for a missing member or a non-object. *)
Definition member (k : string) (v : value) : option value :=
  match v with
  | VDict kvs => assoc k kvs
  | _ => None
  end.

Fixpoint at_path (ks : list string) (v : value) : option value :=
  match ks with
  | [] => Some v
  | k :: rest =>
      match member k v with
      | Some x => at_path rest x
      | None => None
      end
  end.

Definition keys (v : value) : list string :=
  match v with
  | VDict kvs => map fst kvs
  | _ => []
  end.

Definition elements (v : value) : list value :=
  match v with
  | VList xs => xs
  | _ => []
  end.

(** The strings of a list of strings (other elements are skipped). *)
Definition strings_of (v : value) : list string :=
  flat_map (fun x => match x with VStr s => [s] | _ => [] end) (elements v).

Definition mem (s : string) (l : list string) : bool :=
  existsb (String.eqb s) l.

(** The Operation Object at [paths[path][method]]. *)
Definition operation (doc : value) (path method : string) : option value :=
  at_path ["paths"; path; method] doc.

(** The status codes an operation declares. *)
Definition response_codes (op : value) : list string :=
  match member "responses" op with
  | Some r => keys r
  | None => []
  end.

Definition is_success (code : string) : bool :=
  match code with
  | String "2" _ => true
  | _ => false
  end.

Definition is_client_error (code : string) : bool :=
  match code with
  | String "4" _ => true
  | _ => false
  end.

Definition success_codes (op : value) : list string :=
  List.filter is_success (response_codes op).

Definition error_codes (op : value) : list string :=
  List.filter (fun c => negb (is_success c)) (response_codes op).

(** How an operation's [security] reads: every alternative names the bearer
    scheme (required); the bearer scheme or the empty requirement, which
    admits an anonymous caller (optional); no requirement at all. *)
Inductive auth : Type :=
| BearerRequired
| BearerOptional
| Anonymous.

Definition names_scheme (scheme : string) (req : value) : bool :=
  match member scheme req with
  | Some _ => true
  | None => false
  end.

Definition is_empty_requirement (req : value) : bool :=
  match req with
  | VDict [] => true
  | _ => false
  end.

Definition auth_requirement (op : value) : option auth :=
  match member "security" op with
  | None => Some Anonymous
  | Some (VList []) => Some Anonymous
  | Some (VList alts) =>
      if forallb (names_scheme "bearerAuth") alts then Some BearerRequired
      else if forallb (fun r => names_scheme "bearerAuth" r || is_empty_requirement r) alts
              && existsb (names_scheme "bearerAuth") alts
      then Some BearerOptional
      else if forallb is_empty_requirement alts then Some Anonymous
      else None
  | Some _ => None
  end.

(** The Parameter Objects of an operation that sit in [location] under
    [name]. *)
Definition parameters_named (op : value) (location name : string) : list value :=
  match member "parameters" op with
  | Some ps =>
      List.filter (fun p => value_eqb (default VNone (member "name" p)) (VStr name)
                            && value_eqb (default VNone (member "in" p)) (VStr location))
                  (elements ps)
  | None => []
  end.

Definition requires_header (op : value) (name : string) : bool :=
  existsb (fun p => value_eqb (default VNone (member "required" p)) (VBool true))
          (parameters_named op "header" name).

(** The component schema [name]. *)
Definition schema (doc : value) (name : string) : option value :=
  at_path ["components"; "schemas"; name] doc.

Definition required_fields (sch : value) : list string :=
  match member "required" sch with
  | Some r => strings_of r
  | None => []
  end.

Definition property_names (sch : value) : list string :=
  match member "properties" sch with
  | Some p => keys p
  | None => []
  end.

End Doc.

(** ** Which values a Schema Object accepts

    The reading of OpenAPI 3.0 Schema Objects restricted to the keywords the
    generator emits: [$ref], [type], [nullable], [enum], [required],
    [properties], [items], [oneOf], [minimum] and [maximum].  The other
    keywords it emits ([format], [description], [example], [discriminator])
    are annotations.  Members a schema does not list are accepted, as no
    schema of the document sets [additionalProperties]. *)

Module Schema.
Import Py Doc.

Fixpoint strip_prefix (p s : string) : option string :=
  match p with
  | EmptyString => Some s
  | String a p' =>
      match s with
      | String b s' => if Ascii.eqb a b then strip_prefix p' s' else None
      | EmptyString => None
      end
  end.

(** The target of a reference of the form [#/components/schemas/Name]. *)
Definition resolve (doc : value) (ref : string) : option value :=
  match strip_prefix "#/components/schemas/" ref with
  | Some name => schema doc name
  | None => None
  end.

Definition has_type (t : string) (v : value) : bool :=
  match v with
  | VNone => false
  | VBool _ => String.eqb t "boolean"
  | VInt _ => String.eqb t "integer" || String.eqb t "number"
  | VStr _ => String.eqb t "string"
  | VList _ => String.eqb t "array"
  | VDict _ => String.eqb t "object"
  end.

Definition is_none (v : value) : bool :=
  match v with
  | VNone => true
  | _ => false
  end.

Definition nullable (sch : value) : bool :=
  match member "nullable" sch with
  | Some (VBool b) => b
  | _ => false
  end.

Definition check_type (sch v : value) : bool :=
  match member "type" sch with
  | Some (VStr t) => has_type t v || (is_none v && nullable sch)
  | Some _ => false
  | None => true
  end.

Definition check_enum (sch v : value) : bool :=
  match member "enum" sch with
  | Some es => existsb (value_eqb v) (elements es)
  | None => true
  end.

Definition check_required (sch v : value) : bool :=
  match v with
  | VDict kvs => forallb (fun f => bool_decide (is_Some (assoc f kvs))) (required_fields sch)
  | _ => true
  end.

Definition check_range (sch v : value) : bool :=
  match v with
  | VInt n =>
      match member "minimum" sch with Some (VInt lo) => Z.leb lo n | _ => true end
      && match member "maximum" sch with Some (VInt hi) => Z.leb n hi | _ => true end
  | _ => true
  end.

(** Conjunction of verdicts; [None] is a verdict that could not be reached. *)
Definition both (a b : option bool) : option bool :=
  match a, b with
  | Some x, Some y => Some (x && y)
  | _, _ => None
  end.

Definition all_of (l : list (option bool)) : option bool :=
  fold_right both (Some true) l.

Fixpoint count_accepting (l : list (option bool)) : option nat :=
  match l with
  | [] => Some O
  | None :: _ => None
  | Some b :: rest =>
      match count_accepting rest with
      | Some n => Some (if b then S n else n)
      | None => None
      end
  end.

(** [validates fuel doc sch v]: whether [v] is an instance of [sch], with
    references resolved in [doc].  The fuel bounds the nesting of schemas
    followed; [None] reports that it ran out or that a reference dangles. *)
Fixpoint validates (fuel : nat) (doc sch v : value) {struct fuel} : option bool :=
  match fuel with
  | O => None
  | S n =>
      match member "$ref" sch with
      | Some (VStr r) =>
          match resolve doc r with
          | Some target => validates n doc target v
          | None => None
          end
      | Some _ => None
      | None =>
          let local := check_type sch v && check_enum sch v
                       && check_required sch v && check_range sch v in
          let props :=
            match v, member "properties" sch with
            | VDict kvs, Some (VDict ps) =>
                all_of (map (fun p =>
                               match assoc (fst p) kvs with
                               | Some x => validates n doc (snd p) x
                               | None => Some true
                               end) ps)
            | _, _ => Some true
            end in
          let items :=
            match v, member "items" sch with
            | VList xs, Some it => all_of (map (validates n doc it) xs)
            | _, _ => Some true
            end in
          let one_of :=
            match member "oneOf" sch with
            | Some alts =>
                match count_accepting (map (fun a => validates n doc a v) (elements alts)) with
                | Some k => Some (Nat.eqb k 1)
                | None => None
                end
            | None => Some true
            end in
          both (Some local) (both props (both items one_of))
      end
  end.



End Schema.

(** ** scripts/generate_sbom.py *)

Module SBOM.
Import Py.

(** What the script can observe and change: the process environment, the
    files, and the lines printed. *)
Record world (FS : Type) : Type := World {
  environ : gmap string string;
  files : FS;
  printed : list string
}.
Arguments World {FS} environ files printed.
Arguments environ {FS} w.
Arguments files {FS} w.
Arguments printed {FS} w.

(** How [subprocess.run(args, check=True, capture_output=True, text=True)]
    ends: the executable is not found ([FileNotFoundError]), the launch fails
    with another exception, or the process exits with a return code and its
    captured output. *)
Inductive completed : Type :=
| NotFound
| LaunchError (e : exn)
| Exited (returncode : Z) (stdout stderr : string).

(** Python's whitespace among the characters below 128, as [str.strip]
    removes it. *)
Definition is_space (c : ascii) : bool :=
  let n := nat_of_ascii c in
  (Nat.leb 9 n && Nat.leb n 13) || (Nat.leb 28 n && Nat.leb n 32).

Fixpoint lstrip (s : string) : string :=
  match s with
  | String c rest => if is_space c then lstrip rest else s
  | EmptyString => EmptyString
  end.

Fixpoint rstrip (s : string) : string :=
  match s with
  | String c rest =>
      match rstrip rest with
      | EmptyString => if is_space c then EmptyString else String c EmptyString
      | r => String c r
      end
  | EmptyString => EmptyString
  end.

Definition strip (s : string) : string := rstrip (lstrip s).

(** [a or b] on strings: the first operand unless it is empty. *)
Definition or_else (a b : string) : string :=
  match a with
  | EmptyString => b
  | _ => a
  end.

Section Syft.

(** The process launcher, [json.loads] ([None] for a [JSONDecodeError]) and
    [str] of a [CalledProcessError] belong to the platform. *)
Variable run : list string -> completed.
Variable json_loads : string -> option value.
Variable str_of_error : list string -> Z -> string.
Context {FS : Type} {file_system : Pathlib.FileSystem FS}.

(** The local [args] of [run_syft]. *)
Definition args (env : gmap string string) : list string :=
  let command := default "syft" (env !! "SYFT_CMD") in
  let target := default "dir:." (env !! "SYFT_TARGET") in
  [command; target; "-o"; "json"].

(** [run_syft], lines 13-31. *)
Definition run_syft (env : gmap string string) : result string :=
  match run (args env) with
  | NotFound =>
      Raise (SystemExit
        "syft CLI not found. Install syft or set SYFT_CMD to an alternative binary.")
  | LaunchError e => Raise e
  | Exited returncode stdout stderr =>
      if Z.eqb returncode 0 then Ok stdout
      else
        let message :=
          or_else (strip stderr)
                  (or_else (strip stdout) (str_of_error (args env) returncode)) in
        Raise (SystemExit ("syft command failed: " ++ message))
  end.

(** [Path.write_text] in a world: the files are those the file system
    leaves. *)
Definition write_text (path content : string) (w : world FS) : result Z * world FS :=
  match Pathlib.write_text path content (files w) with
  | (outcome, files') => (outcome, World (environ w) files' (printed w))
  end.

Definition print (line : string) (w : world FS) : world FS :=
  World (environ w) (files w) (printed w ++ [line]).

(** The local [output] of [main], as [str] and the f-string give it: the
    path made of [sys.argv[1]] when there is one. *)
Definition output (argv : list string) : string :=
  Pathlib.str_of_path
    match argv with
    | _ :: p :: _ => p
    | _ => "sbom.json"
    end.

(** [main], lines 34-41: the outcome and the world it leaves.  An exception
    ends the run where it is raised, with the world as it then is. *)
Definition main (argv : list string) (w : world FS) : result Z * world FS :=
  let output := output argv in
  match run_syft (environ w) with
  | Raise e => (Raise e, w)
  | Ok sbom_content =>
      match json_loads sbom_content with
      | None => (Raise JSONDecodeError, w)
      | Some _ =>
          match write_text output (sbom_content ++ nl) w with
          | (Raise e, w1) => (Raise e, w1)
          | (Ok _, w1) =>
              let w2 := print ("SBOM written to " ++ output) w1 in
              (Ok 0, w2)
          end
      end
  end.

End Syft.

End SBOM.

(** ** The key-management contract

    The daemon that implements the Key Store and the Key Manager is not among
    the scripts.  The records, the store operations, [revoke] and [rotate]
    below follow the specification's wording (sections 3, 4.2 and 4.4).  Times
    are seconds; token material comes from the Token Codec as an argument. *)

Module KeyManager.

(** Modelled from the spec: the daemon's [KeyScope], a tagged variant with
    [Admin] and [Namespace]. *)
Inductive KeyScope : Type :=
| Admin
| Namespace (namespace : string).

(** Modelled from the spec: the daemon's [KeyRecord], one issued key with
    the fields of section 3. *)
Record KeyRecord : Type := {
  id : string;
  scope : KeyScope;
  rate_limit : Z;
  lookup_hash : string;
  key_prefix : string;
  created_at : Z;
  last_used_at : option Z;
  expires_at : option Z;
  rotated_from : option string;
  rotated_at : option Z;
  revoked : bool
}.

(** Modelled from the spec: the daemon's error taxonomy (section 7). *)
Inductive error : Type :=
| ValidationError
| Unauthorized
| Forbidden
| NotFound
| Conflict
| Throttled
| Internal.

(** Modelled from the spec: what the daemon's Token Codec ([issue_token])
    hands to the Key Manager for a new record, with the fresh id. *)
Record Token : Type := {
  new_id : string;
  raw_token : string;
  token_hash : string;
  token_prefix : string
}.

(** Modelled from the spec: the daemon's transition of a record to revoked;
    no other field changes. *)
Definition revoked_copy (r : KeyRecord) : KeyRecord :=
  {| id := id r; scope := scope r; rate_limit := rate_limit r;
     lookup_hash := lookup_hash r; key_prefix := key_prefix r;
     created_at := created_at r; last_used_at := last_used_at r;
     expires_at := expires_at r; rotated_from := rotated_from r;
     rotated_at := rotated_at r; revoked := true |}.

(** Modelled from the spec: the store's [insert], which fails with
    [Conflict] on an existing id. *)
Definition insert (r : KeyRecord) (store : gmap string KeyRecord)
  : error + gmap string KeyRecord :=
  match store !! id r with
  | Some _ => inl Conflict
  | None => inr (<[id r := r]> store)
  end.

(** Modelled from the spec: the store's [find_by_id]. *)
Definition find_by_id (k : string) (store : gmap string KeyRecord) : option KeyRecord :=
  store !! k.

(** Modelled from the spec: the store's [mark_revoked], which sets the flag;
    on a revoked or unknown id it changes nothing. *)
Definition mark_revoked (k : string) (store : gmap string KeyRecord)
  : gmap string KeyRecord :=
  alter revoked_copy k store.

(** Modelled from the spec: the Key Manager's [revoke], which fails with
    [NotFound] for an unknown id and otherwise marks the record revoked. *)
Definition revoke (k : string) (store : gmap string KeyRecord)
  : error + gmap string KeyRecord :=
  match find_by_id k store with
  | None => inl NotFound
  | Some _ => inr (mark_revoked k store)
  end.

(** Modelled from the spec: the Key Manager's [rotate], which needs an active
    predecessor, creates the successor with the predecessor's scope, the new
    or inherited rate limit, [rotated_from] and [rotated_at], then revokes the
    predecessor.  It returns the successor, the predecessor as it was, and the
    new store. *)
Definition rotate (k : string) (new_rate_limit ttl_seconds : option Z) (now : Z)
  (t : Token) (store : gmap string KeyRecord)
  : error + (KeyRecord * KeyRecord * gmap string KeyRecord) :=
  match find_by_id k store with
  | None => inl NotFound
  | Some old =>
      if revoked old then inl NotFound
      else
        let successor :=
          {| id := new_id t; scope := scope old;
             rate_limit := default (rate_limit old) new_rate_limit;
             lookup_hash := token_hash t; key_prefix := token_prefix t;
             created_at := now; last_used_at := None;
             expires_at := option_map (Z.add now) ttl_seconds;
             rotated_from := Some k; rotated_at := Some now;
             revoked := false |} in
        match insert successor store with
        | inl e => inl e
        | inr store1 => inr (successor, old, mark_revoked k store1)
        end
  end.

End KeyManager.

(** ** The rotation webhook signature

    The daemon's Webhook Notifier is not among the scripts either.  A
    signature is the HMAC of the canonical payload bytes under the rotation
    secret; [verify] recomputes it and compares in constant time (section
    4.5).  Byte strings are strings of 8-bit characters; the hash function and
    its block size are those of the deployment. *)

Module Webhook.

(** Modelled from the spec: the Notifier's bytes, combined bit by bit with
    exclusive or. *)
Definition xor_byte (a b : ascii) : ascii :=
  match a, b with
  | Ascii a0 a1 a2 a3 a4 a5 a6 a7, Ascii b0 b1 b2 b3 b4 b5 b6 b7 =>
      Ascii (xorb a0 b0) (xorb a1 b1) (xorb a2 b2) (xorb a3 b3)
            (xorb a4 b4) (xorb a5 b5) (xorb a6 b6) (xorb a7 b7)
  end.

(** Modelled from the spec: the Notifier's bytes, combined bit by bit with
    or. *)
Definition or_byte (a b : ascii) : ascii :=
  match a, b with
  | Ascii a0 a1 a2 a3 a4 a5 a6 a7, Ascii b0 b1 b2 b3 b4 b5 b6 b7 =>
      Ascii (a0 || b0) (a1 || b1) (a2 || b2) (a3 || b3)
            (a4 || b4) (a5 || b5) (a6 || b6) (a7 || b7)
  end.

(** Modelled from the spec: the Notifier's test that no bit of the
    accumulator is set. *)
Definition is_zero_byte (a : ascii) : bool :=
  match a with
  | Ascii false false false false false false false false => true
  | _ => false
  end.

(** Modelled from the spec: the Notifier's constant-time pass.  Every byte of
    both operands is combined into the accumulator, whatever the earlier
    bytes were. *)
Fixpoint accumulate (a b : string) (acc : ascii) : ascii :=
  match a, b with
  | String x a', String y b' => accumulate a' b' (or_byte acc (xor_byte x y))
  | _, _ => acc
  end.

(** Modelled from the spec: the Notifier's constant-time comparison;
    operands of different lengths never compare equal. *)
Definition constant_time_eq (a b : string) : bool :=
  Nat.eqb (String.length a) (String.length b) && is_zero_byte (accumulate a b zero).

(** Modelled from the spec: the property's "XOR 1 bit" on one byte of a
    signature, bit [i mod 8] counted from the least significant. *)
Definition flip_in_byte (i : nat) (a : ascii) : ascii :=
  xor_byte a (ascii_of_nat (2 ^ (i mod 8))).

(** Modelled from the spec: the property's "XOR 1 bit" on a signature, which
    flips bit [i mod 8] of byte [i / 8]. *)
Fixpoint flip_bit (i : nat) (s : string) : string :=
  match s with
  | EmptyString => EmptyString
  | String c rest =>
      if Nat.ltb i 8 then String (flip_in_byte i c) rest
      else String c (flip_bit (i - 8) rest)
  end.

(** Modelled from the spec: the Notifier's [RotationWebhookPayload], an
    ephemeral value with the seven fields of section 3. *)
Record RotationWebhookPayload : Type := {
  event : string;
  key_id : string;
  previous_key_id : string;
  rotated_at : Z;
  scope : KeyManager.KeyScope;
  owner : string;
  key_prefix : string
}.

(** Modelled from the spec: the Notifier's [SignedEnvelope]. *)
Record SignedEnvelope : Type := {
  event_id : string;
  signature : string;
  payload : RotationWebhookPayload
}.

Section Signature.

Variable hash : string -> string.
Variable block_size : nat.
Variable secret : string.
Variable canonical : RotationWebhookPayload -> string.

(** Modelled from the spec: the Notifier's HMAC padding, [n] copies of a
    byte. *)
Fixpoint repeat_byte (c : ascii) (n : nat) : string :=
  match n with
  | O => EmptyString
  | S m => String c (repeat_byte c m)
  end.

(** Modelled from the spec: the Notifier's HMAC pads, every byte of the key
    block combined with the pad byte. *)
Fixpoint xor_with (pad : ascii) (s : string) : string :=
  match s with
  | EmptyString => EmptyString
  | String c rest => String (xor_byte c pad) (xor_with pad rest)
  end.

(** Modelled from the spec: the Notifier's HMAC key brought to the block
    size, hashed when longer, then padded with zero bytes. *)
Definition block_key (key : string) : string :=
  let k := if Nat.ltb block_size (String.length key) then hash key else key in
  k ++ repeat_byte zero (block_size - String.length k).

(** Modelled from the spec: the Notifier's HMAC, the keyed hash of RFC 2104
    with the outer pad 0x5c and the inner pad 0x36. *)
Definition hmac (key message : string) : string :=
  let k := block_key key in
  hash (xor_with (ascii_of_nat 92) k ++ hash (xor_with (ascii_of_nat 54) k ++ message)).

(** Modelled from the spec: the Notifier's signature of the canonical payload
    bytes under the rotation secret. *)
Definition sign (payload : string) : string :=
  hmac secret payload.

(** Modelled from the spec: the Notifier's [verify], which recomputes the
    HMAC and compares; it is a total function into [bool], so no input makes
    it raise. *)
Definition verify (payload signature : string) : bool :=
  constant_time_eq (sign payload) signature.

(** Modelled from the spec: the Notifier's [build_notification], which signs
    the canonical bytes of the payload; the fresh event id is an argument. *)
Definition build_notification (fresh_event_id : string) (p : RotationWebhookPayload)
  : SignedEnvelope :=
  {| event_id := fresh_event_id;
     signature := sign (canonical p);
     payload := p |}.

End Signature.

End Webhook.

(** ** The HTTP surface of the key-management endpoints *)

Module Surface.
Import Py Doc.

Record row : Type := Row {
  method : string;
  path : string;
  auth_of : auth;
  success : string;
  errors : list string
}.

(** The rows of the specification's HTTP-surface table (section 6), with the
    method in the lower case of a Path Item's member. *)
Definition spec_http_surface : list row := [
  Row "post" "/api/v1/auth/keys" BearerOptional "201" ["401"; "403"];
  Row "get" "/api/v1/auth/keys" BearerRequired "200" ["401"; "403"];
  Row "post" "/api/v1/auth/keys/rotate" BearerRequired "200" ["400"; "401"; "403"; "404"];
  Row "post" "/api/v1/auth/keys/rotated" BearerRequired "204" ["401"; "403"];
  Row "delete" "/api/v1/auth/keys/{id}" BearerRequired "204" ["401"; "403"; "404"]
].

Definition auth_eqb (a b : auth) : bool :=
  match a, b with
  | BearerRequired, BearerRequired => true
  | BearerOptional, BearerOptional => true
  | Anonymous, Anonymous => true
  | _, _ => false
  end.

(** A document conforms to a row when it has the operation, with the row's
    auth requirement, the row's success code as its one success response, and
    each of the row's error codes among its responses. *)
Definition conforms (doc : value) (r : row) : Prop :=
  exists op,
    operation doc (path r) (method r) = Some op
    /\ auth_requirement op = Some (auth_of r)
    /\ success_codes op = [success r]
    /\ forall code, In code (errors r) -> In code (response_codes op).

(** The same, decided. *)
Definition conformsb (doc : value) (r : row) : bool :=
  match operation doc (path r) (method r) with
  | Some op =>
      match auth_requirement op with
      | Some a => auth_eqb a (auth_of r)
      | None => false
      end
      && bool_decide (success_codes op = [success r])
      && forallb (fun code => mem code (response_codes op)) (errors r)
  | None => false
  end.

End Surface.

(** ** What the contract says of the schemas *)

Module Contract.
Import Py Doc Schema.

Definition is_ok (e : expr) : bool :=
  match e with
  | Ok _ => true
  | Raise _ => false
  end.

Definition value_of (e : expr) : value :=
  match e with
  | Ok v => v
  | Raise _ => VNone
  end.

(** The document under study: what [build_spec] evaluates to. *)
Definition document : value := value_of OpenAPI.build_spec.




(** The fields of the rotation webhook payload, as the specification's data
    model lists them (section 3). *)
Definition spec_webhook_payload_fields : list string :=
  ["event"; "key_id"; "previous_key_id"; "rotated_at"; "scope"; "owner"; "key_prefix"].

(** Every failure response an operation declares is 401 or 403. *)
Definition failures_limited_to_401_403 (op : value) : Prop :=
  forall code, In code (error_codes op) -> code = "401" \/ code = "403".

(** An Admin scope with no parameters: the tag and nothing else. *)
Definition admin_scope (v : value) : Prop :=
  v = VDict [("type", VStr "admin")].

(** A Namespace scope with a non-empty namespace. *)
Definition namespace_scope (v : value) : Prop :=
  exists ns, member "type" v = Some (VStr "namespace")
             /\ member "namespace" v = Some (VStr ns)
             /\ ns <> "".

Definition well_formed_scope (v : value) : Prop :=
  admin_scope v \/ namespace_scope v.

(** What the scope schemas do require: an object tagged [admin], or one
    tagged [namespace] whose [namespace] member is a string. *)
Definition tagged (tag : string) (v : value) : bool :=
  match member "type" v with
  | Some (VStr t) => String.eqb t tag
  | _ => false
  end.

Definition has_string (k : string) (v : value) : bool :=
  match member k v with
  | Some (VStr _) => true
  | _ => false
  end.

Definition scope_shaped (v : value) : bool :=
  tagged "admin" v || (tagged "namespace" v && has_string "namespace" v).

(** The ways the syft run of [generate_sbom.py] can fail: the executable is
    missing, the process exits with a non-zero code, or its output is not
    JSON. *)
Definition syft_failed (run : list string -> SBOM.completed)
  (json_loads : string -> option value) (env : gmap string string) : Prop :=
  run (SBOM.args env) = SBOM.NotFound
  \/ (exists returncode stdout stderr,
        run (SBOM.args env) = SBOM.Exited returncode stdout stderr /\ returncode <> 0)
  \/ (exists stdout stderr,
        run (SBOM.args env) = SBOM.Exited 0 stdout stderr /\ json_loads stdout = None).

(** How a run that ends with a write ends: normally, or with the exception
    of the file system; the files are those the write leaves. *)
Definition ends_with_write {FS : Type} (written : option exn * FS) : result unit * FS :=
  match written with
  | (None, fs) => (Ok tt, fs)
  | (Some e, fs) => (Raise e, fs)
  end.

End Contract.

(** ** tests/security/conftest.py *)

Module Conftest.
Import Text.

(** The exceptions the fixtures and the tests raise. *)
Inductive exn : Type :=
| ValueError (msg : string)
| RuntimeError (msg : string)
| FileNotFoundError (msg : string)
| AssertionError (msg : string).

Inductive result (A : Type) : Type :=
| Ok (a : A)
| Raise (e : exn).
Arguments Ok {A} a.
Arguments Raise {A} e.

(** [ThreatRow], lines 12-20. *)
Record ThreatRow : Type := {
  category : string;
  threat : string;
  impact : string;
  mitigations : string;
  tests : string
}.

(** A resolved absolute path, as its components below the root, and the
    files of the tree with their text. *)
Definition path : Type := list string.

(** [p.parents]: the ancestors of [p], nearest first, down to the root. *)
Definition parents (p : path) : list path :=
  map (fun n => take n p) (rev (seq 0 (length p))).

(** The loop of [_repo_root] over the candidates. *)
Fixpoint first_with_readme (files : gmap path string) (candidates : list path)
  : result path :=
  match candidates with
  | [] => Raise (RuntimeError "Unable to locate repository root containing README.md")
  | candidate :: rest =>
      if bool_decide (is_Some (files !! (candidate ++ ["README.md"])%list)) then Ok candidate
      else first_with_readme files rest
  end.

(** [_repo_root], lines 23-28, for the file [this_file] the module is loaded
    from. *)
Definition _repo_root (files : gmap path string) (this_file : path) : result path :=
  first_with_readme files (parents this_file).

(** The cells of a table line: [[part.strip() for part in line.split("|") if
    part.strip()]]. *)
Definition cells (line : string) : list string :=
  List.filter (fun part => negb (String.eqb part EmptyString))
              (map SBOM.strip (split "|" line)).

(** [set(line) <= {"|", "-", " "}]. *)
Definition is_separator (line : string) : bool :=
  chars_within ["|"; "-"; " "]%char line.

(** The loop of [_parse_threat_matrix] with its two variables; a [break]
    returns the rows collected so far. *)
Fixpoint parse_lines (lines : list string) (rows : list ThreatRow) (in_matrix : bool)
  : result (list ThreatRow) :=
  match lines with
  | [] => Ok rows
  | raw_line :: rest =>
      let line := SBOM.strip raw_line in
      if String.eqb line EmptyString then
        if in_matrix then Ok rows else parse_lines rest rows in_matrix
      else if startswith line "| Kategorie" then parse_lines rest rows true
      else if negb in_matrix then parse_lines rest rows in_matrix
      else if is_separator line then parse_lines rest rows in_matrix
      else
        match cells line with
        | [c1; c2; c3; c4; c5] =>
            parse_lines rest (rows ++ [Build_ThreatRow c1 c2 c3 c4 c5])%list in_matrix
        | _ => Raise (ValueError ("Unexpected threat matrix row format: " ++ line))
        end
  end.

(** [_parse_threat_matrix], lines 31-54. *)
Definition _parse_threat_matrix (lines : list string) : result (list ThreatRow) :=
  match parse_lines lines [] false with
  | Ok [] => Raise (ValueError "Threat matrix table not found in docs/security.md")
  | Ok rows => Ok rows
  | Raise e => Raise e
  end.

(** The fixture [security_doc], lines 64-71. *)
Definition security_doc (files : gmap path string) (repo_root : path) : result string :=
  let doc_path := (repo_root ++ ["docs"; "security.md"])%list in
  match files !! doc_path with
  | None => Raise (FileNotFoundError "docs/security.md is required for security checks")
  | Some text => Ok text
  end.

(** The fixture [threat_rows], lines 74-78. *)
Definition threat_rows (security_doc : string) : result (list ThreatRow) :=
  _parse_threat_matrix (splitlines security_doc).

(** The fixture [threat_index], lines 81-85: a later row replaces an earlier
    one of the same category. *)
Definition threat_index (threat_rows : list ThreatRow) : gmap string ThreatRow :=
  fold_left (fun index row => <[category row := row]> index) threat_rows ∅.

End Conftest.

(** ** tests/security/test_threat_matrix.py *)

Module ThreatTests.
Import Text Conftest.

Definition REQUIRED_CATEGORIES : list string :=
  ["Sandbox Isolation"; "API Auth"; "Supply Chain"; "Telemetrie"; "Logging"].

(** [_assert_contains_keywords], lines 22-27. *)
Definition _assert_contains_keywords (text : string) (keywords : list string)
  (require_all : bool) : bool :=
  let lowered := lower text in
  let checks := map (fun keyword => contains (lower keyword) lowered) keywords in
  if require_all then forallb id checks else existsb id checks.

(** [assert condition, message]. *)
Definition assert (condition : bool) (message : string) : result unit :=
  if condition then Ok tt else Raise (AssertionError message).

(** [test_threat_matrix_includes_required_categories], lines 30-34. *)
Definition test_threat_matrix_includes_required_categories
  (threat_index : gmap string ThreatRow) : result unit :=
  let missing :=
    sorted (List.filter (fun c => negb (bool_decide (is_Some (threat_index !! c))))
                        REQUIRED_CATEGORIES) in
  assert (bool_decide (missing = []))
         ("Threat Matrix missing categories: " ++ String.concat ", " missing).

(** [test_threat_matrix_rows_have_test_references], lines 37-52. *)
Definition test_threat_matrix_rows_have_test_references
  (threat_rows : list ThreatRow) : result unit :=
  let missing_reference :=
    map category
        (List.filter
           (fun row => negb (_assert_contains_keywords (tests row)
                               ["pytest"; "make"; "tests/security"] false))
           threat_rows) in
  assert (bool_decide (missing_reference = []))
         ("Threat Matrix entries must reference pytest or make targets: "
          ++ String.concat ", " missing_reference).

(** The parameters of [test_category_mitigations_include_required_terms],
    lines 55-62. *)
Definition mitigation_cases : list (string * list string) :=
  [("Supply Chain", ["sbom"; "slsa"; "cosign"]);
   ("API Auth", ["rls"; "rotation"]);
   ("Sandbox Isolation", ["seccomp"; "cgroup"])].

(** [test_category_mitigations_include_required_terms], lines 63-70. *)
Definition test_category_mitigations_include_required_terms
  (threat_index : gmap string ThreatRow) (category : string)
  (expected_keywords : list string) : result unit :=
  match threat_index !! category with
  | None => Raise (AssertionError ("Threat Matrix missing category " ++ category))
  | Some row =>
      assert (_assert_contains_keywords (mitigations row) expected_keywords true)
             ("Mitigations for " ++ category ++ " should mention "
              ++ String.concat ", " expected_keywords)
  end.

End ThreatTests.

(** ** The threat matrix as a table *)

Module ThreatTable.
Import Text Conftest.

(** A line that starts the table: after [strip] it starts with the header's
    first cell. *)
Definition is_header (line : string) : bool :=
  startswith (SBOM.strip line) "| Kategorie".

(** A line that is empty after [strip]. *)
Definition is_blank (line : string) : bool :=
  String.eqb (SBOM.strip line) EmptyString.

(** A cell with text, no surrounding whitespace and no column separator. *)
Definition clean_cell (c : string) : Prop :=
  c <> "" /\ SBOM.strip c = c /\ ~ In "|"%char (list_ascii_of_string c).

Definition clean_row (r : ThreatRow) : Prop :=
  clean_cell (category r) /\ clean_cell (threat r) /\ clean_cell (impact r)
  /\ clean_cell (mitigations r) /\ clean_cell (tests r).

(** A cell between two spaces, and a row written as a line of the table. *)
Definition pad (c : string) : string := " " ++ c ++ " ".

Definition render_row (r : ThreatRow) : string :=
  "|" ++ pad (category r) ++ "|" ++ pad (threat r) ++ "|" ++ pad (impact r)
  ++ "|" ++ pad (mitigations r) ++ "|" ++ pad (tests r) ++ "|".

(** A table: a header line, the rule below it, and one line per row. *)
Definition render (header : string) (rows : list ThreatRow) : list string :=
  header :: "|---|---|---|---|---|" :: map render_row rows.

(** A line of the table body that [_parse_threat_matrix] reads as a row and
    not as a header or a rule. *)
Definition reads_as_row (line : string) : Prop :=
  is_header line = false /\ is_separator (SBOM.strip line) = false.

(** A line inside the table that the parser passes: a header, a rule, or a
    line of five cells. *)
Definition well_formed_line (line : string) : Prop :=
  is_blank line = false
  /\ (is_header line = true
      \/ is_separator (SBOM.strip line) = true
      \/ length (cells (SBOM.strip line)) = 5%nat).

(** A line inside the table that is none of these. *)
Definition malformed_line (line : string) : Prop :=
  is_blank line = false
  /\ is_header line = false
  /\ is_separator (SBOM.strip line) = false
  /\ length (cells (SBOM.strip line)) <> 5%nat.

(** A string without any of the characters at which [splitlines] ends a
    line. *)
Definition break_free (s : string) : Prop :=
  Forall (fun c => is_linebreak c = false) (list_ascii_of_string s).

(** A text mentions a keyword when the keyword occurs in it, letter case
    aside. *)
Definition mentions (text keyword : string) : Prop :=
  exists before after, lower text = before ++ lower keyword ++ after.

(** A small threat matrix in the layout of docs/security.md, for the
    examples below. *)
Definition example_header : string :=
  "| Kategorie | Bedrohung | Auswirkung | Mitigation | Tests |".

Definition example_rows : list ThreatRow := [
  Build_ThreatRow "API Auth" "Stolen key" "High" "RLS and key rotation"
                  "pytest tests/security";
  Build_ThreatRow "Supply Chain" "Tampered image" "High" "SBOM, SLSA, cosign"
                  "make sbom"
].

Definition example_document : list string :=
  (["# Security"; ""; "## Threat Matrix"; ""]
   ++ render example_header example_rows
   ++ [""; "| Not | part | of | the | table |"])%list.

End ThreatTable.

(** ** scripts/generate_slsa.py *)

Module SLSA.
Import Py.

(** [ProvenanceStatement], lines 42-50; the materials are JSON objects. *)
Record ProvenanceStatement : Type := {
  schema_version : string;
  builder : string;
  build_type : string;
  invocation_id : string;
  started_at : string;
  finished_at : string;
  materials : list value
}.

(** [with suppress(SystemExit): body], followed by [rest]: a [SystemExit]
    raised by the body is dropped and control goes on to [rest]; a value the
    body returns, or any other exception, leaves the function. *)
Definition suppress_SystemExit {A : Type} (body rest : result A) : result A :=
  match body with
  | Raise (SystemExit _) => rest
  | _ => body
  end.

(** Insertion of an item into items sorted by key. *)
Fixpoint insert_item (kv : string * value) (l : list (string * value))
  : list (string * value) :=
  match l with
  | [] => [kv]
  | x :: rest => if String.leb (fst kv) (fst x) then kv :: l else x :: insert_item kv rest
  end.

(** What [sort_keys=True] makes [json.dumps] write: at every level the items
    of a dictionary in the order of their keys. *)
Fixpoint sort_keys (v : value) : value :=
  match v with
  | VList xs => VList (map sort_keys xs)
  | VDict kvs =>
      VDict (fold_right insert_item []
               (map (fun kv => match kv with (k, x) => (k, sort_keys x) end) kvs))
  | _ => v
  end.

(** [dataclasses.asdict] on a statement: the fields in their order. *)
Definition asdict (s : ProvenanceStatement) : value :=
  VDict [("schema_version", VStr (schema_version s));
         ("builder", VStr (builder s));
         ("build_type", VStr (build_type s));
         ("invocation_id", VStr (invocation_id s));
         ("started_at", VStr (started_at s));
         ("finished_at", VStr (finished_at s));
         ("materials", VList (materials s))].

Section Provenance.

(** The platform: the process launcher ([subprocess.check_output] with
    [text=True]), [str] of a [CalledProcessError], the clock
    ([datetime.now(timezone.utc).isoformat()]), [hashlib.sha256] with
    [hexdigest], and [Path.cwd().as_uri()]. *)
Variable run : list string -> SBOM.completed.
Variable str_of_error : list string -> Z -> string.
Variable now : string.
Variable sha256_hexdigest : string -> string.
Variable cwd_uri : string.
Context {FS : Type} {file_system : Pathlib.FileSystem FS}.

(** [_git], lines 17-21.  A missing executable raises [FileNotFoundError],
    an [OSError], which [_git] does not catch. *)
Definition _git (args : list string) : result string :=
  match run args with
  | SBOM.NotFound => Raise (OSError "No such file or directory")
  | SBOM.LaunchError e => Raise e
  | SBOM.Exited returncode stdout _ =>
      if Z.eqb returncode 0 then Ok (SBOM.strip stdout)
      else Raise (SystemExit ("git command failed: " ++ String.concat " " args
                              ++ ": " ++ str_of_error args returncode))
  end.

(** The truth value of [os.environ.get(name)]: set and not empty. *)
Definition environ_get (env : gmap string string) (name : string) : option string :=
  match env !! name with
  | Some EmptyString => None
  | other => other
  end.

(** [_default_commit], lines 24-30. *)
Definition _default_commit (env : gmap string string) : result string :=
  match environ_get env "GITHUB_SHA" with
  | Some commit => Ok commit
  | None =>
      suppress_SystemExit (_git ["git"; "rev-parse"; "HEAD"]) (Ok "UNKNOWN")
  end.

(** [_default_branch], lines 33-39. *)
Definition _default_branch (env : gmap string string) : result string :=
  match environ_get env "GITHUB_REF" with
  | Some ref => Ok ref
  | None =>
      suppress_SystemExit (_git ["git"; "rev-parse"; "--abbrev-ref"; "HEAD"]) (Ok "HEAD")
  end.

(** The local [repo_uri] of [build_provenance], lines 54-62. *)
Definition repo_uri (env : gmap string string) : result string :=
  uri <- match environ_get env "GITHUB_REPOSITORY" with
         | Some repository => Ok (Some ("https://github.com/" ++ repository))
         | None =>
             match _git ["git"; "config"; "--get"; "remote.origin.url"] with
             | Ok url => Ok (Some url)
             | Raise (SystemExit _) => Ok None
             | Raise e => Raise e
             end
         end ;;
  match uri with
  | None | Some EmptyString => Ok cwd_uri
  | Some u => Ok u
  end.

(** [build_provenance], lines 53-83. *)
Definition build_provenance (env : gmap string string) : result ProvenanceStatement :=
  uri <- repo_uri env ;;
  commit <- _default_commit env ;;
  branch <- _default_branch env ;;
  let timestamp := now in
  let commit_digest := sha256_hexdigest commit in
  Ok {| schema_version := "https://slsa.dev/provenance/v0.2";
        builder := "scripts/generate_slsa.py";
        build_type := "https://github.com/BinaryKitsuneGuild/bkg-ci";
        invocation_id := uri ++ "@" ++ commit;
        started_at := timestamp;
        finished_at := timestamp;
        materials := [VDict [("uri", VStr uri);
                             ("digest", VDict [("sha256", VStr commit_digest)]);
                             ("branch", VStr branch)]] |}.

(** The local [output] of [main], as [str] and the f-string give it. *)
Definition output (argv : list string) : string :=
  Pathlib.str_of_path
    match argv with
    | _ :: p :: _ => p
    | _ => "slsa.json"
    end.

(** [main], lines 86-91: the outcome and the world it leaves. *)
Definition main (argv : list string) (w : SBOM.world FS) : result Z * SBOM.world FS :=
  let output := output argv in
  match build_provenance (SBOM.environ w) with
  | Raise e => (Raise e, w)
  | Ok statement =>
      let text := Json.dumps (sort_keys (asdict statement)) 2 ++ nl in
      match SBOM.write_text output text w with
      | (Raise e, w1) => (Raise e, w1)
      | (Ok _, w1) =>
          let w2 := SBOM.print ("SLSA provenance written to " ++ output) w1 in
          (Ok 0, w2)
      end
  end.

End Provenance.

End SLSA.

(** ** The parts of a document *)

Module Parts.
Import Py Doc Schema.

Definition items_of (v : value) : list (string * value) :=
  match v with
  | VDict kvs => kvs
  | _ => []
  end.

(** The operations of a document, each with its path and method. *)
Definition operations (doc : value) : list (string * string * value) :=
  flat_map (fun path_item =>
              map (fun method_op => (fst path_item, fst method_op, snd method_op))
                  (items_of (snd path_item)))
           (items_of (default VNone (member "paths" doc))).

(** The targets of the references anywhere in a value. *)
Fixpoint references (v : value) : list string :=
  match v with
  | VList xs =>
      (fix go (l : list value) : list string :=
         match l with
         | [] => []
         | x :: l' => references x ++ go l'
         end)%list xs
  | VDict kvs =>
      (fix go (l : list (string * value)) : list string :=
         match l with
         | [] => []
         | (k, x) :: l' =>
             (if String.eqb k "$ref" then strings_of (VList [x]) else [])
             ++ references x ++ go l'
         end)%list kvs
  | _ => []
  end.

(** A schema with the example given for it: under [application/json] of a
    response or a request body, or in a component schema. *)
Definition media_example (holder : value) : list (value * value) :=
  match at_path ["content"; "application/json"] holder with
  | Some media =>
      match member "schema" media, member "example" media with
      | Some sch, Some example => [(sch, example)]
      | _, _ => []
      end
  | None => []
  end.

Definition operation_examples (op : value) : list (value * value) :=
  (flat_map (fun response => media_example (snd response))
            (items_of (default VNone (member "responses" op)))
   ++ match member "requestBody" op with
      | Some body => media_example body
      | None => []
      end)%list.

Definition schema_examples (doc : value) : list (value * value) :=
  flat_map (fun named =>
              match member "example" (snd named) with
              | Some example => [(snd named, example)]
              | None => []
              end)
           (items_of (default VNone (at_path ["components"; "schemas"] doc))).

Definition examples (doc : value) : list (value * value) :=
  (flat_map (fun o => operation_examples (snd o)) (operations doc)
   ++ schema_examples doc)%list.

(** An operation that asks for or accepts a bearer token. *)
Definition takes_bearer (op : value) : bool :=
  match auth_requirement op with
  | Some BearerRequired | Some BearerOptional => true
  | _ => false
  end.

End Parts.

(** ** A file system in memory, for the examples *)

Module MemFS.
Import Py.

(** The directories that exist, and the text of each file by its path. *)
Record state : Type := State {
  dirs : list string;
  texts : gmap string string
}.

(** Opening a path for writing fails on a directory and in a directory that
    does not exist; otherwise the file then holds the data. *)
Definition write (path data : string) (s : state) : option exn * state :=
  if bool_decide (path ∈ dirs s) then (Some (OSError "Is a directory"), s)
  else if bool_decide (Pathlib.parent path ∈ dirs s) then
    (None, State (dirs s) (<[path := data]> (texts s)))
  else (Some (OSError "No such file or directory"), s).

Definition read (path : string) (s : state) : option string := texts s !! path.

#[global] Instance file_system : Pathlib.FileSystem state :=
  {| Pathlib.fs_write := write; Pathlib.fs_read := read |}.

End MemFS.

(** ** The text of the OpenAPI document

    What [json.dumps(build_spec(), indent=2)] followed by a newline is, line
    by line.  A backquote stands for the double quote of the JSON text; the
    document itself has no backquote. *)

Module Expected.

Fixpoint requote (s : string) : string :=
  match s with
  | EmptyString => EmptyString
  | String c rest =>
      String (if Ascii.eqb c "`" then ascii_of_nat 34 else c) (requote rest)
  end.

Definition openapi_json : list string := [
  "{";
  "  `openapi`: `3.0.3`,";
  "  `info`: {";
  "    `title`: `Cave Daemon API`,";
  "    `version`: `0.1.0`,";
  "    `description`: `REST interface for managing sandboxes, executing workloads, and issuing API keys. See docs/api.md for narrative documentation.`";
  "  },";
  "  `servers`: [";
  "    {";
  "      `url`: `http://localhost:8080`,";
  "      `description`: `Local development`";
  "    }";
  "  ],";
  "  `tags`: [";
  "    {";
  "      `name`: `Operations`,";
  "      `description`: `Health and telemetry endpoints.`";
  "    },";
  "    {";
  "      `name`: `Sandboxes`,";
  "      `description`: `Sandbox lifecycle management.`";
  "    },";
  "    {";
  "      `name`: `Auth`,";
  "      `description`: `API key issuance and revocation.`";
  "    }";
  "  ],";
  "  `paths`: {";
  "    `/healthz`: {";
  "      `get`: {";
  "        `tags`: [";
  "          `Operations`";
  "        ],";
  "        `summary`: `Health probe`,";
  "        `operationId`: `getHealthz`,";
  "        `responses`: {";
  "          `200`: {";
  "            `description`: `Service is healthy`";
  "          }";
  "        }";
  "      }";
  "    },";
  "    `/metrics`: {";
  "      `get`: {";
  "        `tags`: [";
  "          `Operations`";
  "        ],";
  "        `summary`: `Prometheus metrics`,";
  "        `operationId`: `getMetrics`,";
  "        `responses`: {";
  "          `200`: {";
  "            `description`: `Metrics payload`,";
  "            `content`: {";
  "              `text/plain`: {";
  "                `schema`: {";
  "                  `type`: `string`";
  "                },";
  "                `example`: `# metrics\nbkg_cave_daemon_up 1\n`";
  "              }";
  "            }";
  "          }";
  "        }";
  "      }";
  "    },";
  "    `/api/v1/sandboxes`: {";
  "      `post`: {";
  "        `tags`: [";
  "          `Sandboxes`";
  "        ],";
  "        `summary`: `Create a sandbox`,";
  "        `operationId`: `createSandbox`,";
  "        `security`: [";
  "          {";
  "            `bearerAuth`: []";
  "          }";
  "        ],";
  "        `requestBody`: {";
  "          `required`: true,";
  "          `content`: {";
  "            `application/json`: {";
  "              `schema`: {";
  "                `$ref`: `#/components/schemas/CreateSandboxRequest`";
  "              },";
  "              `example`: {";
  "                `namespace`: `demo`,";
  "                `name`: `runner`,";
  "                `runtime`: `process`,";
  "                `limits`: {";
  "                  `cpu_millis`: 750,";
  "                  `memory_mib`: 1024,";
  "                  `disk_mib`: 1024,";
  "                  `timeout_seconds`: 120";
  "                }";
  "              }";
  "            }";
  "          }";
  "        },";
  "        `responses`: {";
  "          `200`: {";
  "            `description`: `Sandbox created`,";
  "            `content`: {";
  "              `application/json`: {";
  "                `schema`: {";
  "                  `$ref`: `#/components/schemas/SandboxResponse`";
  "                },";
  "                `example`: {";
  "                  `id`: `9f9c9872-2d9c-4c25-9c36-4e45be927834`,";
  "                  `namespace`: `demo`,";
  "                  `name`: `runner`,";
  "                  `runtime`: `process`,";
  "                  `status`: `created`,";
  "                  `limits`: {";
  "                    `cpu_millis`: 750,";
  "                    `memory_mib`: 1024,";
  "                    `disk_mib`: 1024,";
  "                    `timeout_seconds`: 120";
  "                  },";
  "                  `created_at`: `2025-10-18T12:34:56Z`,";
  "                  `updated_at`: `2025-10-18T12:34:56Z`,";
  "                  `last_started_at`: null,";
  "                  `last_stopped_at`: null";
  "                }";
  "              }";
  "            }";
  "          },";
  "          `400`: {";
  "            `description`: `Bad request`,";
  "            `content`: {";
  "              `application/json`: {";
  "                `schema`: {";
  "                  `$ref`: `#/components/schemas/ErrorResponse`";
  "                },";
  "                `example`: {";
  "                  `error`: `namespace query parameter is required`";
  "                }";
  "              }";
  "            }";
  "          },";
  "          `401`: {";
  "            `description`: `Unauthorized`,";
  "            `content`: {";
  "              `application/json`: {";
  "                `schema`: {";
  "                  `$ref`: `#/components/schemas/ErrorResponse`";
  "                },";
  "                `example`: {";
  "                  `error`: `missing Authorization bearer token`";
  "                }";
  "              }";
  "            }";
  "          },";
  "          `403`: {";
  "            `description`: `Forbidden`,";
  "            `content`: {";
  "              `application/json`: {";
  "                `schema`: {";
  "                  `$ref`: `#/components/schemas/ErrorResponse`";
  "                },";
  "                `example`: {";
  "                  `error`: `insufficient permissions for requested scope`";
  "                }";
  "              }";
  "            }";
  "          },";
  "          `409`: {";
  "            `description`: `Conflict`,";
  "            `content`: {";
  "              `application/json`: {";
  "                `schema`: {";
  "                  `$ref`: `#/components/schemas/ErrorResponse`";
  "                },";
  "                `example`: {";
  "                  `error`: `sandbox 'runner' already exists in namespace 'demo'`";
  "                }";
  "              }";
  "            }";
  "          },";
  "          `500`: {";
  "            `description`: `Internal server error`,";
  "            `content`: {";
  "              `application/json`: {";
  "                `schema`: {";
  "                  `$ref`: `#/components/schemas/ErrorResponse`";
  "                },";
  "                `example`: {";
  "                  `error`: `unexpected internal error`";
  "                }";
  "              }";
  "            }";
  "          }";
  "        }";
  "      },";
  "      `get`: {";
  "        `tags`: [";
  "          `Sandboxes`";
  "        ],";
  "        `summary`: `List sandboxes in a namespace`,";
  "        `operationId`: `listSandboxes`,";
  "        `security`: [";
  "          {";
  "            `bearerAuth`: []";
  "          }";
  "        ],";
  "        `parameters`: [";
  "          {";
  "            `name`: `namespace`,";
  "            `in`: `query`,";
  "            `required`: true,";
  "            `schema`: {";
  "              `type`: `string`";
  "            },";
  "            `description`: `Namespace identifier to filter sandboxes.`";
  "          }";
  "        ],";
  "        `responses`: {";
  "          `200`: {";
  "            `description`: `Sandboxes`,";
  "            `content`: {";
  "              `application/json`: {";
  "                `schema`: {";
  "                  `type`: `array`,";
  "                  `items`: {";
  "                    `$ref`: `#/components/schemas/SandboxResponse`";
  "                  }";
  "                },";
  "                `example`: [";
  "                  {";
  "                    `id`: `9f9c9872-2d9c-4c25-9c36-4e45be927834`,";
  "                    `namespace`: `demo`,";
  "                    `name`: `runner`,";
  "                    `runtime`: `process`,";
  "                    `status`: `created`,";
  "                    `limits`: {";
  "                      `cpu_millis`: 750,";
  "                      `memory_mib`: 1024,";
  "                      `disk_mib`: 1024,";
  "                      `timeout_seconds`: 120";
  "                    },";
  "                    `created_at`: `2025-10-18T12:34:56Z`,";
  "                    `updated_at`: `2025-10-18T12:34:56Z`,";
  "                    `last_started_at`: null,";
  "                    `last_stopped_at`: null";
  "                  }";
  "                ]";
  "              }";
  "            }";
  "          },";
  "          `400`: {";
  "            `description`: `Bad request`,";
  "            `content`: {";
  "              `application/json`: {";
  "                `schema`: {";
  "                  `$ref`: `#/components/schemas/ErrorResponse`";
  "                },";
  "                `example`: {";
  "                  `error`: `namespace query parameter is required`";
  "                }";
  "              }";
  "            }";
  "          },";
  "          `401`: {";
  "            `description`: `Unauthorized`,";
  "            `content`: {";
  "              `application/json`: {";
  "                `schema`: {";
  "                  `$ref`: `#/components/schemas/ErrorResponse`";
  "                },";
  "                `example`: {";
  "                  `error`: `missing Authorization bearer token`";
  "                }";
  "              }";
  "            }";
  "          },";
  "          `403`: {";
  "            `description`: `Forbidden`,";
  "            `content`: {";
  "              `application/json`: {";
  "                `schema`: {";
  "                  `$ref`: `#/components/schemas/ErrorResponse`";
  "                },";
  "                `example`: {";
  "                  `error`: `insufficient permissions for requested scope`";
  "                }";
  "              }";
  "            }";
  "          },";
  "          `500`: {";
  "            `description`: `Internal server error`,";
  "            `content`: {";
  "              `application/json`: {";
  "                `schema`: {";
  "                  `$ref`: `#/components/schemas/ErrorResponse`";
  "                },";
  "                `example`: {";
  "                  `error`: `unexpected internal error`";
  "                }";
  "              }";
  "            }";
  "          }";
  "        }";
  "      }";
  "    },";
  "    `/api/v1/sandboxes/{id}/status`: {";
  "      `get`: {";
  "        `tags`: [";
  "          `Sandboxes`";
  "        ],";
  "        `summary`: `Inspect sandbox`,";
  "        `operationId`: `getSandbox`,";
  "        `security`: [";
  "          {";
  "            `bearerAuth`: []";
  "          }";
  "        ],";
  "        `parameters`: [";
  "          {";
  "            `name`: `id`,";
  "            `in`: `path`,";
  "            `required`: true,";
  "            `schema`: {";
  "              `type`: `string`,";
  "              `format`: `uuid`";
  "            }";
  "          }";
  "        ],";
  "        `responses`: {";
  "          `200`: {";
  "            `description`: `Sandbox details`,";
  "            `content`: {";
  "              `application/json`: {";
  "                `schema`: {";
  "                  `$ref`: `#/components/schemas/SandboxResponse`";
  "                },";
  "                `example`: {";
  "                  `id`: `9f9c9872-2d9c-4c25-9c36-4e45be927834`,";
  "                  `namespace`: `demo`,";
  "                  `name`: `runner`,";
  "                  `runtime`: `process`,";
  "                  `status`: `created`,";
  "                  `limits`: {";
  "                    `cpu_millis`: 750,";
  "                    `memory_mib`: 1024,";
  "                    `disk_mib`: 1024,";
  "                    `timeout_seconds`: 120";
  "                  },";
  "                  `created_at`: `2025-10-18T12:34:56Z`,";
  "                  `updated_at`: `2025-10-18T12:34:56Z`,";
  "                  `last_started_at`: null,";
  "                  `last_stopped_at`: null";
  "                }";
  "              }";
  "            }";
  "          },";
  "          `401`: {";
  "            `description`: `Unauthorized`,";
  "            `content`: {";
  "              `application/json`: {";
  "                `schema`: {";
  "                  `$ref`: `#/components/schemas/ErrorResponse`";
  "                },";
  "                `example`: {";
  "                  `error`: `missing Authorization bearer token`";
  "                }";
  "              }";
  "            }";
  "          },";
  "          `403`: {";
  "            `description`: `Forbidden`,";
  "            `content`: {";
  "              `application/json`: {";
  "                `schema`: {";
  "                  `$ref`: `#/components/schemas/ErrorResponse`";
  "                },";
  "                `example`: {";
  "                  `error`: `insufficient permissions for requested scope`";
  "                }";
  "              }";
  "            }";
  "          },";
  "          `404`: {";
  "            `description`: `Not found`,";
  "            `content`: {";
  "              `application/json`: {";
  "                `schema`: {";
  "                  `$ref`: `#/components/schemas/ErrorResponse`";
  "                },";
  "                `example`: {";
  "                  `error`: `sandbox 9f9c... not found`";
  "                }";
  "              }";
  "            }";
  "          },";
  "          `500`: {";
  "            `description`: `Internal server error`,";
  "            `content`: {";
  "              `application/json`: {";
  "                `schema`: {";
  "                  `$ref`: `#/components/schemas/ErrorResponse`";
  "                },";
  "                `example`: {";
  "                  `error`: `unexpected internal error`";
  "                }";
  "              }";
  "            }";
  "          }";
  "        }";
  "      }";
  "    },";
  "    `/api/v1/sandboxes/{id}/start`: {";
  "      `post`: {";
  "        `tags`: [";
  "          `Sandboxes`";
  "        ],";
  "        `summary`: `Start a sandbox`,";
  "        `operationId`: `startSandbox`,";
  "        `security`: [";
  "          {";
  "            `bearerAuth`: []";
  "          }";
  "        ],";
  "        `parameters`: [";
  "          {";
  "            `name`: `id`,";
  "            `in`: `path`,";
  "            `required`: true,";
  "            `schema`: {";
  "              `type`: `string`,";
  "              `format`: `uuid`";
  "            }";
  "          }";
  "        ],";
  "        `responses`: {";
  "          `200`: {";
  "            `description`: `Sandbox started`,";
  "            `content`: {";
  "              `application/json`: {";
  "                `schema`: {";
  "                  `$ref`: `#/components/schemas/SandboxResponse`";
  "                },";
  "                `example`: {";
  "                  `id`: `9f9c9872-2d9c-4c25-9c36-4e45be927834`,";
  "                  `namespace`: `demo`,";
  "                  `name`: `runner`,";
  "                  `runtime`: `process`,";
  "                  `status`: `running`,";
  "                  `limits`: {";
  "                    `cpu_millis`: 750,";
  "                    `memory_mib`: 1024,";
  "                    `disk_mib`: 1024,";
  "                    `timeout_seconds`: 120";
  "                  },";
  "                  `created_at`: `2025-10-18T12:34:56Z`,";
  "                  `updated_at`: `2025-10-18T12:34:56Z`,";
  "                  `last_started_at`: `2025-10-18T12:35:05Z`,";
  "                  `last_stopped_at`: null";
  "                }";
  "              }";
  "            }";
  "          },";
  "          `401`: {";
  "            `description`: `Unauthorized`,";
  "            `content`: {";
  "              `application/json`: {";
  "                `schema`: {";
  "                  `$ref`: `#/components/schemas/ErrorResponse`";
  "                },";
  "                `example`: {";
  "                  `error`: `missing Authorization bearer token`";
  "                }";
  "              }";
  "            }";
  "          },";
  "          `403`: {";
  "            `description`: `Forbidden`,";
  "            `content`: {";
  "              `application/json`: {";
  "                `schema`: {";
  "                  `$ref`: `#/components/schemas/ErrorResponse`";
  "                },";
  "                `example`: {";
  "                  `error`: `insufficient permissions for requested scope`";
  "                }";
  "              }";
  "            }";
  "          },";
  "          `404`: {";
  "            `description`: `Not found`,";
  "            `content`: {";
  "              `application/json`: {";
  "                `schema`: {";
  "                  `$ref`: `#/components/schemas/ErrorResponse`";
  "                },";
  "                `example`: {";
  "                  `error`: `sandbox 9f9c... not found`";
  "                }";
  "              }";
  "            }";
  "          },";
  "          `409`: {";
  "            `description`: `Conflict`,";
  "            `content`: {";
  "              `application/json`: {";
  "                `schema`: {";
  "                  `$ref`: `#/components/schemas/ErrorResponse`";
  "                },";
  "                `example`: {";
  "                  `error`: `sandbox 'runner' already exists in namespace 'demo'`";
  "                }";
  "              }";
  "            }";
  "          },";
  "          `500`: {";
  "            `description`: `Internal server error`,";
  "            `content`: {";
  "              `application/json`: {";
  "                `schema`: {";
  "                  `$ref`: `#/components/schemas/ErrorResponse`";
  "                },";
  "                `example`: {";
  "                  `error`: `unexpected internal error`";
  "                }";
  "              }";
  "            }";
  "          }";
  "        }";
  "      }";
  "    },";
  "    `/api/v1/sandboxes/{id}/exec`: {";
  "      `post`: {";
  "        `tags`: [";
  "          `Sandboxes`";
  "        ],";
  "        `summary`: `Execute a command inside a sandbox`,";
  "        `operationId`: `execSandbox`,";
  "        `security`: [";
  "          {";
  "            `bearerAuth`: []";
  "          }";
  "        ],";
  "        `parameters`: [";
  "          {";
  "            `name`: `id`,";
  "            `in`: `path`,";
  "            `required`: true,";
  "            `schema`: {";
  "              `type`: `string`,";
  "              `format`: `uuid`";
  "            }";
  "          }";
  "        ],";
  "        `requestBody`: {";
  "          `required`: true,";
  "          `content`: {";
  "            `application/json`: {";
  "              `schema`: {";
  "                `$ref`: `#/components/schemas/ExecRequest`";
  "              },";
  "              `example`: {";
  "                `command`: `python`,";
  "                `args`: [";
  "                  `-c`,";
  "                  `print('hello')`";
  "                ],";
  "                `stdin`: null,";
  "                `timeout_ms`: 2000";
  "              }";
  "            }";
  "          }";
  "        },";
  "        `responses`: {";
  "          `200`: {";
  "            `description`: `Execution result`,";
  "            `content`: {";
  "              `application/json`: {";
  "                `schema`: {";
  "                  `$ref`: `#/components/schemas/ExecResponse`";
  "                },";
  "                `example`: {";
  "                  `exit_code`: 0,";
  "                  `stdout`: `hello\n`,";
  "                  `stderr`: ``,";
  "                  `duration_ms`: 42,";
  "                  `timed_out`: false";
  "                }";
  "              }";
  "            }";
  "          },";
  "          `401`: {";
  "            `description`: `Unauthorized`,";
  "            `content`: {";
  "              `application/json`: {";
  "                `schema`: {";
  "                  `$ref`: `#/components/schemas/ErrorResponse`";
  "                },";
  "                `example`: {";
  "                  `error`: `missing Authorization bearer token`";
  "                }";
  "              }";
  "            }";
  "          },";
  "          `403`: {";
  "            `description`: `Forbidden`,";
  "            `content`: {";
  "              `application/json`: {";
  "                `schema`: {";
  "                  `$ref`: `#/components/schemas/ErrorResponse`";
  "                },";
  "                `example`: {";
  "                  `error`: `insufficient permissions for requested scope`";
  "                }";
  "              }";
  "            }";
  "          },";
  "          `404`: {";
  "            `description`: `Not found`,";
  "            `content`: {";
  "              `application/json`: {";
  "                `schema`: {";
  "                  `$ref`: `#/components/schemas/ErrorResponse`";
  "                },";
  "                `example`: {";
  "                  `error`: `sandbox 9f9c... not found`";
  "                }";
  "              }";
  "            }";
  "          },";
  "          `500`: {";
  "            `description`: `Internal server error`,";
  "            `content`: {";
  "              `application/json`: {";
  "                `schema`: {";
  "                  `$ref`: `#/components/schemas/ErrorResponse`";
  "                },";
  "                `example`: {";
  "                  `error`: `unexpected internal error`";
  "                }";
  "              }";
  "            }";
  "          }";
  "        }";
  "      }";
  "    },";
  "    `/api/v1/sandboxes/{id}/stop`: {";
  "      `post`: {";
  "        `tags`: [";
  "          `Sandboxes`";
  "        ],";
  "        `summary`: `Stop a sandbox`,";
  "        `operationId`: `stopSandbox`,";
  "        `security`: [";
  "          {";
  "            `bearerAuth`: []";
  "          }";
  "        ],";
  "        `parameters`: [";
  "          {";
  "            `name`: `id`,";
  "            `in`: `path`,";
  "            `required`: true,";
  "            `schema`: {";
  "              `type`: `string`,";
  "              `format`: `uuid`";
  "            }";
  "          }";
  "        ],";
  "        `responses`: {";
  "          `204`: {";
  "            `description`: `Sandbox stopped`";
  "          },";
  "          `401`: {";
  "            `description`: `Unauthorized`,";
  "            `content`: {";
  "              `application/json`: {";
  "                `schema`: {";
  "                  `$ref`: `#/components/schemas/ErrorResponse`";
  "                },";
  "                `example`: {";
  "                  `error`: `missing Authorization bearer token`";
  "                }";
  "              }";
  "            }";
  "          },";
  "          `403`: {";
  "            `description`: `Forbidden`,";
  "            `content`: {";
  "              `application/json`: {";
  "                `schema`: {";
  "                  `$ref`: `#/components/schemas/ErrorResponse`";
  "                },";
  "                `example`: {";
  "                  `error`: `insufficient permissions for requested scope`";
  "                }";
  "              }";
  "            }";
  "          },";
  "          `404`: {";
  "            `description`: `Not found`,";
  "            `content`: {";
  "              `application/json`: {";
  "                `schema`: {";
  "                  `$ref`: `#/components/schemas/ErrorResponse`";
  "                },";
  "                `example`: {";
  "                  `error`: `sandbox 9f9c... not found`";
  "                }";
  "              }";
  "            }";
  "          },";
  "          `409`: {";
  "            `description`: `Conflict`,";
  "            `content`: {";
  "              `application/json`: {";
  "                `schema`: {";
  "                  `$ref`: `#/components/schemas/ErrorResponse`";
  "                },";
  "                `example`: {";
  "                  `error`: `sandbox 'runner' already exists in namespace 'demo'`";
  "                }";
  "              }";
  "            }";
  "          },";
  "          `500`: {";
  "            `description`: `Internal server error`,";
  "            `content`: {";
  "              `application/json`: {";
  "                `schema`: {";
  "                  `$ref`: `#/components/schemas/ErrorResponse`";
  "                },";
  "                `example`: {";
  "                  `error`: `unexpected internal error`";
  "                }";
  "              }";
  "            }";
  "          }";
  "        }";
  "      }";
  "    },";
  "    `/api/v1/sandboxes/{id}`: {";
  "      `delete`: {";
  "        `tags`: [";
  "          `Sandboxes`";
  "        ],";
  "        `summary`: `Delete a sandbox`,";
  "        `operationId`: `deleteSandbox`,";
  "        `security`: [";
  "          {";
  "            `bearerAuth`: []";
  "          }";
  "        ],";
  "        `parameters`: [";
  "          {";
  "            `name`: `id`,";
  "            `in`: `path`,";
  "            `required`: true,";
  "            `schema`: {";
  "              `type`: `string`,";
  "              `format`: `uuid`";
  "            }";
  "          }";
  "        ],";
  "        `responses`: {";
  "          `204`: {";
  "            `description`: `Sandbox deleted`";
  "          },";
  "          `401`: {";
  "            `description`: `Unauthorized`,";
  "            `content`: {";
  "              `application/json`: {";
  "                `schema`: {";
  "                  `$ref`: `#/components/schemas/ErrorResponse`";
  "                },";
  "                `example`: {";
  "                  `error`: `missing Authorization bearer token`";
  "                }";
  "              }";
  "            }";
  "          },";
  "          `403`: {";
  "            `description`: `Forbidden`,";
  "            `content`: {";
  "              `application/json`: {";
  "                `schema`: {";
  "                  `$ref`: `#/components/schemas/ErrorResponse`";
  "                },";
  "                `example`: {";
  "                  `error`: `insufficient permissions for requested scope`";
  "                }";
  "              }";
  "            }";
  "          },";
  "          `404`: {";
  "            `description`: `Not found`,";
  "            `content`: {";
  "              `application/json`: {";
  "                `schema`: {";
  "                  `$ref`: `#/components/schemas/ErrorResponse`";
  "                },";
  "                `example`: {";
  "                  `error`: `sandbox 9f9c... not found`";
  "                }";
  "              }";
  "            }";
  "          },";
  "          `500`: {";
  "            `description`: `Internal server error`,";
  "            `content`: {";
  "              `application/json`: {";
  "                `schema`: {";
  "                  `$ref`: `#/components/schemas/ErrorResponse`";
  "                },";
  "                `example`: {";
  "                  `error`: `unexpected internal error`";
  "                }";
  "              }";
  "            }";
  "          }";
  "        }";
  "      }";
  "    },";
  "    `/api/v1/sandboxes/{id}/executions`: {";
  "      `get`: {";
  "        `tags`: [";
  "          `Sandboxes`";
  "        ],";
  "        `summary`: `List recent executions`,";
  "        `operationId`: `listSandboxExecutions`,";
  "        `security`: [";
  "          {";
  "            `bearerAuth`: []";
  "          }";
  "        ],";
  "        `parameters`: [";
  "          {";
  "            `name`: `id`,";
  "            `in`: `path`,";
  "            `required`: true,";
  "            `schema`: {";
  "              `type`: `string`,";
  "              `format`: `uuid`";
  "            }";
  "          },";
  "          {";
  "            `name`: `limit`,";
  "            `in`: `query`,";
  "            `required`: false,";
  "            `schema`: {";
  "              `type`: `integer`,";
  "              `format`: `int32`,";
  "              `minimum`: 1,";
  "              `maximum`: 100";
  "            },";
  "            `description`: `Maximum number of execution records (default 20).`";
  "          }";
  "        ],";
  "        `responses`: {";
  "          `200`: {";
  "            `description`: `Execution history`,";
  "            `content`: {";
  "              `application/json`: {";
  "                `schema`: {";
  "                  `type`: `array`,";
  "                  `items`: {";
  "                    `$ref`: `#/components/schemas/ExecutionRecord`";
  "                  }";
  "                },";
  "                `example`: [";
  "                  {";
  "                    `command`: `python`,";
  "                    `args`: [";
  "                      `-c`,";
  "                      `print('hello')`";
  "                    ],";
  "                    `executed_at`: `2025-10-18T12:35:10Z`,";
  "                    `exit_code`: 0,";
  "                    `stdout`: `hello\n`,";
  "                    `stderr`: ``,";
  "                    `duration_ms`: 55,";
  "                    `timed_out`: false";
  "                  }";
  "                ]";
  "              }";
  "            }";
  "          },";
  "          `401`: {";
  "            `description`: `Unauthorized`,";
  "            `content`: {";
  "              `application/json`: {";
  "                `schema`: {";
  "                  `$ref`: `#/components/schemas/ErrorResponse`";
  "                },";
  "                `example`: {";
  "                  `error`: `missing Authorization bearer token`";
  "                }";
  "              }";
  "            }";
  "          },";
  "          `403`: {";
  "            `description`: `Forbidden`,";
  "            `content`: {";
  "              `application/json`: {";
  "                `schema`: {";
  "                  `$ref`: `#/components/schemas/ErrorResponse`";
  "                },";
  "                `example`: {";
  "                  `error`: `insufficient permissions for requested scope`";
  "                }";
  "              }";
  "            }";
  "          },";
  "          `404`: {";
  "            `description`: `Not found`,";
  "            `content`: {";
  "              `application/json`: {";
  "                `schema`: {";
  "                  `$ref`: `#/components/schemas/ErrorResponse`";
  "                },";
  "                `example`: {";
  "                  `error`: `sandbox 9f9c... not found`";
  "                }";
  "              }";
  "            }";
  "          },";
  "          `500`: {";
  "            `description`: `Internal server error`,";
  "            `content`: {";
  "              `application/json`: {";
  "                `schema`: {";
  "                  `$ref`: `#/components/schemas/ErrorResponse`";
  "                },";
  "                `example`: {";
  "                  `error`: `unexpected internal error`";
  "                }";
  "              }";
  "            }";
  "          }";
  "        }";
  "      }";
  "    },";
  "    `/api/v1/auth/keys`: {";
  "      `post`: {";
  "        `tags`: [";
  "          `Auth`";
  "        ],";
  "        `summary`: `Issue an API key`,";
  "        `operationId`: `issueKey`,";
  "        `security`: [";
  "          {";
  "            `bearerAuth`: []";
  "          },";
  "          {}";
  "        ],";
  "        `requestBody`: {";
  "          `required`: true,";
  "          `content`: {";
  "            `application/json`: {";
  "              `schema`: {";
  "                `$ref`: `#/components/schemas/CreateKeyRequest`";
  "              },";
  "              `example`: {";
  "                `scope`: {";
  "                  `type`: `namespace`,";
  "                  `namespace`: `demo`";
  "                },";
  "                `rate_limit`: 100,";
  "                `ttl_seconds`: 2592000";
  "              }";
  "            }";
  "          }";
  "        },";
  "        `responses`: {";
  "          `201`: {";
  "            `description`: `API key issued`,";
  "            `content`: {";
  "              `application/json`: {";
  "                `schema`: {";
  "                  `$ref`: `#/components/schemas/IssuedKeyResponse`";
  "                },";
  "                `example`: {";
  "                  `token`: `bkg_demo_abcdefghijklmno`,";
  "                  `info`: {";
  "                    `id`: `4b2a4d3a-4cbe-4b05-87a3-9528cdf6a1ed`,";
  "                    `scope`: {";
  "                      `type`: `namespace`,";
  "                      `namespace`: `demo`";
  "                    },";
  "                    `rate_limit`: 100,";
  "                    `created_at`: `2025-10-18T12:00:00Z`,";
  "                    `last_used_at`: null,";
  "                    `expires_at`: `2025-11-17T12:00:00Z`,";
  "                    `key_prefix`: `bkg_demo_abcd`";
  "                  }";
  "                }";
  "              }";
  "            }";
  "          },";
  "          `401`: {";
  "            `description`: `Unauthorized`,";
  "            `content`: {";
  "              `application/json`: {";
  "                `schema`: {";
  "                  `$ref`: `#/components/schemas/ErrorResponse`";
  "                },";
  "                `example`: {";
  "                  `error`: `missing Authorization bearer token`";
  "                }";
  "              }";
  "            }";
  "          },";
  "          `403`: {";
  "            `description`: `Forbidden`,";
  "            `content`: {";
  "              `application/json`: {";
  "                `schema`: {";
  "                  `$ref`: `#/components/schemas/ErrorResponse`";
  "                },";
  "                `example`: {";
  "                  `error`: `insufficient permissions for requested scope`";
  "                }";
  "              }";
  "            }";
  "          },";
  "          `500`: {";
  "            `description`: `Internal server error`,";
  "            `content`: {";
  "              `application/json`: {";
  "                `schema`: {";
  "                  `$ref`: `#/components/schemas/ErrorResponse`";
  "                },";
  "                `example`: {";
  "                  `error`: `unexpected internal error`";
  "                }";
  "              }";
  "            }";
  "          }";
  "        }";
  "      },";
  "      `get`: {";
  "        `tags`: [";
  "          `Auth`";
  "        ],";
  "        `summary`: `List issued API keys`,";
  "        `operationId`: `listKeys`,";
  "        `security`: [";
  "          {";
  "            `bearerAuth`: []";
  "          }";
  "        ],";
  "        `responses`: {";
  "          `200`: {";
  "            `description`: `Known API keys`,";
  "            `content`: {";
  "              `application/json`: {";
  "                `schema`: {";
  "                  `type`: `array`,";
  "                  `items`: {";
  "                    `$ref`: `#/components/schemas/KeyInfo`";
  "                  }";
  "                },";
  "                `example`: [";
  "                  {";
  "                    `id`: `4b2a4d3a-4cbe-4b05-87a3-9528cdf6a1ed`,";
  "                    `scope`: {";
  "                      `type`: `namespace`,";
  "                      `namespace`: `demo`";
  "                    },";
  "                    `rate_limit`: 100,";
  "                    `created_at`: `2025-10-18T12:00:00Z`,";
  "                    `last_used_at`: null,";
  "                    `expires_at`: `2025-11-17T12:00:00Z`,";
  "                    `key_prefix`: `bkg_demo_abcd`";
  "                  }";
  "                ]";
  "              }";
  "            }";
  "          },";
  "          `401`: {";
  "            `description`: `Unauthorized`,";
  "            `content`: {";
  "              `application/json`: {";
  "                `schema`: {";
  "                  `$ref`: `#/components/schemas/ErrorResponse`";
  "                },";
  "                `example`: {";
  "                  `error`: `missing Authorization bearer token`";
  "                }";
  "              }";
  "            }";
  "          },";
  "          `403`: {";
  "            `description`: `Forbidden`,";
  "            `content`: {";
  "              `application/json`: {";
  "                `schema`: {";
  "                  `$ref`: `#/components/schemas/ErrorResponse`";
  "                },";
  "                `example`: {";
  "                  `error`: `insufficient permissions for requested scope`";
  "                }";
  "              }";
  "            }";
  "          },";
  "          `500`: {";
  "            `description`: `Internal server error`,";
  "            `content`: {";
  "              `application/json`: {";
  "                `schema`: {";
  "                  `$ref`: `#/components/schemas/ErrorResponse`";
  "                },";
  "                `example`: {";
  "                  `error`: `unexpected internal error`";
  "                }";
  "              }";
  "            }";
  "          }";
  "        }";
  "      }";
  "    },";
  "    `/api/v1/auth/keys/rotate`: {";
  "      `post`: {";
  "        `tags`: [";
  "          `Auth`";
  "        ],";
  "        `summary`: `Rotate an API key`,";
  "        `operationId`: `rotateKey`,";
  "        `security`: [";
  "          {";
  "            `bearerAuth`: []";
  "          }";
  "        ],";
  "        `requestBody`: {";
  "          `required`: true,";
  "          `content`: {";
  "            `application/json`: {";
  "              `schema`: {";
  "                `$ref`: `#/components/schemas/RotateKeyRequest`";
  "              },";
  "              `example`: {";
  "                `key_id`: `4b2a4d3a-4cbe-4b05-87a3-9528cdf6a1ed`,";
  "                `rate_limit`: 200";
  "              }";
  "            }";
  "          }";
  "        },";
  "        `responses`: {";
  "          `200`: {";
  "            `description`: `API key rotated`,";
  "            `content`: {";
  "              `application/json`: {";
  "                `schema`: {";
  "                  `$ref`: `#/components/schemas/RotatedKeyResponse`";
  "                },";
  "                `example`: {";
  "                  `token`: `bkg_admin_newtokenvalue`,";
  "                  `info`: {";
  "                    `id`: `a7d6b321-2c52-4e76-9af2-2f893d4856fc`,";
  "                    `scope`: {";
  "                      `type`: `admin`";
  "                    },";
  "                    `rate_limit`: 200,";
  "                    `created_at`: `2025-10-18T12:10:00Z`,";
  "                    `key_prefix`: `bkg_admin_new`,";
  "                    `rotated_from`: `4b2a4d3a-4cbe-4b05-87a3-9528cdf6a1ed`,";
  "                    `rotated_at`: `2025-10-18T12:10:00Z`";
  "                  },";
  "                  `previous`: {";
  "                    `id`: `4b2a4d3a-4cbe-4b05-87a3-9528cdf6a1ed`,";
  "                    `scope`: {";
  "                      `type`: `namespace`,";
  "                      `namespace`: `demo`";
  "                    },";
  "                    `rate_limit`: 100,";
  "                    `created_at`: `2025-10-18T12:00:00Z`,";
  "                    `last_used_at`: null,";
  "                    `expires_at`: `2025-11-17T12:00:00Z`,";
  "                    `key_prefix`: `bkg_demo_abcd`";
  "                  },";
  "                  `webhook`: {";
  "                    `event_id`: `5b0c33d4-a1d8-4a1c-9844-3d955b1b4c6e`,";
  "                    `signature`: `sha256=abc123...`,";
  "                    `payload`: {";
  "                      `event`: `cave.auth.key.rotated`,";
  "                      `key_id`: `a7d6b321-2c52-4e76-9af2-2f893d4856fc`,";
  "                      `previous_key_id`: `4b2a4d3a-4cbe-4b05-87a3-9528cdf6a1ed`,";
  "                      `rotated_at`: `2025-10-18T12:10:00Z`,";
  "                      `scope`: {";
  "                        `type`: `admin`";
  "                      },";
  "                      `owner`: `admin`,";
  "                      `key_prefix`: `bkg_admin_new`";
  "                    }";
  "                  }";
  "                }";
  "              }";
  "            }";
  "          },";
  "          `400`: {";
  "            `description`: `Bad request`,";
  "            `content`: {";
  "              `application/json`: {";
  "                `schema`: {";
  "                  `$ref`: `#/components/schemas/ErrorResponse`";
  "                },";
  "                `example`: {";
  "                  `error`: `namespace query parameter is required`";
  "                }";
  "              }";
  "            }";
  "          },";
  "          `401`: {";
  "            `description`: `Unauthorized`,";
  "            `content`: {";
  "              `application/json`: {";
  "                `schema`: {";
  "                  `$ref`: `#/components/schemas/ErrorResponse`";
  "                },";
  "                `example`: {";
  "                  `error`: `missing Authorization bearer token`";
  "                }";
  "              }";
  "            }";
  "          },";
  "          `403`: {";
  "            `description`: `Forbidden`,";
  "            `content`: {";
  "              `application/json`: {";
  "                `schema`: {";
  "                  `$ref`: `#/components/schemas/ErrorResponse`";
  "                },";
  "                `example`: {";
  "                  `error`: `insufficient permissions for requested scope`";
  "                }";
  "              }";
  "            }";
  "          },";
  "          `404`: {";
  "            `description`: `Not found`,";
  "            `content`: {";
  "              `application/json`: {";
  "                `schema`: {";
  "                  `$ref`: `#/components/schemas/ErrorResponse`";
  "                },";
  "                `example`: {";
  "                  `error`: `sandbox 9f9c... not found`";
  "                }";
  "              }";
  "            }";
  "          },";
  "          `500`: {";
  "            `description`: `Internal server error`,";
  "            `content`: {";
  "              `application/json`: {";
  "                `schema`: {";
  "                  `$ref`: `#/components/schemas/ErrorResponse`";
  "                },";
  "                `example`: {";
  "                  `error`: `unexpected internal error`";
  "                }";
  "              }";
  "            }";
  "          }";
  "        }";
  "      }";
  "    },";
  "    `/api/v1/auth/keys/rotated`: {";
  "      `post`: {";
  "        `tags`: [";
  "          `Auth`";
  "        ],";
  "        `summary`: `Verify a rotation webhook payload`,";
  "        `operationId`: `verifyRotationWebhook`,";
  "        `security`: [";
  "          {";
  "            `bearerAuth`: []";
  "          }";
  "        ],";
  "        `parameters`: [";
  "          {";
  "            `name`: `X-Cave-Webhook-Signature`,";
  "            `in`: `header`,";
  "            `required`: true,";
  "            `schema`: {";
  "              `type`: `string`";
  "            },";
  "            `description`: `HMAC signature generated with CAVE_ROTATION_WEBHOOK_SECRET.`";
  "          }";
  "        ],";
  "        `requestBody`: {";
  "          `required`: true,";
  "          `content`: {";
  "            `application/json`: {";
  "              `schema`: {";
  "                `$ref`: `#/components/schemas/RotationWebhookPayload`";
  "              },";
  "              `example`: {";
  "                `event`: `cave.auth.key.rotated`,";
  "                `key_id`: `a7d6b321-2c52-4e76-9af2-2f893d4856fc`,";
  "                `previous_key_id`: `4b2a4d3a-4cbe-4b05-87a3-9528cdf6a1ed`,";
  "                `rotated_at`: `2025-10-18T12:10:00Z`,";
  "                `scope`: {";
  "                  `type`: `admin`";
  "                },";
  "                `owner`: `admin`,";
  "                `key_prefix`: `bkg_admin_new`";
  "              }";
  "            }";
  "          }";
  "        },";
  "        `responses`: {";
  "          `204`: {";
  "            `description`: `Webhook accepted`";
  "          },";
  "          `401`: {";
  "            `description`: `Unauthorized`,";
  "            `content`: {";
  "              `application/json`: {";
  "                `schema`: {";
  "                  `$ref`: `#/components/schemas/ErrorResponse`";
  "                },";
  "                `example`: {";
  "                  `error`: `missing Authorization bearer token`";
  "                }";
  "              }";
  "            }";
  "          },";
  "          `403`: {";
  "            `description`: `Forbidden`,";
  "            `content`: {";
  "              `application/json`: {";
  "                `schema`: {";
  "                  `$ref`: `#/components/schemas/ErrorResponse`";
  "                },";
  "                `example`: {";
  "                  `error`: `insufficient permissions for requested scope`";
  "                }";
  "              }";
  "            }";
  "          },";
  "          `500`: {";
  "            `description`: `Internal server error`,";
  "            `content`: {";
  "              `application/json`: {";
  "                `schema`: {";
  "                  `$ref`: `#/components/schemas/ErrorResponse`";
  "                },";
  "                `example`: {";
  "                  `error`: `unexpected internal error`";
  "                }";
  "              }";
  "            }";
  "          }";
  "        }";
  "      }";
  "    },";
  "    `/api/v1/auth/keys/{id}`: {";
  "      `delete`: {";
  "        `tags`: [";
  "          `Auth`";
  "        ],";
  "        `summary`: `Revoke an API key`,";
  "        `operationId`: `revokeKey`,";
  "        `security`: [";
  "          {";
  "            `bearerAuth`: []";
  "          }";
  "        ],";
  "        `parameters`: [";
  "          {";
  "            `name`: `id`,";
  "            `in`: `path`,";
  "            `required`: true,";
  "            `schema`: {";
  "              `type`: `string`,";
  "              `format`: `uuid`";
  "            }";
  "          }";
  "        ],";
  "        `responses`: {";
  "          `204`: {";
  "            `description`: `Key revoked`";
  "          },";
  "          `401`: {";
  "            `description`: `Unauthorized`,";
  "            `content`: {";
  "              `application/json`: {";
  "                `schema`: {";
  "                  `$ref`: `#/components/schemas/ErrorResponse`";
  "                },";
  "                `example`: {";
  "                  `error`: `missing Authorization bearer token`";
  "                }";
  "              }";
  "            }";
  "          },";
  "          `403`: {";
  "            `description`: `Forbidden`,";
  "            `content`: {";
  "              `application/json`: {";
  "                `schema`: {";
  "                  `$ref`: `#/components/schemas/ErrorResponse`";
  "                },";
  "                `example`: {";
  "                  `error`: `insufficient permissions for requested scope`";
  "                }";
  "              }";
  "            }";
  "          },";
  "          `404`: {";
  "            `description`: `Not found`,";
  "            `content`: {";
  "              `application/json`: {";
  "                `schema`: {";
  "                  `$ref`: `#/components/schemas/ErrorResponse`";
  "                },";
  "                `example`: {";
  "                  `error`: `sandbox 9f9c... not found`";
  "                }";
  "              }";
  "            }";
  "          },";
  "          `500`: {";
  "            `description`: `Internal server error`,";
  "            `content`: {";
  "              `application/json`: {";
  "                `schema`: {";
  "                  `$ref`: `#/components/schemas/ErrorResponse`";
  "                },";
  "                `example`: {";
  "                  `error`: `unexpected internal error`";
  "                }";
  "              }";
  "            }";
  "          }";
  "        }";
  "      }";
  "    }";
  "  },";
  "  `components`: {";
  "    `securitySchemes`: {";
  "      `bearerAuth`: {";
  "        `type`: `http`,";
  "        `scheme`: `bearer`,";
  "        `bearerFormat`: `API Token`";
  "      }";
  "    },";
  "    `schemas`: {";
  "      `ErrorResponse`: {";
  "        `type`: `object`,";
  "        `required`: [";
  "          `error`";
  "        ],";
  "        `properties`: {";
  "          `error`: {";
  "            `type`: `string`,";
  "            `description`: `Human readable error message.`";
  "          }";
  "        },";
  "        `example`: {";
  "          `error`: `sandbox 123 not found`";
  "        }";
  "      },";
  "      `SandboxLimits`: {";
  "        `type`: `object`,";
  "        `required`: [";
  "          `cpu_millis`,";
  "          `memory_mib`,";
  "          `disk_mib`,";
  "          `timeout_seconds`";
  "        ],";
  "        `properties`: {";
  "          `cpu_millis`: {";
  "            `type`: `integer`,";
  "            `format`: `int32`,";
  "            `description`: `CPU time slice in milli-CPUs.`";
  "          },";
  "          `memory_mib`: {";
  "            `type`: `integer`,";
  "            `format`: `int64`,";
  "            `description`: `Memory limit in MiB.`";
  "          },";
  "          `disk_mib`: {";
  "            `type`: `integer`,";
  "            `format`: `int64`,";
  "            `description`: `Ephemeral disk limit in MiB.`";
  "          },";
  "          `timeout_seconds`: {";
  "            `type`: `integer`,";
  "            `format`: `int32`,";
  "            `description`: `Execution timeout in seconds.`";
  "          }";
  "        }";
  "      },";
  "      `SandboxResponse`: {";
  "        `type`: `object`,";
  "        `required`: [";
  "          `id`,";
  "          `namespace`,";
  "          `name`,";
  "          `runtime`,";
  "          `status`,";
  "          `limits`,";
  "          `created_at`,";
  "          `updated_at`";
  "        ],";
  "        `properties`: {";
  "          `id`: {";
  "            `type`: `string`,";
  "            `format`: `uuid`";
  "          },";
  "          `namespace`: {";
  "            `type`: `string`";
  "          },";
  "          `name`: {";
  "            `type`: `string`";
  "          },";
  "          `runtime`: {";
  "            `type`: `string`";
  "          },";
  "          `status`: {";
  "            `type`: `string`,";
  "            `description`: `Current sandbox lifecycle state.`";
  "          },";
  "          `limits`: {";
  "            `$ref`: `#/components/schemas/SandboxLimits`";
  "          },";
  "          `created_at`: {";
  "            `type`: `string`,";
  "            `format`: `date-time`";
  "          },";
  "          `updated_at`: {";
  "            `type`: `string`,";
  "            `format`: `date-time`";
  "          },";
  "          `last_started_at`: {";
  "            `type`: `string`,";
  "            `format`: `date-time`,";
  "            `nullable`: true";
  "          },";
  "          `last_stopped_at`: {";
  "            `type`: `string`,";
  "            `format`: `date-time`,";
  "            `nullable`: true";
  "          }";
  "        },";
  "        `example`: {";
  "          `id`: `9f9c9872-2d9c-4c25-9c36-4e45be927834`,";
  "          `namespace`: `demo`,";
  "          `name`: `runner`,";
  "          `runtime`: `process`,";
  "          `status`: `created`,";
  "          `limits`: {";
  "            `cpu_millis`: 750,";
  "            `memory_mib`: 1024,";
  "            `disk_mib`: 1024,";
  "            `timeout_seconds`: 120";
  "          },";
  "          `created_at`: `2025-10-18T12:34:56Z`,";
  "          `updated_at`: `2025-10-18T12:34:56Z`,";
  "          `last_started_at`: null,";
  "          `last_stopped_at`: null";
  "        }";
  "      },";
  "      `CreateSandboxLimits`: {";
  "        `type`: `object`,";
  "        `properties`: {";
  "          `cpu_millis`: {";
  "            `type`: `integer`,";
  "            `format`: `int32`";
  "          },";
  "          `memory_mib`: {";
  "            `type`: `integer`,";
  "            `format`: `int64`";
  "          },";
  "          `disk_mib`: {";
  "            `type`: `integer`,";
  "            `format`: `int64`";
  "          },";
  "          `timeout_seconds`: {";
  "            `type`: `integer`,";
  "            `format`: `int32`";
  "          }";
  "        },";
  "        `description`: `Optional overrides for namespace defaults.`";
  "      },";
  "      `CreateSandboxRequest`: {";
  "        `type`: `object`,";
  "        `required`: [";
  "          `namespace`,";
  "          `name`";
  "        ],";
  "        `properties`: {";
  "          `namespace`: {";
  "            `type`: `string`";
  "          },";
  "          `name`: {";
  "            `type`: `string`";
  "          },";
  "          `runtime`: {";
  "            `type`: `string`,";
  "            `description`: `Sandbox runtime identifier (defaults to process).`";
  "          },";
  "          `limits`: {";
  "            `$ref`: `#/components/schemas/CreateSandboxLimits`";
  "          }";
  "        },";
  "        `example`: {";
  "          `namespace`: `demo`,";
  "          `name`: `runner`,";
  "          `runtime`: `process`,";
  "          `limits`: {";
  "            `cpu_millis`: 750,";
  "            `memory_mib`: 1024,";
  "            `disk_mib`: 1024,";
  "            `timeout_seconds`: 120";
  "          }";
  "        }";
  "      },";
  "      `ExecRequest`: {";
  "        `type`: `object`,";
  "        `required`: [";
  "          `command`";
  "        ],";
  "        `properties`: {";
  "          `command`: {";
  "            `type`: `string`";
  "          },";
  "          `args`: {";
  "            `type`: `array`,";
  "            `items`: {";
  "              `type`: `string`";
  "            },";
  "            `description`: `Command arguments.`";
  "          },";
  "          `stdin`: {";
  "            `type`: `string`,";
  "            `description`: `Optional STDIN payload.`";
  "          },";
  "          `timeout_ms`: {";
  "            `type`: `integer`,";
  "            `format`: `int64`,";
  "            `description`: `Optional execution timeout in milliseconds.`";
  "          }";
  "        },";
  "        `example`: {";
  "          `command`: `python`,";
  "          `args`: [";
  "            `-c`,";
  "            `print('hello')`";
  "          ],";
  "          `stdin`: null,";
  "          `timeout_ms`: 2000";
  "        }";
  "      },";
  "      `ExecResponse`: {";
  "        `type`: `object`,";
  "        `required`: [";
  "          `duration_ms`,";
  "          `timed_out`";
  "        ],";
  "        `properties`: {";
  "          `exit_code`: {";
  "            `type`: `integer`,";
  "            `format`: `int32`,";
  "            `nullable`: true";
  "          },";
  "          `stdout`: {";
  "            `type`: `string`,";
  "            `nullable`: true";
  "          },";
  "          `stderr`: {";
  "            `type`: `string`,";
  "            `nullable`: true";
  "          },";
  "          `duration_ms`: {";
  "            `type`: `integer`,";
  "            `format`: `int64`";
  "          },";
  "          `timed_out`: {";
  "            `type`: `boolean`";
  "          }";
  "        },";
  "        `example`: {";
  "          `exit_code`: 0,";
  "          `stdout`: `hello\n`,";
  "          `stderr`: ``,";
  "          `duration_ms`: 42,";
  "          `timed_out`: false";
  "        }";
  "      },";
  "      `ExecutionRecord`: {";
  "        `type`: `object`,";
  "        `required`: [";
  "          `command`,";
  "          `args`,";
  "          `executed_at`,";
  "          `duration_ms`,";
  "          `timed_out`";
  "        ],";
  "        `properties`: {";
  "          `command`: {";
  "            `type`: `string`";
  "          },";
  "          `args`: {";
  "            `type`: `array`,";
  "            `items`: {";
  "              `type`: `string`";
  "            }";
  "          },";
  "          `executed_at`: {";
  "            `type`: `string`,";
  "            `format`: `date-time`";
  "          },";
  "          `exit_code`: {";
  "            `type`: `integer`,";
  "            `format`: `int32`,";
  "            `nullable`: true";
  "          },";
  "          `stdout`: {";
  "            `type`: `string`,";
  "            `nullable`: true";
  "          },";
  "          `stderr`: {";
  "            `type`: `string`,";
  "            `nullable`: true";
  "          },";
  "          `duration_ms`: {";
  "            `type`: `integer`,";
  "            `format`: `int64`";
  "          },";
  "          `timed_out`: {";
  "            `type`: `boolean`";
  "          }";
  "        },";
  "        `example`: {";
  "          `command`: `python`,";
  "          `args`: [";
  "            `-c`,";
  "            `print('hello')`";
  "          ],";
  "          `executed_at`: `2025-10-18T12:35:10Z`,";
  "          `exit_code`: 0,";
  "          `stdout`: `hello\n`,";
  "          `stderr`: ``,";
  "          `duration_ms`: 55,";
  "          `timed_out`: false";
  "        }";
  "      },";
  "      `CreateKeyScope`: {";
  "        `oneOf`: [";
  "          {";
  "            `type`: `object`,";
  "            `required`: [";
  "              `type`";
  "            ],";
  "            `properties`: {";
  "              `type`: {";
  "                `type`: `string`,";
  "                `enum`: [";
  "                  `admin`";
  "                ]";
  "              }";
  "            }";
  "          },";
  "          {";
  "            `type`: `object`,";
  "            `required`: [";
  "              `type`,";
  "              `namespace`";
  "            ],";
  "            `properties`: {";
  "              `type`: {";
  "                `type`: `string`,";
  "                `enum`: [";
  "                  `namespace`";
  "                ]";
  "              },";
  "              `namespace`: {";
  "                `type`: `string`";
  "              }";
  "            }";
  "          }";
  "        ],";
  "        `discriminator`: {";
  "          `propertyName`: `type`";
  "        }";
  "      },";
  "      `CreateKeyRequest`: {";
  "        `type`: `object`,";
  "        `required`: [";
  "          `scope`";
  "        ],";
  "        `properties`: {";
  "          `scope`: {";
  "            `$ref`: `#/components/schemas/CreateKeyScope`";
  "          },";
  "          `rate_limit`: {";
  "            `type`: `integer`,";
  "            `format`: `int32`,";
  "            `description`: `Requests per minute (defaults to 100).`";
  "          },";
  "          `ttl_seconds`: {";
  "            `type`: `integer`,";
  "            `format`: `int64`,";
  "            `description`: `Optional time-to-live for the key.`";
  "          }";
  "        },";
  "        `example`: {";
  "          `scope`: {";
  "            `type`: `namespace`,";
  "            `namespace`: `demo`";
  "          },";
  "          `rate_limit`: 100,";
  "          `ttl_seconds`: 2592000";
  "        }";
  "      },";
  "      `KeyScope`: {";
  "        `oneOf`: [";
  "          {";
  "            `type`: `object`,";
  "            `required`: [";
  "              `type`";
  "            ],";
  "            `properties`: {";
  "              `type`: {";
  "                `type`: `string`,";
  "                `enum`: [";
  "                  `admin`";
  "                ]";
  "              }";
  "            }";
  "          },";
  "          {";
  "            `type`: `object`,";
  "            `required`: [";
  "              `type`,";
  "              `namespace`";
  "            ],";
  "            `properties`: {";
  "              `type`: {";
  "                `type`: `string`,";
  "                `enum`: [";
  "                  `namespace`";
  "                ]";
  "              },";
  "              `namespace`: {";
  "                `type`: `string`";
  "              }";
  "            }";
  "          }";
  "        ],";
  "        `discriminator`: {";
  "          `propertyName`: `type`";
  "        }";
  "      },";
  "      `KeyInfo`: {";
  "        `type`: `object`,";
  "        `required`: [";
  "          `id`,";
  "          `scope`,";
  "          `rate_limit`,";
  "          `created_at`,";
  "          `key_prefix`";
  "        ],";
  "        `properties`: {";
  "          `id`: {";
  "            `type`: `string`,";
  "            `format`: `uuid`";
  "          },";
  "          `scope`: {";
  "            `$ref`: `#/components/schemas/KeyScope`";
  "          },";
  "          `rate_limit`: {";
  "            `type`: `integer`,";
  "            `format`: `int32`";
  "          },";
  "          `created_at`: {";
  "            `type`: `string`,";
  "            `format`: `date-time`";
  "          },";
  "          `last_used_at`: {";
  "            `type`: `string`,";
  "            `format`: `date-time`,";
  "            `nullable`: true";
  "          },";
  "          `expires_at`: {";
  "            `type`: `string`,";
  "            `format`: `date-time`,";
  "            `nullable`: true";
  "          },";
  "          `key_prefix`: {";
  "            `type`: `string`,";
  "            `description`: `Truncated token prefix for audit displays.`";
  "          },";
  "          `rotated_from`: {";
  "            `type`: `string`,";
  "            `format`: `uuid`,";
  "            `nullable`: true";
  "          },";
  "          `rotated_at`: {";
  "            `type`: `string`,";
  "            `format`: `date-time`,";
  "            `nullable`: true";
  "          }";
  "        }";
  "      },";
  "      `IssuedKeyResponse`: {";
  "        `type`: `object`,";
  "        `required`: [";
  "          `token`,";
  "          `info`";
  "        ],";
  "        `properties`: {";
  "          `token`: {";
  "            `type`: `string`,";
  "            `description`: `Full bearer token. Shown once.`";
  "          },";
  "          `info`: {";
  "            `$ref`: `#/components/schemas/KeyInfo`";
  "          }";
  "        },";
  "        `example`: {";
  "          `token`: `bkg_demo_abcdefghijklmno`,";
  "          `info`: {";
  "            `id`: `4b2a4d3a-4cbe-4b05-87a3-9528cdf6a1ed`,";
  "            `scope`: {";
  "              `type`: `namespace`,";
  "              `namespace`: `demo`";
  "            },";
  "            `rate_limit`: 100,";
  "            `created_at`: `2025-10-18T12:00:00Z`,";
  "            `last_used_at`: null,";
  "            `expires_at`: `2025-11-17T12:00:00Z`,";
  "            `key_prefix`: `bkg_demo_abcd`";
  "          }";
  "        }";
  "      },";
  "      `RotateKeyRequest`: {";
  "        `type`: `object`,";
  "        `required`: [";
  "          `key_id`";
  "        ],";
  "        `properties`: {";
  "          `key_id`: {";
  "            `type`: `string`,";
  "            `format`: `uuid`";
  "          },";
  "          `rate_limit`: {";
  "            `type`: `integer`,";
  "            `format`: `int32`,";
  "            `description`: `Override rate limit for the rotated key (requests per minute).`";
  "          },";
  "          `ttl_seconds`: {";
  "            `type`: `integer`,";
  "            `format`: `int64`,";
  "            `description`: `Optional TTL for the rotated key in seconds.`";
  "          }";
  "        },";
  "        `example`: {";
  "          `key_id`: `4b2a4d3a-4cbe-4b05-87a3-9528cdf6a1ed`,";
  "          `rate_limit`: 200";
  "        }";
  "      },";
  "      `RotationWebhookPayload`: {";
  "        `type`: `object`,";
  "        `required`: [";
  "          `event`,";
  "          `key_id`,";
  "          `previous_key_id`,";
  "          `rotated_at`,";
  "          `scope`,";
  "          `owner`,";
  "          `key_prefix`";
  "        ],";
  "        `properties`: {";
  "          `event`: {";
  "            `type`: `string`";
  "          },";
  "          `key_id`: {";
  "            `type`: `string`,";
  "            `format`: `uuid`";
  "          },";
  "          `previous_key_id`: {";
  "            `type`: `string`,";
  "            `format`: `uuid`";
  "          },";
  "          `rotated_at`: {";
  "            `type`: `string`,";
  "            `format`: `date-time`";
  "          },";
  "          `scope`: {";
  "            `$ref`: `#/components/schemas/KeyScope`";
  "          },";
  "          `owner`: {";
  "            `type`: `string`";
  "          },";
  "          `key_prefix`: {";
  "            `type`: `string`";
  "          }";
  "        },";
  "        `example`: {";
  "          `event`: `cave.auth.key.rotated`,";
  "          `key_id`: `a7d6b321-2c52-4e76-9af2-2f893d4856fc`,";
  "          `previous_key_id`: `4b2a4d3a-4cbe-4b05-87a3-9528cdf6a1ed`,";
  "          `rotated_at`: `2025-10-18T12:10:00Z`,";
  "          `scope`: {";
  "            `type`: `admin`";
  "          },";
  "          `owner`: `admin`,";
  "          `key_prefix`: `bkg_admin_new`";
  "        }";
  "      },";
  "      `RotationWebhookResponse`: {";
  "        `type`: `object`,";
  "        `required`: [";
  "          `event_id`,";
  "          `signature`,";
  "          `payload`";
  "        ],";
  "        `properties`: {";
  "          `event_id`: {";
  "            `type`: `string`,";
  "            `format`: `uuid`";
  "          },";
  "          `signature`: {";
  "            `type`: `string`";
  "          },";
  "          `payload`: {";
  "            `$ref`: `#/components/schemas/RotationWebhookPayload`";
  "          }";
  "        }";
  "      },";
  "      `RotatedKeyResponse`: {";
  "        `type`: `object`,";
  "        `required`: [";
  "          `token`,";
  "          `info`,";
  "          `previous`,";
  "          `webhook`";
  "        ],";
  "        `properties`: {";
  "          `token`: {";
  "            `type`: `string`";
  "          },";
  "          `info`: {";
  "            `$ref`: `#/components/schemas/KeyInfo`";
  "          },";
  "          `previous`: {";
  "            `$ref`: `#/components/schemas/KeyInfo`";
  "          },";
  "          `webhook`: {";
  "            `$ref`: `#/components/schemas/RotationWebhookResponse`";
  "          }";
  "        },";
  "        `example`: {";
  "          `token`: `bkg_admin_newtokenvalue`,";
  "          `info`: {";
  "            `id`: `a7d6b321-2c52-4e76-9af2-2f893d4856fc`,";
  "            `scope`: {";
  "              `type`: `admin`";
  "            },";
  "            `rate_limit`: 200,";
  "            `created_at`: `2025-10-18T12:10:00Z`,";
  "            `key_prefix`: `bkg_admin_new`,";
  "            `rotated_from`: `4b2a4d3a-4cbe-4b05-87a3-9528cdf6a1ed`,";
  "            `rotated_at`: `2025-10-18T12:10:00Z`";
  "          },";
  "          `previous`: {";
  "            `id`: `4b2a4d3a-4cbe-4b05-87a3-9528cdf6a1ed`,";
  "            `scope`: {";
  "              `type`: `namespace`,";
  "              `namespace`: `demo`";
  "            },";
  "            `rate_limit`: 100,";
  "            `created_at`: `2025-10-18T12:00:00Z`,";
  "            `last_used_at`: null,";
  "            `expires_at`: `2025-11-17T12:00:00Z`,";
  "            `key_prefix`: `bkg_demo_abcd`";
  "          },";
  "          `webhook`: {";
  "            `event_id`: `5b0c33d4-a1d8-4a1c-9844-3d955b1b4c6e`,";
  "            `signature`: `sha256=abc123...`,";
  "            `payload`: {";
  "              `event`: `cave.auth.key.rotated`,";
  "              `key_id`: `a7d6b321-2c52-4e76-9af2-2f893d4856fc`,";
  "              `previous_key_id`: `4b2a4d3a-4cbe-4b05-87a3-9528cdf6a1ed`,";
  "              `rotated_at`: `2025-10-18T12:10:00Z`,";
  "              `scope`: {";
  "                `type`: `admin`";
  "              },";
  "              `owner`: `admin`,";
  "              `key_prefix`: `bkg_admin_new`";
  "            }";
  "          }";
  "        }";
  "      }";
  "    }";
  "  }";
  "}"
].

(** The lines joined, each ended by a newline. *)
Definition openapi_text : string :=
  String.concat Py.nl (map requote openapi_json) ++ Py.nl.

(** A string that JSON writes between quotes as it is: printable ASCII
    without the double quote and the backslash. *)
Definition is_plain (s : string) : bool :=
  forallb (fun c => let n := nat_of_ascii c in
                    Nat.leb 32 n && Nat.leb n 126
                    && negb (Nat.eqb n 34) && negb (Nat.eqb n 92))
          (list_ascii_of_string s).

(** The text of a provenance statement, as
    [json.dumps(asdict(statement), indent=2, sort_keys=True)] followed by a
    newline writes it when the strings are plain. *)
Definition slsa_text (uri commit branch digest timestamp : string) : string :=
  "{" ++ Py.nl
  ++ requote "  `build_type`: `https://github.com/BinaryKitsuneGuild/bkg-ci`," ++ Py.nl
  ++ requote "  `builder`: `scripts/generate_slsa.py`," ++ Py.nl
  ++ requote "  `finished_at`: `" ++ timestamp ++ requote "`," ++ Py.nl
  ++ requote "  `invocation_id`: `" ++ uri ++ "@" ++ commit ++ requote "`," ++ Py.nl
  ++ requote "  `materials`: [" ++ Py.nl
  ++ "    {" ++ Py.nl
  ++ requote "      `branch`: `" ++ branch ++ requote "`," ++ Py.nl
  ++ requote "      `digest`: {" ++ Py.nl
  ++ requote "        `sha256`: `" ++ digest ++ requote "`" ++ Py.nl
  ++ "      }," ++ Py.nl
  ++ requote "      `uri`: `" ++ uri ++ requote "`" ++ Py.nl
  ++ "    }" ++ Py.nl
  ++ "  ]," ++ Py.nl
  ++ requote "  `schema_version`: `https://slsa.dev/provenance/v0.2`," ++ Py.nl
  ++ requote "  `started_at`: `" ++ timestamp ++ requote "`" ++ Py.nl
  ++ "}" ++ Py.nl.

End Expected.

(** * Properties *)

(** ** Equality of values *)

Section ValueFacts.
Import Py Doc.

(** Induction on values that reaches the elements of lists and the members
    of dictionaries. *)
Section ValueInd.
Variable P : value -> Prop.
Hypothesis HNone : P VNone.
Hypothesis HBool : forall b, P (VBool b).
Hypothesis HInt : forall n, P (VInt n).
Hypothesis HStr : forall s, P (VStr s).
Hypothesis HList : forall xs, Forall P xs -> P (VList xs).
Hypothesis HDict : forall kvs, Forall (fun kv => P (snd kv)) kvs -> P (VDict kvs).

Fixpoint value_ind' (v : value) : P v :=
  match v with
  | VNone => HNone
  | VBool b => HBool b
  | VInt n => HInt n
  | VStr s => HStr s
  | VList xs =>
      HList xs ((fix go (l : list value) : Forall P l :=
                   match l with
                   | [] => List.Forall_nil P
                   | x :: l' => @List.Forall_cons _ P x l' (value_ind' x) (go l')
                   end) xs)
  | VDict kvs =>
      HDict kvs ((fix go (l : list (string * value)) : Forall (fun kv => P (snd kv)) l :=
                    match l with
                    | [] => List.Forall_nil _
                    | kv :: l' => @List.Forall_cons _ _ kv l' (value_ind' (snd kv)) (go l')
                    end) kvs)
  end.

End ValueInd.

Lemma value_eqb_eq (a b : value) : value_eqb a b = true -> a = b.
Proof.
  revert b. induction a as [| x | x | x | xs IH | kvs IH] using value_ind';
    intros [| y | y | y | ys | ys]; simpl; try discriminate.
  - reflexivity.
  - intros H. f_equal. now apply Bool.eqb_prop.
  - intros H. f_equal. now apply Z.eqb_eq.
  - intros H. f_equal. now apply String.eqb_eq.
  - intros H. f_equal. revert ys H.
    induction IH as [| x xs Hx _ IHxs]; intros [| y ys]; try discriminate.
    + reflexivity.
    + intros H. apply andb_prop in H as [H1 H2].
      f_equal; [now apply Hx | now apply IHxs].
  - intros H. f_equal. revert ys H.
    induction IH as [| [k x] kvs Hx _ IHkvs]; intros [| [k' y] ys]; try discriminate.
    + reflexivity.
    + intros H. apply andb_prop in H as [H H3]. apply andb_prop in H as [H1 H2].
      apply String.eqb_eq in H1. simpl in Hx. apply Hx in H2. subst.
      f_equal. now apply IHkvs.
Qed.

Lemma value_eqb_refl (a : value) : value_eqb a a = true.
Proof.
  induction a as [| x | x | x | xs IH | kvs IH] using value_ind'; simpl.
  - reflexivity.
  - apply Bool.eqb_reflx.
  - apply Z.eqb_refl.
  - apply String.eqb_refl.
  - induction IH as [| x xs Hx _ IHxs]; [reflexivity|].
    now rewrite Hx, IHxs.
  - induction IH as [| [k x] kvs Hx _ IHkvs]; [reflexivity|].
    simpl in Hx. now rewrite String.eqb_refl, Hx, IHkvs.
Qed.

(** Equality of values is decided by [value_eqb]. *)
#[global] Instance value_eq_dec : EqDecision value.
Proof.
  intros a b. destruct (value_eqb a b) eqn:E.
  - left. now apply value_eqb_eq.
  - right. intros ->. rewrite value_eqb_refl in E. discriminate.
Defined.

End ValueFacts.

Section OpenAPIFacts.
Import Py Doc Schema Surface Contract.

Lemma ok_value_of (e : expr) : is_ok e = true -> e = Ok (value_of e).
Proof. destruct e; simpl; [reflexivity|discriminate]. Qed.

(** [build_spec] raises nothing: every subscript it evaluates finds its key. *)
Lemma build_spec_returns : OpenAPI.build_spec = Ok document.
Proof. apply ok_value_of. vm_compute. reflexivity. Qed.

Lemma mem_In (s : string) (l : list string) : mem s l = true -> In s l.
Proof.
  unfold mem. rewrite existsb_exists. intros [x [Hx Heq]].
  apply String.eqb_eq in Heq. now subst.
Qed.


(** A check that passes on an optional object names the object. *)
Lemma checked (o : option value) (check : value -> bool) :
  option_map check o = Some true -> exists x, o = Some x /\ check x = true.
Proof.
  destruct o as [x|]; simpl; [|discriminate].
  intros H. exists x. split; [reflexivity|congruence].
Qed.

Lemma auth_eqb_eq (a b : auth) : auth_eqb a b = true -> a = b.
Proof. destruct a, b; simpl; congruence. Qed.

Lemma conformsb_sound (doc : value) (r : row) :
  conformsb doc r = true -> conforms doc r.
Proof.
  unfold conformsb, conforms.
  destruct (operation doc (path r) (method r)) as [op|]; [|discriminate].
  intros H. apply andb_prop in H as [H Herr]. apply andb_prop in H as [Hauth Hsucc].
  exists op. split; [reflexivity|]. split.
  - destruct (auth_requirement op) as [a|]; [|discriminate].
    f_equal. now apply auth_eqb_eq.
  - split.
    + now apply bool_decide_eq_true in Hsucc.
    + intros code Hin. apply mem_In.
      rewrite forallb_forall in Herr. now apply Herr.
Qed.

(** C1: the document [build_spec] returns has every row of the HTTP-surface
    table: the path and method, the stated auth requirement, the stated
    success code, and each stated error code. *)
Theorem build_spec_has_http_surface :
  exists doc, OpenAPI.build_spec = Ok doc /\ Forall (conforms doc) spec_http_surface.
Proof.
  exists document. split; [exact build_spec_returns|].
  apply Forall_forall. intros r Hr. apply conformsb_sound.
  revert r Hr. apply Forall_forall.
  repeat (constructor; [vm_compute; reflexivity|]).
  constructor.
Qed.


(** C5: [RotationWebhookPayload] requires exactly the seven fields of the data
    model, declares exactly these as properties, and its example is
    [rotation_webhook_payload_example] with exactly these fields. *)
Theorem webhook_payload_schema_fields :
  exists doc payload example,
    OpenAPI.build_spec = Ok doc
    /\ schema doc "RotationWebhookPayload" = Some payload
    /\ OpenAPI.rotation_webhook_payload_example = Ok example
    /\ required_fields payload = spec_webhook_payload_fields
    /\ property_names payload = spec_webhook_payload_fields
    /\ member "example" payload = Some example
    /\ keys example = spec_webhook_payload_fields.
Proof.
  pose (example := value_of OpenAPI.rotation_webhook_payload_example).
  assert (Hex : OpenAPI.rotation_webhook_payload_example = Ok example)
    by (apply ok_value_of; vm_compute; reflexivity).
  destruct (checked (schema document "RotationWebhookPayload")
    (fun s => bool_decide (required_fields s = spec_webhook_payload_fields)
              && bool_decide (property_names s = spec_webhook_payload_fields)
              && bool_decide (member "example" s = Some example)))
    as [payload [Hp Cp]]; [vm_compute; reflexivity|].
  apply andb_prop in Cp as [Cp C3]. apply andb_prop in Cp as [C1 C2].
  apply bool_decide_eq_true in C1, C2, C3.
  exists document, payload, example.
  split; [exact build_spec_returns|].
  repeat split; assumption || (vm_compute; reflexivity).
Qed.

(** The header parameter of the webhook operation, as the generator writes
    it. *)
Lemma webhook_signature_parameter :
  option_map (fun op => parameters_named op "header" "X-Cave-Webhook-Signature")
             (operation document "/api/v1/auth/keys/rotated" "post")
  = Some [VDict [("name", VStr "X-Cave-Webhook-Signature");
                 ("in", VStr "header");
                 ("required", VBool true);
                 ("schema", VDict [("type", VStr "string")]);
                 ("description",
                  VStr "HMAC signature generated with CAVE_ROTATION_WEBHOOK_SECRET.")]].
Proof. vm_compute. reflexivity. Qed.

(** C4, as stated, fails: the webhook operation declares a 500 response
    beside 401 and 403, so its failure responses are not limited to 401 and
    403. *)
Lemma webhook_operation_declares_500 :
  exists doc op,
    OpenAPI.build_spec = Ok doc
    /\ operation doc "/api/v1/auth/keys/rotated" "post" = Some op
    /\ In "500" (error_codes op)
    /\ ~ failures_limited_to_401_403 op.
Proof.
  destruct (checked (operation document "/api/v1/auth/keys/rotated" "post")
    (fun op => mem "500" (error_codes op)))
    as [op [Hop C]]; [vm_compute; reflexivity|].
  apply mem_In in C.
  exists document, op. split; [exact build_spec_returns|].
  split; [exact Hop|]. split; [exact C|].
  intros Hlim. destruct (Hlim "500" C) as [H|H]; discriminate H.
Qed.

(** C4, amended: the webhook operation requires the
    [X-Cave-Webhook-Signature] header; its client-error responses are exactly
    401 and 403, and the one other failure it declares is the 500 that every
    authenticated operation of the document declares. *)
Theorem webhook_operation_failure_responses :
  exists doc op,
    OpenAPI.build_spec = Ok doc
    /\ operation doc "/api/v1/auth/keys/rotated" "post" = Some op
    /\ requires_header op "X-Cave-Webhook-Signature" = true
    /\ List.filter is_client_error (response_codes op) = ["401"; "403"]
    /\ error_codes op = ["401"; "403"; "500"]
    /\ success_codes op = ["204"].
Proof.
  destruct (checked (operation document "/api/v1/auth/keys/rotated" "post")
    (fun op => requires_header op "X-Cave-Webhook-Signature"
               && bool_decide (List.filter is_client_error (response_codes op) = ["401"; "403"])
               && bool_decide (error_codes op = ["401"; "403"; "500"])
               && bool_decide (success_codes op = ["204"])))
    as [op [Hop C]]; [vm_compute; reflexivity|].
  apply andb_prop in C as [C C4]. apply andb_prop in C as [C C3].
  apply andb_prop in C as [C1 C2].
  apply bool_decide_eq_true in C2, C3, C4.
  exists document, op. split; [exact build_spec_returns|].
  repeat split; assumption.
Qed.

(** The rotation request has no scope member: a rotation cannot name a scope
    for the successor. *)
Lemma rotate_request_has_no_scope :
  option_map property_names (schema document "RotateKeyRequest")
  = Some ["key_id"; "rate_limit"; "ttl_seconds"].
Proof. vm_compute. reflexivity. Qed.

(** C3, on the generator's example: [rotated_key_example] links the successor
    to the predecessor ([rotated_from] is the predecessor's id), but gives the
    successor the admin scope while the predecessor it copies from
    [issued_key_example] has the namespace scope [demo]. *)
Theorem rotated_key_example_changes_scope :
  exists example info previous,
    OpenAPI.rotated_key_example = Ok example
    /\ member "info" example = Some info
    /\ member "previous" example = Some previous
    /\ member "rotated_from" info = Some (VStr "4b2a4d3a-4cbe-4b05-87a3-9528cdf6a1ed")
    /\ member "id" previous = Some (VStr "4b2a4d3a-4cbe-4b05-87a3-9528cdf6a1ed")
    /\ member "scope" info = Some (VDict [("type", VStr "admin")])
    /\ member "scope" previous
       = Some (VDict [("type", VStr "namespace"); ("namespace", VStr "demo")])
    /\ member "scope" info <> member "scope" previous.
Proof.
  pose (example := value_of OpenAPI.rotated_key_example).
  assert (Hex : OpenAPI.rotated_key_example = Ok example)
    by (apply ok_value_of; vm_compute; reflexivity).
  destruct (checked (member "info" example)
    (fun i => bool_decide (member "rotated_from" i
                           = Some (VStr "4b2a4d3a-4cbe-4b05-87a3-9528cdf6a1ed"))
              && bool_decide (member "scope" i = Some (VDict [("type", VStr "admin")]))))
    as [info [Hi Ci]]; [vm_compute; reflexivity|].
  destruct (checked (member "previous" example)
    (fun q => bool_decide (member "id" q
                           = Some (VStr "4b2a4d3a-4cbe-4b05-87a3-9528cdf6a1ed"))
              && bool_decide (member "scope" q
                              = Some (VDict [("type", VStr "namespace");
                                             ("namespace", VStr "demo")]))))
    as [previous [Hp Cp]]; [vm_compute; reflexivity|].
  apply andb_prop in Ci as [Ci1 Ci2], Cp as [Cp1 Cp2].
  apply bool_decide_eq_true in Ci1, Ci2, Cp1, Cp2.
  exists example, info, previous.
  repeat split; try assumption.
  rewrite Ci2, Cp2. discriminate.
Qed.

Lemma tags_differ (t : string) :
  String.eqb t "admin" = true -> String.eqb t "namespace" = false.
Proof. intros H. apply String.eqb_eq in H. subst. reflexivity. Qed.

(** With fuel for three levels of schema, a scope schema accepts exactly the
    values of the tagged shape; the document is consulted for references
    only, and the scope schemas have none. *)
Lemma scope_schema_accepts (sch : expr) (doc v : value) (n : nat) :
  sch = OpenAPI.schema_KeyScope \/ sch = OpenAPI.schema_CreateKeyScope ->
  validates (3 + n) doc (value_of sch) v = Some (scope_shaped v).
Proof.
  intros [-> | ->].
  all: match goal with
       | |- context [value_of ?e] =>
           let ks := eval vm_compute in (value_of e) in change (value_of e) with ks
       end.
  all: destruct v as [| ? | ? | ? | ? | kvs]; try reflexivity.
  all: unfold scope_shaped, tagged, has_string, member; cbn.
  all: destruct (assoc "type" kvs) as [[| ? | ? | t | ? | ?]|] eqn:Et;
    destruct (assoc "namespace" kvs) as [[| ? | ? | ns | ? | ?]|] eqn:En;
    cbn; try reflexivity.
  all: destruct (String.eqb t "admin") eqn:Ea;
    [rewrite (tags_differ t Ea) | destruct (String.eqb t "namespace") eqn:Eb];
    cbn; reflexivity.
Qed.

Lemma scope_schemas_of_document :
  schema document "KeyScope" = Some (value_of OpenAPI.schema_KeyScope)
  /\ schema document "CreateKeyScope" = Some (value_of OpenAPI.schema_CreateKeyScope).
Proof. split; vm_compute; reflexivity. Qed.

(** C6, as stated, fails: both scope schemas accept a namespace scope with
    the empty namespace, and an admin scope that carries a further member. *)
Lemma scope_schemas_accept_empty_namespace :
  exists doc key_scope create_key_scope,
    OpenAPI.build_spec = Ok doc
    /\ schema doc "KeyScope" = Some key_scope
    /\ schema doc "CreateKeyScope" = Some create_key_scope
    /\ validates 3 doc key_scope
         (VDict [("type", VStr "namespace"); ("namespace", VStr "")]) = Some true
    /\ validates 3 doc create_key_scope
         (VDict [("type", VStr "namespace"); ("namespace", VStr "")]) = Some true
    /\ validates 3 doc key_scope
         (VDict [("type", VStr "admin"); ("namespace", VStr "demo")]) = Some true
    /\ ~ well_formed_scope (VDict [("type", VStr "namespace"); ("namespace", VStr "")])
    /\ ~ well_formed_scope (VDict [("type", VStr "admin"); ("namespace", VStr "demo")]).
Proof.
  destruct scope_schemas_of_document as [Hks Hcks].
  exists document, (value_of OpenAPI.schema_KeyScope),
    (value_of OpenAPI.schema_CreateKeyScope).
  split; [exact build_spec_returns|].
  split; [exact Hks|]. split; [exact Hcks|].
  split; [etransitivity; [apply (scope_schema_accepts _ _ _ 0); now left | reflexivity]|].
  split; [etransitivity; [apply (scope_schema_accepts _ _ _ 0); now right | reflexivity]|].
  split; [etransitivity; [apply (scope_schema_accepts _ _ _ 0); now left | reflexivity]|].
  split.
  - intros [H | [ns [_ [Hns Hne]]]]; [discriminate H|].
    simpl in Hns. injection Hns as <-. now apply Hne.
  - intros [H | [ns [Ht _]]]; [discriminate H|]. simpl in Ht. discriminate Ht.
Qed.

(** C6, amended: with enough fuel, [KeyScope] and [CreateKeyScope] accept
    exactly the objects tagged [admin] and the objects tagged [namespace]
    whose [namespace] member is a string; the string may be empty and the
    object may have further members. *)
Theorem scope_schemas_accept_tagged_objects :
  exists doc key_scope create_key_scope,
    OpenAPI.build_spec = Ok doc
    /\ schema doc "KeyScope" = Some key_scope
    /\ schema doc "CreateKeyScope" = Some create_key_scope
    /\ forall (v : value) (n : nat),
         validates (3 + n) doc key_scope v = Some (scope_shaped v)
         /\ validates (3 + n) doc create_key_scope v = Some (scope_shaped v).
Proof.
  destruct scope_schemas_of_document as [Hks Hcks].
  exists document, (value_of OpenAPI.schema_KeyScope),
    (value_of OpenAPI.schema_CreateKeyScope).
  split; [exact build_spec_returns|].
  split; [exact Hks|]. split; [exact Hcks|].
  intros v n. split; apply scope_schema_accepts; [now left | now right].
Qed.

End OpenAPIFacts.

Section GeneratorFacts.
Import Py Contract Pathlib.
Context {FS : Type} {file_system : FileSystem FS}.

(** The serializer on a small value, as [json.dumps(..., indent=2)] lays it
    out. *)
Example dumps_layout :
  Json.dumps (VDict [("a", VList [VInt 1; VNone; VInt (-12)]);
                     ("b", VDict []); ("c", VStr ("x" ++ nl))]) 2
  = "{" ++ nl
    ++ "  " ++ Json.dquote ++ "a" ++ Json.dquote ++ ": [" ++ nl
    ++ "    1," ++ nl
    ++ "    null," ++ nl
    ++ "    -12" ++ nl
    ++ "  ]," ++ nl
    ++ "  " ++ Json.dquote ++ "b" ++ Json.dquote ++ ": {}," ++ nl
    ++ "  " ++ Json.dquote ++ "c" ++ Json.dquote ++ ": "
    ++ Json.dquote ++ "x\n" ++ Json.dquote ++ nl
    ++ "}".
Proof. vm_compute. reflexivity. Qed.

(** The document serialized with indent 2, and a final newline, is the
    expected text, character by character. *)
Lemma document_text : Json.dumps document 2 ++ nl = Expected.openapi_text.
Proof. apply String.eqb_eq. vm_compute. reflexivity. Qed.

(** [main] does one thing to the files: it writes the expected text at the
    output path, and it ends as that write ends. *)
Lemma main_writes_document (argv : list string) (fs : FS) :
  OpenAPI.main argv fs
  = ends_with_write (fs_write (OpenAPI.output argv) Expected.openapi_text fs).
Proof.
  unfold OpenAPI.main, write_text, ends_with_write.
  rewrite build_spec_returns, document_text.
  destruct (fs_write (OpenAPI.output argv) Expected.openapi_text fs) as [[e|] fs'];
    reflexivity.
Qed.

(** C9: [build_spec] takes no input and returns one document, whose
    serialization with indent 2 and a final newline is the expected text.  A
    run of [main], on any arguments and any files, asks the file system for
    one write, of that text at the output path, and ends as the write ends:
    with its exception, or normally.  So two runs with the same output path
    that both end normally leave the same bytes in a regular file. *)
Theorem generate_openapi_deterministic
  (argv1 argv2 : list string) (fs1 fs2 : FS) :
  OpenAPI.output argv1 = OpenAPI.output argv2 ->
  regular_file (OpenAPI.output argv1) ->
  exists doc,
    OpenAPI.build_spec = Ok doc
    /\ Json.dumps doc 2 ++ nl = Expected.openapi_text
    /\ OpenAPI.main argv1 fs1
       = ends_with_write (fs_write (OpenAPI.output argv1) Expected.openapi_text fs1)
    /\ OpenAPI.main argv2 fs2
       = ends_with_write (fs_write (OpenAPI.output argv1) Expected.openapi_text fs2)
    /\ forall out1 out2,
         OpenAPI.main argv1 fs1 = (Ok tt, out1) ->
         OpenAPI.main argv2 fs2 = (Ok tt, out2) ->
         fs_read (OpenAPI.output argv1) out1 = Some Expected.openapi_text
         /\ fs_read (OpenAPI.output argv2) out2 = fs_read (OpenAPI.output argv1) out1.
Proof.
  intros Hpath Hregular.
  exists document.
  split; [exact build_spec_returns|].
  split; [exact document_text|].
  split; [apply main_writes_document|].
  split; [rewrite Hpath; apply main_writes_document|].
  intros out1 out2. rewrite !main_writes_document, <- Hpath.
  unfold ends_with_write.
  destruct (fs_write (OpenAPI.output argv1) Expected.openapi_text fs1)
    as [[e1|] s1] eqn:E1; [discriminate|].
  destruct (fs_write (OpenAPI.output argv1) Expected.openapi_text fs2)
    as [[e2|] s2] eqn:E2; [discriminate|].
  intros [= <-] [= <-].
  rewrite (Hregular _ _ _ E1), (Hregular _ _ _ E2). split; reflexivity.
Qed.

End GeneratorFacts.

(** In the file system of the examples every path is a regular file. *)
Lemma mem_fs_regular (path : string) : Pathlib.regular_file (FS := MemFS.state) path.
Proof.
  intros data s s'. simpl. unfold MemFS.write, MemFS.read.
  repeat case_bool_decide; intros [= <-]. simpl. apply lookup_insert_eq.
Qed.

Lemma generate_openapi_deterministic_witness :
  let fs1 := MemFS.State ["."; "docs"] ∅ in
  let fs2 := MemFS.State ["."; "docs"] {["docs/openapi.json" := "stale"]} in
  exists doc,
    OpenAPI.build_spec = Py.Ok doc
    /\ Json.dumps doc 2 ++ Py.nl = Expected.openapi_text
    /\ OpenAPI.main ["generate_openapi.py"; "docs/openapi.json"] fs1
       = Contract.ends_with_write
           (Pathlib.fs_write "docs/openapi.json" Expected.openapi_text fs1)
    /\ OpenAPI.main ["x"; "./docs//openapi.json"; "extra"] fs2
       = Contract.ends_with_write
           (Pathlib.fs_write "docs/openapi.json" Expected.openapi_text fs2)
    /\ forall out1 out2,
         OpenAPI.main ["generate_openapi.py"; "docs/openapi.json"] fs1 = (Py.Ok tt, out1) ->
         OpenAPI.main ["x"; "./docs//openapi.json"; "extra"] fs2 = (Py.Ok tt, out2) ->
         Pathlib.fs_read "docs/openapi.json" out1 = Some Expected.openapi_text
         /\ Pathlib.fs_read "docs/openapi.json" out2
            = Pathlib.fs_read "docs/openapi.json" out1.
Proof.
  intros fs1 fs2.
  apply (generate_openapi_deterministic
           ["generate_openapi.py"; "docs/openapi.json"]
           ["x"; "./docs//openapi.json"; "extra"] fs1 fs2).
  - reflexivity.
  - apply mem_fs_regular.
Defined.

(** The write can fail: in a directory that does not exist [main] raises
    the error of the file system and no file is written. *)
Example main_missing_directory :
  OpenAPI.main ["generate_openapi.py"; "build/openapi.json"] (MemFS.State ["."] ∅)
  = (Py.Raise (Py.OSError "No such file or directory"), MemFS.State ["."] ∅).
Proof. rewrite main_writes_document. reflexivity. Qed.

Section SBOMFacts.
Import Py Contract Pathlib.
Variable run : list string -> SBOM.completed.
Variable json_loads : string -> option value.
Variable str_of_error : list string -> Z -> string.
Context {FS : Type} {file_system : FileSystem FS}.

(** [run_syft] returns the captured output exactly when the process exited
    with code 0, and raises [SystemExit] otherwise. *)
Lemma run_syft_outcome (env : gmap string string) :
  match run (SBOM.args env) with
  | SBOM.Exited 0 stdout _ => SBOM.run_syft run str_of_error env = Ok stdout
  | SBOM.LaunchError e => SBOM.run_syft run str_of_error env = Raise e
  | _ => exists msg, SBOM.run_syft run str_of_error env = Raise (SystemExit msg)
  end.
Proof.
  unfold SBOM.run_syft.
  destruct (run (SBOM.args env)) as [| e | returncode stdout stderr].
  - eexists. reflexivity.
  - reflexivity.
  - destruct returncode; simpl; try reflexivity; eexists; reflexivity.
Qed.

(** When syft succeeds with JSON on its output, [main] writes that output and
    a final newline at the output path; when the write succeeds it reports
    the path and returns 0, otherwise it raises the exception of the file
    system and prints nothing. *)
Lemma sbom_written_on_success (argv : list string) (w : SBOM.world FS)
  (stdout stderr : string) (parsed : value) :
  run (SBOM.args (SBOM.environ w)) = SBOM.Exited 0 stdout stderr ->
  json_loads stdout = Some parsed ->
  SBOM.main run json_loads str_of_error argv w
  = match fs_write (SBOM.output argv) (stdout ++ nl) (SBOM.files w) with
    | (None, files') =>
        (Ok 0, SBOM.World (SBOM.environ w) files'
                 (SBOM.printed w ++ ["SBOM written to " ++ SBOM.output argv]))
    | (Some e, files') => (Raise e, SBOM.World (SBOM.environ w) files' (SBOM.printed w))
    end.
Proof.
  intros Hrun Hjson. unfold SBOM.main, SBOM.run_syft, SBOM.write_text, write_text.
  rewrite Hrun. simpl. rewrite Hjson.
  destruct (fs_write (SBOM.output argv) (stdout ++ nl) (SBOM.files w)) as [[e|] files'];
    reflexivity.
Qed.

(** C10: when the syft executable is missing, exits with a non-zero code, or
    prints something that is not JSON, [main] raises [SystemExit] or a JSON
    decode error and the world, the output file included, is as before. *)
Theorem sbom_not_written_on_failure (argv : list string) (w : SBOM.world FS) :
  syft_failed run json_loads (SBOM.environ w) ->
  exists e,
    SBOM.main run json_loads str_of_error argv w = (Raise e, w)
    /\ (e = JSONDecodeError \/ exists msg, e = SystemExit msg).
Proof.
  unfold syft_failed, SBOM.main, SBOM.run_syft.
  intros [Hrun | [(returncode & stdout & stderr & Hrun & Hcode)
                 | (stdout & stderr & Hrun & Hjson)]];
    rewrite Hrun.
  - eexists. split; [reflexivity|]. right. eexists. reflexivity.
  - destruct (Z.eqb_spec returncode 0) as [->|_]; [contradiction|].
    eexists. split; [reflexivity|]. right. eexists. reflexivity.
  - simpl. rewrite Hjson. exists JSONDecodeError. split; [reflexivity|now left].
Qed.

(** Conversely a run that changed a file had a successful syft with JSON
    output. *)
Lemma sbom_write_needs_valid_json (argv : list string) (w : SBOM.world FS) :
  SBOM.files (snd (SBOM.main run json_loads str_of_error argv w)) <> SBOM.files w ->
  exists stdout stderr parsed,
    run (SBOM.args (SBOM.environ w)) = SBOM.Exited 0 stdout stderr
    /\ json_loads stdout = Some parsed.
Proof.
  unfold SBOM.main, SBOM.run_syft.
  destruct (run (SBOM.args (SBOM.environ w))) as [| e | returncode stdout stderr].
  - simpl. contradiction.
  - simpl. contradiction.
  - destruct (Z.eqb_spec returncode 0) as [->|Hne]; simpl.
    + destruct (json_loads stdout) as [parsed|] eqn:Hjson; simpl.
      * intros _. now exists stdout, stderr, parsed.
      * contradiction.
    + contradiction.
Qed.

End SBOMFacts.

Lemma sbom_not_written_on_failure_witness :
  exists e,
    SBOM.main (fun _ => SBOM.Exited 2 "" "unknown flag") (fun _ => None) (fun _ _ => "")
              ["generate_sbom.py"; "sbom.json"]
              (SBOM.World ∅ (MemFS.State ["."] {["sbom.json" := "old"]}) [])
    = (Py.Raise e, SBOM.World ∅ (MemFS.State ["."] {["sbom.json" := "old"]}) [])
    /\ (e = Py.JSONDecodeError \/ exists msg, e = Py.SystemExit msg).
Proof.
  apply (sbom_not_written_on_failure
           (fun _ => SBOM.Exited 2 "" "unknown flag") (fun _ => None) (fun _ _ => "")
           ["generate_sbom.py"; "sbom.json"]
           (SBOM.World ∅ (MemFS.State ["."] {["sbom.json" := "old"]}) [])).
  right. left. exists 2, "", "unknown flag". split; [reflexivity|lia].
Defined.

Section KeyManagerFacts.
Import KeyManager.

Lemma revoked_copy_revoked (r : KeyRecord) : revoked (revoked_copy r) = true.
Proof. reflexivity. Qed.

Lemma revoked_copy_idem (r : KeyRecord) : revoked_copy (revoked_copy r) = revoked_copy r.
Proof. reflexivity. Qed.

Lemma revoked_copy_fixed (r : KeyRecord) : revoked r = true -> revoked_copy r = r.
Proof. destruct r. simpl. intros ->. reflexivity. Qed.

Lemma mark_revoked_idem (k : string) (store : gmap string KeyRecord) :
  mark_revoked k (mark_revoked k store) = mark_revoked k store.
Proof.
  unfold mark_revoked. apply map_eq. intros j.
  destruct (decide (k = j)) as [<-|Hne].
  - rewrite !lookup_alter_eq. destruct (store !! k) as [r|]; reflexivity.
  - now rewrite !lookup_alter_ne.
Qed.

(** Revoking a key that is already revoked changes nothing. *)
Lemma revoke_revoked_noop (k : string) (store : gmap string KeyRecord) (r : KeyRecord) :
  store !! k = Some r -> revoked r = true -> revoke k store = inr store.
Proof.
  intros Hk Hr. unfold revoke, find_by_id, mark_revoked. rewrite Hk. f_equal.
  apply map_eq. intros j. destruct (decide (k = j)) as [<-|Hne].
  - rewrite lookup_alter_eq, Hk. simpl. now rewrite revoked_copy_fixed.
  - now rewrite lookup_alter_ne.
Qed.

(** C8: for an existing key, [revoke] succeeds, leaves the key revoked, and a
    second [revoke] succeeds with the store unchanged. *)
Theorem revoke_idempotent (k : string) (store : gmap string KeyRecord) :
  is_Some (store !! k) ->
  exists once,
    revoke k store = inr once
    /\ revoke k once = inr once
    /\ exists r, once !! k = Some r /\ revoked r = true.
Proof.
  intros [r Hk]. exists (mark_revoked k store).
  assert (Honce : mark_revoked k store !! k = Some (revoked_copy r)).
  { unfold mark_revoked. now rewrite lookup_alter_eq, Hk. }
  split; [unfold revoke, find_by_id; now rewrite Hk|].
  split.
  - apply (revoke_revoked_noop k _ (revoked_copy r) Honce). reflexivity.
  - exists (revoked_copy r). split; [exact Honce|reflexivity].
Qed.

(** A successful rotation carries the predecessor's scope to the successor,
    links the successor to the predecessor, and leaves the predecessor
    revoked. *)
Lemma rotate_keeps_scope (k : string) (rl ttl : option Z) (now : Z) (t : Token)
  (store store' : gmap string KeyRecord) (successor old : KeyRecord) :
  rotate k rl ttl now t store = inr (successor, old, store') ->
  store !! k = Some old
  /\ revoked old = false
  /\ scope successor = scope old
  /\ rotated_from successor = Some k
  /\ store' !! k = Some (revoked_copy old)
  /\ store' !! id successor = Some successor.
Proof.
  unfold rotate, find_by_id, insert. simpl.
  destruct (store !! k) as [r|] eqn:Hk; [|discriminate].
  destruct (revoked r) eqn:Hr; [discriminate|].
  destruct (store !! new_id t) as [c|] eqn:Hnew; [discriminate|].
  intros [= <- <- <-]. simpl.
  assert (Hne : new_id t <> k) by congruence.
  repeat split; try assumption.
  - unfold mark_revoked. rewrite lookup_alter_eq.
    rewrite lookup_insert_ne by exact Hne. now rewrite Hk.
  - unfold mark_revoked. rewrite lookup_alter_ne by congruence.
    apply lookup_insert_eq.
Qed.

End KeyManagerFacts.

Lemma revoke_idempotent_witness :
  let r := {| KeyManager.id := "k1"; KeyManager.scope := KeyManager.Namespace "demo";
              KeyManager.rate_limit := 100; KeyManager.lookup_hash := "h1";
              KeyManager.key_prefix := "bkg_demo_abcd"; KeyManager.created_at := 0;
              KeyManager.last_used_at := None; KeyManager.expires_at := None;
              KeyManager.rotated_from := None; KeyManager.rotated_at := None;
              KeyManager.revoked := false |} in
  exists once,
    KeyManager.revoke "k1" {["k1" := r]} = inr once
    /\ KeyManager.revoke "k1" once = inr once
    /\ exists r', once !! "k1" = Some r' /\ KeyManager.revoked r' = true.
Proof.
  intros r. apply (revoke_idempotent "k1" {["k1" := r]}).
  exists r. reflexivity.
Defined.

Section WebhookFacts.
Import Webhook.

Lemma is_zero_byte_zero (a : ascii) : is_zero_byte a = true <-> a = zero.
Proof.
  destruct a as [[] [] [] [] [] [] [] []]; simpl; split; intros H;
    try reflexivity; discriminate H.
Qed.

Lemma xor_byte_zero (a b : ascii) : xor_byte a b = zero <-> a = b.
Proof.
  destruct a as [a0 a1 a2 a3 a4 a5 a6 a7], b as [b0 b1 b2 b3 b4 b5 b6 b7].
  unfold xor_byte, zero. split.
  - intros [= H0 H1 H2 H3 H4 H5 H6 H7].
    apply xorb_eq in H0, H1, H2, H3, H4, H5, H6, H7. now subst.
  - intros [= -> -> -> -> -> -> -> ->]. now rewrite !xorb_nilpotent.
Qed.

Lemma or_byte_zero (a b : ascii) : or_byte a b = zero <-> a = zero /\ b = zero.
Proof.
  destruct a as [a0 a1 a2 a3 a4 a5 a6 a7], b as [b0 b1 b2 b3 b4 b5 b6 b7].
  unfold or_byte, zero. split.
  - intros [= H0 H1 H2 H3 H4 H5 H6 H7].
    apply orb_false_elim in H0 as [-> ->], H1 as [-> ->], H2 as [-> ->],
      H3 as [-> ->], H4 as [-> ->], H5 as [-> ->], H6 as [-> ->], H7 as [-> ->].
    now split.
  - intros [[= -> -> -> -> -> -> -> ->] [= -> -> -> -> -> -> -> ->]]. reflexivity.
Qed.

(** The accumulator ends at zero exactly when it started at zero and the
    operands agree byte for byte. *)
Lemma accumulate_zero (a b : string) (acc : ascii) :
  String.length a = String.length b ->
  accumulate a b acc = zero <-> acc = zero /\ a = b.
Proof.
  revert b acc. induction a as [| x a IH]; intros [| y b] acc Hlen;
    simpl in *; try discriminate.
  - split; [intros ->; now split | now intros [-> _]].
  - injection Hlen as Hlen. rewrite (IH b _ Hlen), or_byte_zero, xor_byte_zero.
    split.
    + intros [[-> ->] ->]. now split.
    + intros [-> [= -> ->]]. now repeat split.
Qed.

(** The constant-time comparison decides equality of byte strings. *)
Lemma constant_time_eq_iff (a b : string) : constant_time_eq a b = true <-> a = b.
Proof.
  unfold constant_time_eq. rewrite andb_true_iff, Nat.eqb_eq, is_zero_byte_zero.
  split.
  - intros [Hlen Hacc]. now apply (accumulate_zero a b zero Hlen) in Hacc.
  - intros ->. split; [reflexivity|]. now apply accumulate_zero.
Qed.

Lemma bit_mask_nonzero (i : nat) : ascii_of_nat (2 ^ (i mod 8)) <> zero.
Proof.
  assert (Hlt : (i mod 8 < 8)%nat) by (apply Nat.mod_upper_bound; discriminate).
  destruct (i mod 8)%nat as [|[|[|[|[|[|[|[|n]]]]]]]]; try discriminate.
  lia.
Qed.

Lemma xorb_fixed (a m : bool) : xorb a m = a -> m = false.
Proof. destruct a, m; simpl; congruence. Qed.

Lemma xor_byte_fixed (a m : ascii) : xor_byte a m = a -> m = zero.
Proof.
  destruct a as [a0 a1 a2 a3 a4 a5 a6 a7], m as [m0 m1 m2 m3 m4 m5 m6 m7].
  unfold xor_byte. intros [= H0 H1 H2 H3 H4 H5 H6 H7].
  apply xorb_fixed in H0, H1, H2, H3, H4, H5, H6, H7. now subst.
Qed.

Lemma flip_in_byte_changes (i : nat) (a : ascii) : flip_in_byte i a <> a.
Proof.
  unfold flip_in_byte. intros H. apply (bit_mask_nonzero i).
  now apply (xor_byte_fixed a).
Qed.

(** Flipping a bit inside a byte string gives a different string. *)
Lemma flip_bit_changes (s : string) (i : nat) :
  (i < 8 * String.length s)%nat -> flip_bit i s <> s.
Proof.
  revert i. induction s as [| c s IH]; intros i Hi; simpl in *; [lia|].
  destruct (Nat.ltb_spec i 8) as [Hlt | Hge].
  - intros [= H]. now apply (flip_in_byte_changes i c).
  - intros [= H]. apply (IH (i - 8)%nat); [lia|exact H].
Qed.

(** [verify] accepts a signature exactly when it is the signature of the
    payload. *)
Lemma verify_iff (hash : string -> string) (block_size : nat)
  (secret payload signature : string) :
  verify hash block_size secret payload signature = true
  <-> signature = sign hash block_size secret payload.
Proof.
  unfold verify. rewrite constant_time_eq_iff. split; congruence.
Qed.

(** C7: whatever the hash, the secret and the payload, [verify] accepts the
    payload's signature, rejects it with any one bit flipped, and answers
    [false] on every other byte string, of whatever length or content. *)
Theorem webhook_signature_verifies (hash : string -> string) (block_size : nat)
  (secret payload : string) :
  verify hash block_size secret payload (sign hash block_size secret payload) = true
  /\ (forall i,
        (i < 8 * String.length (sign hash block_size secret payload))%nat ->
        verify hash block_size secret payload
          (flip_bit i (sign hash block_size secret payload)) = false)
  /\ (forall signature,
        signature <> sign hash block_size secret payload ->
        verify hash block_size secret payload signature = false).
Proof.
  assert (Hreject : forall signature,
             signature <> sign hash block_size secret payload ->
             verify hash block_size secret payload signature = false).
  { intros signature Hne. apply not_true_is_false.
    rewrite verify_iff. exact Hne. }
  split; [now apply verify_iff|].
  split; [|exact Hreject].
  intros i Hi. apply Hreject. now apply flip_bit_changes.
Qed.

(** The envelope [build_notification] returns verifies against the canonical
    bytes of its payload. *)
Lemma notification_verifies (hash : string -> string) (block_size : nat)
  (secret : string) (canonical : RotationWebhookPayload -> string)
  (fresh_event_id : string) (p : RotationWebhookPayload) :
  let envelope := build_notification hash block_size secret canonical fresh_event_id p in
  verify hash block_size secret (canonical (payload envelope)) (signature envelope) = true.
Proof. simpl. now apply verify_iff. Qed.

End WebhookFacts.

Lemma webhook_signature_verifies_witness :
  let hash := fun m : string => m in
  Webhook.verify hash 8 "rotation-secret" "payload"
    (Webhook.flip_bit 11 (Webhook.sign hash 8 "rotation-secret" "payload")) = false.
Proof.
  intros hash.
  apply (proj1 (proj2 (webhook_signature_verifies hash 8 "rotation-secret" "payload"))
           11%nat).
  vm_compute. lia.
Defined.

(** ** Python string methods *)

Section TextFacts.
Import Text.

Lemma app_cons (c : ascii) (s t : string) : String c s ++ t = String c (s ++ t).
Proof. reflexivity. Qed.

Lemma app_nil_l (t : string) : "" ++ t = t.
Proof. reflexivity. Qed.

Lemma append_nil_r (s : string) : s ++ "" = s.
Proof.
  induction s as [| c s IH]; [reflexivity | now rewrite app_cons, IH].
Qed.

Lemma append_assoc (a b c : string) : (a ++ b) ++ c = a ++ (b ++ c).
Proof.
  induction a as [| x a IH]; [reflexivity | now rewrite !app_cons, IH].
Qed.

Lemma chars_app (a b : string) :
  list_ascii_of_string (a ++ b) = (list_ascii_of_string a ++ list_ascii_of_string b)%list.
Proof.
  induction a as [| x a IH]; [reflexivity|].
  rewrite app_cons. simpl. now rewrite IH.
Qed.

(** [lstrip] returns a suffix and [rstrip] a prefix of their argument. *)
Lemma lstrip_suffix (s : string) : exists p, s = p ++ SBOM.lstrip s.
Proof.
  induction s as [| c s [p IH]]; simpl.
  - now exists "".
  - destruct (SBOM.is_space c).
    + exists (String c p). now rewrite app_cons, <- IH.
    + now exists "".
Qed.

Lemma rstrip_prefix (s : string) : exists q, s = SBOM.rstrip s ++ q.
Proof.
  induction s as [| c s [q IH]]; simpl.
  - now exists "".
  - destruct (SBOM.rstrip s) as [| d r] eqn:E.
    + destruct (SBOM.is_space c).
      * now exists (String c s).
      * exists q. rewrite app_cons. now rewrite <- IH.
    + exists q. rewrite app_cons. now rewrite <- IH.
Qed.

(** The characters of [strip s] are characters of [s]. *)
Lemma strip_chars (s : string) (c : ascii) :
  In c (list_ascii_of_string (SBOM.strip s)) -> In c (list_ascii_of_string s).
Proof.
  unfold SBOM.strip. intros H.
  destruct (lstrip_suffix s) as [p Hp].
  destruct (rstrip_prefix (SBOM.lstrip s)) as [q Hq].
  rewrite Hp, Hq, !chars_app, !in_app_iff. auto.
Qed.

Lemma rstrip_idem (s : string) : SBOM.rstrip (SBOM.rstrip s) = SBOM.rstrip s.
Proof.
  induction s as [| c s IH]; simpl; [reflexivity|].
  destruct (SBOM.rstrip s) as [| d r] eqn:E.
  - destruct (SBOM.is_space c) eqn:Ec; simpl; [reflexivity | now rewrite Ec].
  - simpl in *. now rewrite IH.
Qed.

(** A string that does not start with whitespace. *)
Lemma lstrip_head (s : string) :
  match SBOM.lstrip s with
  | String c _ => SBOM.is_space c = false
  | EmptyString => True
  end.
Proof.
  induction s as [| c s IH]; simpl; [exact I|].
  destruct (SBOM.is_space c) eqn:Ec; [exact IH | exact Ec].
Qed.

Lemma lstrip_fixed (c : ascii) (s : string) :
  SBOM.is_space c = false -> SBOM.lstrip (String c s) = String c s.
Proof. intros Ec. simpl. now rewrite Ec. Qed.

Lemma rstrip_head (c : ascii) (s : string) :
  SBOM.is_space c = false -> exists r, SBOM.rstrip (String c s) = String c r.
Proof.
  intros Ec. simpl. destruct (SBOM.rstrip s) as [| d r].
  - rewrite Ec. now exists "".
  - now exists (String d r).
Qed.

(** [strip] does nothing more on its own result. *)
Lemma strip_idem (s : string) : SBOM.strip (SBOM.strip s) = SBOM.strip s.
Proof.
  unfold SBOM.strip.
  pose proof (lstrip_head s) as Hh.
  destruct (SBOM.lstrip s) as [| c t] eqn:Et; [reflexivity|].
  destruct (rstrip_head c t Hh) as [r Hr]. rewrite Hr.
  rewrite (lstrip_fixed c r Hh), <- Hr. apply rstrip_idem.
Qed.

(** A non-empty string that [strip] leaves alone starts with a visible
    character and is left alone by [rstrip]. *)
Lemma stripped_shape (s : string) :
  SBOM.strip s = s -> s <> "" ->
  exists c t, s = String c t /\ SBOM.is_space c = false /\ SBOM.rstrip s = s.
Proof.
  unfold SBOM.strip. intros Hs Hne.
  pose proof (lstrip_head s) as Hh.
  destruct (SBOM.lstrip s) as [| c t] eqn:Et.
  - simpl in Hs. congruence.
  - destruct (rstrip_head c t Hh) as [r Hr].
    exists c, r. rewrite Hr in Hs. subst s.
    split; [reflexivity|]. split; [exact Hh|].
    rewrite <- Hr. apply rstrip_idem.
Qed.

Lemma rstrip_space_r (s : string) : SBOM.rstrip (s ++ " ") = SBOM.rstrip s.
Proof.
  induction s as [| c s IH]; [reflexivity|].
  rewrite app_cons. simpl. now rewrite IH.
Qed.

(** Padding a stripped cell with one space on each side is undone by
    [strip]. *)
Lemma strip_padded (s : string) :
  SBOM.strip s = s -> s <> "" -> SBOM.strip (" " ++ s ++ " ") = s.
Proof.
  intros Hs Hne. destruct (stripped_shape s Hs Hne) as (c & t & -> & Hc & Hr).
  unfold SBOM.strip. rewrite app_cons, app_nil_l.
  change (SBOM.lstrip (String " " (String c t ++ " ")))
    with (SBOM.lstrip (String c t ++ " ")).
  rewrite app_cons, (lstrip_fixed c _ Hc), <- app_cons.
  now rewrite rstrip_space_r.
Qed.

End TextFacts.

(** ** The threat-matrix parser *)

Section ParserFacts.
Import Text Conftest ThreatTable.

Lemma split_pieces_free (sep : ascii) (s : string) :
  Forall (fun piece => ~ In sep (list_ascii_of_string piece)) (split sep s).
Proof.
  induction s as [| c s IH]; simpl.
  - constructor; [intros []|constructor].
  - destruct (Ascii.eqb_spec c sep) as [->|Hne].
    + constructor; [intros []|exact IH].
    + destruct (split sep s) as [| piece pieces]; inversion IH; subst.
      * constructor; [|constructor]. simpl. intros [H|[]]. congruence.
      * constructor; [|assumption]. simpl. intros [H|H]; [congruence|auto].
Qed.

(** Every cell [cells] returns is clean. *)
Lemma cells_clean (line : string) : Forall clean_cell (cells line).
Proof.
  unfold cells. apply Forall_forall. intros c Hc.
  apply list_elem_of_In, filter_In in Hc as [Hin Hne].
  apply in_map_iff in Hin as [piece [<- Hpiece]].
  split; [|split].
  - intros E. rewrite E in Hne. discriminate.
  - apply strip_idem.
  - intros Hbar. apply strip_chars in Hbar.
    pose proof (split_pieces_free "|"%char line) as Hfree.
    rewrite Forall_forall in Hfree.
    apply (Hfree piece); [now apply list_elem_of_In|exact Hbar].
Qed.

Lemma parse_lines_clean (lines : list string) (acc rows : list ThreatRow) (b : bool) :
  Forall clean_row acc -> parse_lines lines acc b = Ok rows -> Forall clean_row rows.
Proof.
  revert acc b. induction lines as [| raw rest IH]; intros acc b Hacc; simpl.
  - intros [= <-]. exact Hacc.
  - destruct (String.eqb (SBOM.strip raw) ""); [destruct b|].
    + intros [= <-]. exact Hacc.
    + now apply IH.
    + destruct (startswith (SBOM.strip raw) "| Kategorie"); [now apply IH|].
      destruct b; simpl; [|now apply IH].
      destruct (is_separator (SBOM.strip raw)); [now apply IH|].
      pose proof (cells_clean (SBOM.strip raw)) as Hcells.
      destruct (cells (SBOM.strip raw)) as [|c1 [|c2 [|c3 [|c4 [|c5 [|c6 l]]]]]];
        try discriminate.
      apply IH. apply Forall_app. split; [exact Hacc|].
      constructor; [|constructor].
      repeat match goal with
             | H : Forall _ (_ :: _) |- _ => inversion H; clear H; subst
             end.
      unfold clean_row. simpl. tauto.
Qed.

(** X1: when [_parse_threat_matrix] returns, it returns at least one row, and
    every cell of every row has text, no surrounding whitespace and no
    column separator. *)
Theorem parse_returns_clean_rows (lines : list string) (rows : list ThreatRow) :
  _parse_threat_matrix lines = Ok rows -> rows <> [] /\ Forall clean_row rows.
Proof.
  unfold _parse_threat_matrix.
  destruct (parse_lines lines [] false) as [[| r rs] | e] eqn:E; try discriminate.
  intros [= <-]. split; [discriminate|].
  apply (parse_lines_clean lines [] _ false); [constructor|exact E].
Qed.

Lemma header_not_blank (line : string) : is_header line = true -> is_blank line = false.
Proof.
  unfold is_header, is_blank, startswith.
  destruct (SBOM.strip line); [discriminate|reflexivity].
Qed.

Lemma parse_lines_preamble (pre rest : list string) (acc : list ThreatRow) :
  Forall (fun line => is_header line = false) pre ->
  parse_lines (pre ++ rest) acc false = parse_lines rest acc false.
Proof.
  induction 1 as [| line pre Hline _ IH]; [reflexivity|].
  rewrite <- app_comm_cons. simpl.
  unfold is_header in Hline. rewrite Hline.
  destruct (String.eqb (SBOM.strip line) ""); exact IH.
Qed.

(** X2: lines before the header are ignored, whatever they are. *)
Theorem parse_ignores_preamble (pre rest : list string) :
  Forall (fun line => is_header line = false) pre ->
  _parse_threat_matrix (pre ++ rest) = _parse_threat_matrix rest.
Proof.
  intros Hpre. unfold _parse_threat_matrix.
  now rewrite parse_lines_preamble.
Qed.

(** X3: without a header line, the empty input included, the parser raises
    the [ValueError] that the table was not found. *)
Theorem parse_without_header (lines : list string) :
  Forall (fun line => is_header line = false) lines ->
  _parse_threat_matrix lines
  = Raise (ValueError "Threat matrix table not found in docs/security.md").
Proof.
  intros Hlines. unfold _parse_threat_matrix.
  rewrite <- (app_nil_r lines). now rewrite parse_lines_preamble.
Qed.

Lemma parse_lines_blank (pre post : list string) (blank : string)
  (acc : list ThreatRow) (b : bool) :
  b = true \/ Exists (fun line => is_header line = true) pre ->
  is_blank blank = true ->
  parse_lines (pre ++ blank :: post) acc b = parse_lines pre acc b.
Proof.
  intros Hb Hblank. revert acc b Hb.
  induction pre as [| line pre IH]; intros acc b Hb.
  - destruct Hb as [-> | Hex]; [|inversion Hex].
    simpl. unfold is_blank in Hblank. now rewrite Hblank.
  - rewrite <- app_comm_cons. simpl.
    destruct (String.eqb (SBOM.strip line) "") eqn:Eblank.
    + destruct b; [reflexivity|]. apply IH. right.
      destruct Hb as [Hb | Hex]; [discriminate|].
      inversion Hex as [? ? Hh | ? ? Hh]; subst; [|exact Hh].
      apply header_not_blank in Hh. unfold is_blank in Hh. congruence.
    + destruct (startswith (SBOM.strip line) "| Kategorie") eqn:Ehead;
        [apply IH; now left|].
      destruct b; simpl.
      * destruct (is_separator (SBOM.strip line)); [apply IH; now left|].
        destruct (cells (SBOM.strip line)) as [|c1 [|c2 [|c3 [|c4 [|c5 [|c6 l]]]]]];
          try reflexivity.
        apply IH. now left.
      * apply IH. right. destruct Hb as [Hb | Hex]; [discriminate|].
        inversion Hex as [? ? Hh | ? ? Hh]; subst; [|exact Hh].
        unfold is_header in Hh. congruence.
Qed.

(** X4: the first blank line after the header ends the table; nothing after
    it is read. *)
Theorem parse_stops_at_blank (pre post : list string) (blank : string) :
  Exists (fun line => is_header line = true) pre ->
  is_blank blank = true ->
  _parse_threat_matrix (pre ++ blank :: post) = _parse_threat_matrix pre.
Proof.
  intros Hhead Hblank. unfold _parse_threat_matrix.
  rewrite (parse_lines_blank pre post blank [] false); [reflexivity| |exact Hblank].
  now right.
Qed.

Lemma parse_lines_malformed (body post : list string) (bad : string)
  (acc : list ThreatRow) :
  Forall well_formed_line body ->
  malformed_line bad ->
  parse_lines (body ++ bad :: post) acc true
  = Raise (ValueError ("Unexpected threat matrix row format: " ++ SBOM.strip bad)).
Proof.
  intros Hbody (Hblank & Hhead & Hsep & Hlen). revert acc.
  induction Hbody as [| line body (Hb & Hline) _ IH]; intros acc.
  - simpl. unfold is_blank in Hblank. unfold is_header in Hhead.
    rewrite Hblank, Hhead, Hsep. simpl.
    destruct (cells (SBOM.strip bad)) as [|c1 [|c2 [|c3 [|c4 [|c5 [|c6 l]]]]]];
      try reflexivity.
    now contradiction Hlen.
  - rewrite <- app_comm_cons. simpl. unfold is_blank in Hb. rewrite Hb.
    destruct (startswith (SBOM.strip line) "| Kategorie") eqn:Eh; [apply IH|].
    simpl. destruct (is_separator (SBOM.strip line)) eqn:Es; [apply IH|].
    destruct Hline as [Hh | [Hs | H5]].
    + unfold is_header in Hh. congruence.
    + discriminate.
    + destruct (cells (SBOM.strip line)) as [|c1 [|c2 [|c3 [|c4 [|c5 [|c6 l]]]]]];
        try discriminate.
      apply IH.
Qed.

(** X5: inside the table, a line with text that is neither a header nor a
    rule and does not have five cells makes the parser raise [ValueError] with
    the stripped line in the message; the rows read before it are lost. *)
Theorem parse_rejects_malformed_row (pre body post : list string) (header bad : string) :
  Forall (fun line => is_header line = false) pre ->
  is_header header = true ->
  Forall well_formed_line body ->
  malformed_line bad ->
  _parse_threat_matrix (pre ++ header :: body ++ bad :: post)
  = Raise (ValueError ("Unexpected threat matrix row format: " ++ SBOM.strip bad)).
Proof.
  intros Hpre Hhead Hbody Hbad.
  unfold _parse_threat_matrix. rewrite parse_lines_preamble by exact Hpre.
  simpl.
  pose proof (header_not_blank header Hhead) as Hnb.
  unfold is_blank in Hnb. unfold is_header in Hhead. rewrite Hnb, Hhead.
  now rewrite (parse_lines_malformed body post bad []).
Qed.

Lemma split_free_piece (sep : ascii) (a : string) :
  ~ In sep (list_ascii_of_string a) -> split sep a = [a].
Proof.
  induction a as [| c a IH]; simpl; intros Hfree; [reflexivity|].
  destruct (Ascii.eqb_spec c sep) as [->|Hne]; [tauto|].
  rewrite IH by tauto. reflexivity.
Qed.

Lemma split_app_sep (sep : ascii) (a b : string) :
  ~ In sep (list_ascii_of_string a) ->
  split sep (a ++ String sep b) = a :: split sep b.
Proof.
  induction a as [| c a IH]; intros Hfree.
  - rewrite app_nil_l. simpl. now rewrite Ascii.eqb_refl.
  - rewrite app_cons. simpl in *.
    destruct (Ascii.eqb_spec c sep) as [->|Hne]; [tauto|].
    rewrite IH by tauto. reflexivity.
Qed.

Lemma split_sep_head (sep : ascii) (b : string) :
  split sep (String sep b) = "" :: split sep b.
Proof. simpl. now rewrite Ascii.eqb_refl. Qed.

Lemma pad_free (c : string) :
  ~ In "|"%char (list_ascii_of_string c) -> ~ In "|"%char (list_ascii_of_string (pad c)).
Proof.
  unfold pad. rewrite !chars_app. simpl. rewrite in_app_iff. simpl.
  intros Hc [H | [H | [H | []]]]; try discriminate. tauto.
Qed.

Lemma strip_pad (c : string) : clean_cell c -> SBOM.strip (pad c) = c.
Proof. intros (Hne & Hs & _). now apply strip_padded. Qed.

(** The cells of a rendered row are the row's fields. *)
Lemma cells_render_row (r : ThreatRow) :
  clean_row r ->
  cells (render_row r) = [category r; threat r; impact r; mitigations r; tests r].
Proof.
  intros (Hc & Ht & Hi & Hm & Hx). unfold cells, render_row.
  rewrite !app_cons, !app_nil_l, split_sep_head.
  rewrite !split_app_sep by (apply pad_free; (apply Hc || apply Ht || apply Hi
                                              || apply Hm || apply Hx)).
  change (split "|" "") with [""].
  cbn [map]. rewrite !strip_pad by assumption.
  change (SBOM.strip "") with "".
  destruct Hc as (Hc & _), Ht as (Ht & _), Hi as (Hi & _), Hm as (Hm & _),
    Hx as (Hx & _).
  apply String.eqb_neq in Hc, Ht, Hi, Hm, Hx.
  cbn [List.filter]. rewrite Hc, Ht, Hi, Hm, Hx. reflexivity.
Qed.

Lemma rstrip_visible_end (s : string) (d : ascii) :
  SBOM.is_space d = false ->
  SBOM.rstrip (s ++ String d "") = s ++ String d "".
Proof.
  intros Hd. induction s as [| c s IH].
  - rewrite app_nil_l. simpl. now rewrite Hd.
  - rewrite app_cons. simpl. rewrite IH.
    destruct s; [rewrite app_nil_l | rewrite app_cons]; reflexivity.
Qed.

(** A rendered row starts and ends with the column separator, so [strip]
    leaves it alone. *)
Lemma strip_render_row (r : ThreatRow) : SBOM.strip (render_row r) = render_row r.
Proof.
  unfold render_row. rewrite app_cons, app_nil_l.
  unfold SBOM.strip. rewrite lstrip_fixed by reflexivity.
  rewrite <- app_cons, <- !append_assoc.
  now apply rstrip_visible_end.
Qed.

Lemma parse_lines_rendered (rows acc : list ThreatRow) :
  Forall clean_row rows ->
  Forall (fun r => reads_as_row (render_row r)) rows ->
  parse_lines (map render_row rows) acc true = Ok (acc ++ rows)%list.
Proof.
  intros Hclean Hread. revert acc.
  induction rows as [| r rows IH]; intros acc; simpl.
  - now rewrite app_nil_r.
  - inversion Hclean as [| ? ? Hr Hrest]; subst.
    inversion Hread as [| ? ? (Hh & Hs) Hreadrest]; subst.
    unfold is_header in Hh. rewrite Hh, Hs.
    rewrite strip_render_row in *.
    assert (Hne : String.eqb (render_row r) "" = false) by reflexivity.
    rewrite Hne. simpl. rewrite (cells_render_row r Hr).
    rewrite (IH Hrest Hreadrest). rewrite <- app_assoc. simpl.
    now destruct r.
Qed.

Lemma parse_rendered (header : string) (rows : list ThreatRow) :
  is_header header = true ->
  rows <> [] ->
  Forall clean_row rows ->
  Forall (fun r => reads_as_row (render_row r)) rows ->
  _parse_threat_matrix (render header rows) = Ok rows.
Proof.
  intros Hhead Hne Hclean Hread.
  unfold _parse_threat_matrix, render. simpl.
  pose proof (header_not_blank header Hhead) as Hnb.
  unfold is_blank in Hnb. unfold is_header in Hhead. rewrite Hnb, Hhead.
  rewrite (parse_lines_rendered rows [] Hclean Hread). simpl.
  destruct rows; [contradiction|reflexivity].
Qed.

(** X6: a table written from clean rows parses back to these rows: under a
    header line and its rule, one line per row with the cells between
    separators and single spaces.  The rows must read as rows: a first cell
    that starts like the header's, or cells made of hyphens only, would make
    the line a header or a rule. *)
Theorem parse_render_roundtrip (header : string) (rows : list ThreatRow) :
  is_header header = true ->
  rows <> [] ->
  Forall clean_row rows ->
  Forall (fun r => reads_as_row (render_row r)) rows ->
  _parse_threat_matrix (render header rows) = Ok rows.
Proof.
  intros Hhead Hne Hclean Hread. now apply parse_rendered.
Qed.

End ParserFacts.

Lemma parse_returns_clean_rows_witness :
  ThreatTable.example_rows <> [] /\ Forall ThreatTable.clean_row ThreatTable.example_rows.
Proof.
  apply (parse_returns_clean_rows ThreatTable.example_document ThreatTable.example_rows).
  vm_compute. reflexivity.
Defined.

Lemma parse_ignores_preamble_witness :
  Conftest._parse_threat_matrix
    (["# Security"; ""; "| Other | table |"]
     ++ ThreatTable.render ThreatTable.example_header ThreatTable.example_rows)%list
  = Conftest._parse_threat_matrix
      (ThreatTable.render ThreatTable.example_header ThreatTable.example_rows).
Proof.
  apply (parse_ignores_preamble ["# Security"; ""; "| Other | table |"]).
  repeat constructor.
Defined.

Lemma parse_without_header_witness :
  Conftest._parse_threat_matrix ["# Security"; ""; "| API Auth | a | b | c | d |"]
  = Conftest.Raise
      (Conftest.ValueError "Threat matrix table not found in docs/security.md").
Proof.
  apply (parse_without_header ["# Security"; ""; "| API Auth | a | b | c | d |"]).
  repeat constructor.
Defined.

Lemma parse_stops_at_blank_witness :
  Conftest._parse_threat_matrix
    (ThreatTable.render ThreatTable.example_header ThreatTable.example_rows
     ++ "  " :: ["| Logging | a | b | c | d |"; "| broken |"])%list
  = Conftest._parse_threat_matrix
      (ThreatTable.render ThreatTable.example_header ThreatTable.example_rows).
Proof.
  apply (parse_stops_at_blank
           (ThreatTable.render ThreatTable.example_header ThreatTable.example_rows)
           ["| Logging | a | b | c | d |"; "| broken |"] "  ").
  - left. reflexivity.
  - reflexivity.
Defined.

Lemma parse_rejects_malformed_row_witness :
  Conftest._parse_threat_matrix
    (["# Security"]
     ++ ThreatTable.example_header
        :: ["|---|---|"; "| API Auth | a | b | c | pytest |"]
        ++ "  | Logging | a | b |  " :: ["| Supply Chain | a | b | c | d |"])%list
  = Conftest.Raise
      (Conftest.ValueError "Unexpected threat matrix row format: | Logging | a | b |").
Proof.
  apply (parse_rejects_malformed_row ["# Security"]
           ["|---|---|"; "| API Auth | a | b | c | pytest |"]
           ["| Supply Chain | a | b | c | d |"]
           ThreatTable.example_header "  | Logging | a | b |  ").
  - repeat constructor.
  - reflexivity.
  - constructor; [split; [reflexivity | right; left; reflexivity]|].
    constructor; [split; [reflexivity | right; right; reflexivity]|].
    constructor.
  - repeat split; try reflexivity. vm_compute. lia.
Defined.

Lemma parse_render_roundtrip_witness :
  Conftest._parse_threat_matrix
    (ThreatTable.render ThreatTable.example_header ThreatTable.example_rows)
  = Conftest.Ok ThreatTable.example_rows.
Proof.
  apply (parse_render_roundtrip ThreatTable.example_header ThreatTable.example_rows).
  - reflexivity.
  - discriminate.
  - repeat constructor; try discriminate;
      simpl; intros H; repeat (destruct H as [H | H]; [discriminate H|]); exact H.
  - repeat constructor.
Defined.

(** ** The threat index and the ancestors of a path *)

Section IndexFacts.
Import Text Conftest.

Lemma last_cons_cases {A : Type} (x : A) (l : list A) :
  last (x :: l) = match last l with Some y => Some y | None => Some x end.
Proof.
  revert x. induction l as [| y l IH]; intros x; [reflexivity|].
  change (last (x :: y :: l)) with (last (y :: l)).
  rewrite (IH y). now destruct (last l).
Qed.

Lemma fold_index_lookup (rows : list ThreatRow) (index : gmap string ThreatRow) (c : string) :
  fold_left (fun index row => <[category row := row]> index) rows index !! c
  = match last (filter (fun row => category row = c) rows) with
    | Some row => Some row
    | None => index !! c
    end.
Proof.
  revert index. induction rows as [| r rows IH]; intros index; [reflexivity|].
  simpl. rewrite IH. rewrite filter_cons.
  destruct (decide (category r = c)) as [Hc | Hc].
  - rewrite last_cons_cases.
    destruct (last (filter (fun row => category row = c) rows)); [reflexivity|].
    rewrite Hc. apply lookup_insert_eq.
  - destruct (last (filter (fun row => category row = c) rows)); [reflexivity|].
    now apply lookup_insert_ne.
Qed.

Lemma threat_index_last (rows : list ThreatRow) (c : string) :
  threat_index rows !! c = last (filter (fun row => category row = c) rows).
Proof.
  unfold threat_index. rewrite fold_index_lookup, lookup_empty.
  now destruct (last _).
Qed.

Lemma last_Some_elem {A : Type} (l : list A) (x : A) : last l = Some x -> x ∈ l.
Proof.
  induction l as [| y l IH]; [discriminate|].
  rewrite last_cons_cases. destruct (last l) as [z|].
  - intros [= ->]. right. now apply IH.
  - intros [= ->]. left.
Qed.

Lemma last_None_nil {A : Type} (l : list A) : last l = None -> l = [].
Proof.
  destruct l as [| y l]; [reflexivity|].
  rewrite last_cons_cases. now destruct (last l).
Qed.

Lemma threat_index_is_Some (rows : list ThreatRow) (c : string) :
  is_Some (threat_index rows !! c) <-> Exists (fun row => category row = c) rows.
Proof.
  rewrite threat_index_last, Exists_exists. split.
  - intros [r Hr]. apply last_Some_elem, list_elem_of_filter in Hr as [Hc Hin].
    now exists r.
  - intros [r [Hin Hc]].
    destruct (last (filter (fun row => category row = c) rows)) as [x|] eqn:E;
      [now exists x|].
    apply last_None_nil in E.
    assert (Hf : r ∈ filter (fun row => category row = c) rows)
      by now apply list_elem_of_filter.
    rewrite E in Hf. inversion Hf.
Qed.

(** X8: the index maps a category to the last row that has it, so a later
    row replaces an earlier one; a category is in the index exactly when some
    row has it, and every row found is filed under its own category. *)
Theorem threat_index_lookup (rows : list ThreatRow) (c : string) :
  threat_index rows !! c = last (filter (fun row => category row = c) rows)
  /\ (is_Some (threat_index rows !! c) <-> Exists (fun row => category row = c) rows)
  /\ forall row, threat_index rows !! c = Some row -> category row = c /\ row ∈ rows.
Proof.
  split; [apply threat_index_last|]. split; [apply threat_index_is_Some|].
  intros row. rewrite threat_index_last. intros H.
  now apply last_Some_elem, list_elem_of_filter in H.
Qed.

Lemma parents_succ (p : path) (n : nat) :
  map (fun k => take k p) (rev (seq 0 (S n)))
  = take n p :: map (fun k => take k p) (rev (seq 0 n)).
Proof. now rewrite seq_S, rev_app_distr. Qed.

Lemma first_with_readme_spec (files : gmap path string) (p : path) (n : nat) (root : path) :
  first_with_readme files (map (fun k => take k p) (rev (seq 0 n))) = Ok root
  <-> exists k, (k < n)%nat /\ root = take k p
                /\ is_Some (files !! (root ++ ["README.md"])%list)
                /\ forall m, (k < m < n)%nat -> files !! (take m p ++ ["README.md"])%list = None.
Proof.
  induction n as [| n IH].
  - simpl. split; [discriminate|]. intros (k & Hk & _). lia.
  - rewrite parents_succ. simpl. case_bool_decide as Hhas.
    + split.
      * intros [= <-]. exists n. repeat split; [lia|exact Hhas|]. intros m Hm. lia.
      * intros (k & Hk & -> & Hk' & Hnone).
        destruct (decide (k = n)) as [->|Hne]; [reflexivity|].
        rewrite (Hnone n) in Hhas by lia. now destruct Hhas.
    + rewrite IH. split.
      * intros (k & Hk & -> & Hk' & Hnone). exists k.
        repeat split; [lia|exact Hk'|]. intros m Hm.
        destruct (decide (m = n)) as [->|Hne].
        -- apply eq_None_not_Some. exact Hhas.
        -- apply Hnone. lia.
      * intros (k & Hk & -> & Hk' & Hnone).
        destruct (decide (k = n)) as [->|Hne]; [contradiction|].
        exists k. repeat split; [lia|exact Hk'|]. intros m Hm. apply Hnone. lia.
Qed.

Lemma first_with_readme_raises (files : gmap path string) (candidates : list path) :
  first_with_readme files candidates
  = Raise (RuntimeError "Unable to locate repository root containing README.md")
  <-> Forall (fun c => files !! (c ++ ["README.md"])%list = None) candidates.
Proof.
  induction candidates as [| c cs IH]; simpl.
  - split; [constructor|reflexivity].
  - case_bool_decide as Hhas.
    + split; [discriminate|]. intros H. inversion H as [| ? ? Hc _]; subst.
      rewrite Hc in Hhas. now destruct Hhas.
    + rewrite IH. split.
      * intros H. constructor; [now apply eq_None_not_Some|exact H].
      * intros H. now inversion H.
Qed.

(** X9: [_repo_root] returns the nearest proper ancestor of the file that
    holds a README.md: no ancestor below it holds one.  It raises
    [RuntimeError] exactly when no proper ancestor holds one; the file's own
    path is never a candidate. *)
Theorem repo_root_nearest (files : gmap path string) (this_file : path) :
  (forall root,
     _repo_root files this_file = Ok root
     <-> exists k, (k < length this_file)%nat /\ root = take k this_file
                   /\ is_Some (files !! (root ++ ["README.md"])%list)
                   /\ forall m, (k < m < length this_file)%nat ->
                                files !! (take m this_file ++ ["README.md"])%list = None)
  /\ (_repo_root files this_file
      = Raise (RuntimeError "Unable to locate repository root containing README.md")
      <-> forall m, (m < length this_file)%nat ->
                    files !! (take m this_file ++ ["README.md"])%list = None).
Proof.
  unfold _repo_root, parents. split.
  - intros root. apply first_with_readme_spec.
  - rewrite first_with_readme_raises, Forall_forall. split.
    + intros H m Hm. apply H. apply list_elem_of_In, in_map_iff. exists m.
      split; [reflexivity|]. apply in_rev. rewrite rev_involutive.
      apply in_seq. lia.
    + intros H c Hc. apply list_elem_of_In, in_map_iff in Hc as [m [<- Hm]].
      apply H. apply in_rev in Hm. apply in_seq in Hm. lia.
Qed.

End IndexFacts.

(** ** The keyword checks of the threat-matrix tests *)

Section KeywordFacts.
Import Text Conftest ThreatTests ThreatTable.

Lemma prefix_spec (n h : string) : String.prefix n h = true <-> exists s, h = n ++ s.
Proof.
  revert h. induction n as [| a n IH]; intros h.
  - split; [intros _; now exists h|]. intros _. now destruct h.
  - destruct h as [| b h]; simpl.
    + split; [discriminate|]. intros [s Hs]. rewrite app_cons in Hs. discriminate.
    + destruct (ascii_dec a b) as [->|Hne].
      * rewrite IH. split; intros [s Hs]; exists s.
        -- now rewrite app_cons, <- Hs.
        -- rewrite app_cons in Hs. congruence.
      * split; [discriminate|]. intros [s Hs]. rewrite app_cons in Hs. congruence.
Qed.

(** [contains] decides the occurrence of a substring. *)
Lemma contains_spec (n h : string) :
  contains n h = true <-> exists p s, h = p ++ n ++ s.
Proof.
  induction h as [| c h IH]; cbn [contains]; rewrite orb_true_iff, prefix_spec.
  - split.
    + intros [[s Hs] | H]; [|discriminate]. now exists "", s.
    + intros (p & s & Hps). left. exists s.
      destruct p; [exact Hps|]. rewrite app_cons in Hps. discriminate.
  - rewrite IH. split.
    + intros [[s Hs] | (p & s & Hps)].
      * now exists "", s.
      * exists (String c p), s. now rewrite app_cons, <- Hps.
    + intros (p & s & Hps). destruct p as [| d p].
      * left. now exists s.
      * right. rewrite app_cons in Hps. injection Hps as _ Hps. now exists p, s.
Qed.

Lemma lower_app (a b : string) : lower (a ++ b) = lower a ++ lower b.
Proof.
  induction a as [| c a IH]; [reflexivity|].
  rewrite app_cons. simpl. now rewrite IH, app_cons.
Qed.

Lemma keyword_check (text keyword : string) :
  contains (lower keyword) (lower text) = true <-> mentions text keyword.
Proof. apply contains_spec. Qed.

Lemma assert_all_iff (text : string) (keywords : list string) :
  _assert_contains_keywords text keywords true = true
  <-> Forall (mentions text) keywords.
Proof.
  unfold _assert_contains_keywords.
  induction keywords as [| k ks IH]; simpl.
  - split; [constructor|reflexivity].
  - rewrite andb_true_iff, IH. rewrite keyword_check. split.
    + intros [Hk Hks]. now constructor.
    + intros H. now inversion H.
Qed.

Lemma assert_any_iff (text : string) (keywords : list string) :
  _assert_contains_keywords text keywords false = true
  <-> Exists (mentions text) keywords.
Proof.
  unfold _assert_contains_keywords.
  induction keywords as [| k ks IH]; simpl.
  - split; [discriminate|]. intros H. inversion H.
  - rewrite orb_true_iff, IH. rewrite keyword_check. split.
    + intros [Hk | Hks]; [now left | now right].
    + intros H. inversion H; [now left | now right].
Qed.

(** X10: [_assert_contains_keywords] answers [True] exactly when every keyword
    (with [require_all]) or some keyword (without) occurs in the text as a
    substring, letter case aside.  With no keywords at all it answers
    [True] under [require_all] and [False] otherwise; the empty keyword
    occurs in every text. *)
Theorem assert_contains_keywords_spec (text : string) (keywords : list string) :
  (_assert_contains_keywords text keywords true = true
   <-> Forall (mentions text) keywords)
  /\ (_assert_contains_keywords text keywords false = true
      <-> Exists (mentions text) keywords)
  /\ _assert_contains_keywords text [] true = true
  /\ _assert_contains_keywords text [] false = false
  /\ mentions text "".
Proof.
  split; [apply assert_all_iff|]. split; [apply assert_any_iff|].
  split; [reflexivity|]. split; [reflexivity|].
  exists "", (lower text). reflexivity.
Qed.

Lemma mentions_inside (before text after keyword : string) :
  mentions text keyword -> mentions (before ++ text ++ after) keyword.
Proof.
  intros (p & s & H). unfold mentions. rewrite !lower_app, H.
  exists (lower before ++ p), (s ++ lower after).
  now rewrite !append_assoc.
Qed.

(** X11: on ASCII strings, text around a passage never hides what the
    passage mentions: when the check passes on a text, it passes on every
    text that contains it.  (Beyond ASCII [str.lower] depends on what
    follows a letter, and the statement is not made.) *)
Theorem assert_contains_keywords_monotone (before text after : string)
  (keywords : list string) (require_all : bool) :
  is_ascii before = true ->
  is_ascii text = true ->
  is_ascii after = true ->
  Forall (fun keyword => is_ascii keyword = true) keywords ->
  _assert_contains_keywords text keywords require_all = true ->
  _assert_contains_keywords (before ++ text ++ after) keywords require_all = true.
Proof.
  intros _ _ _ _.
  destruct require_all.
  - rewrite !assert_all_iff. intros H.
    eapply Forall_impl; [exact H|]. intros k. apply mentions_inside.
  - rewrite !assert_any_iff. intros H.
    eapply Exists_impl; [exact H|]. intros k. apply mentions_inside.
Qed.

End KeywordFacts.

Lemma assert_contains_keywords_monotone_witness :
  ThreatTests._assert_contains_keywords
    ("Mitigation: " ++ "SBOM and Cosign" ++ " in CI") ["sbom"; "cosign"] true = true.
Proof.
  apply (assert_contains_keywords_monotone "Mitigation: " "SBOM and Cosign" " in CI"
           ["sbom"; "cosign"] true); try reflexivity.
  repeat constructor.
Defined.

(** ** The threat-matrix tests *)

Section TestFacts.
Import Text Conftest ThreatTests ThreatTable.

Lemma insert_sorted_not_nil (s : string) (l : list string) : insert_sorted s l <> [].
Proof. destruct l as [| x l]; simpl; [discriminate|]. now destruct (String.leb s x). Qed.

Lemma sorted_nil_iff (l : list string) : sorted l = [] <-> l = [].
Proof.
  destruct l as [| x l]; [easy|]. split; [|discriminate].
  unfold sorted. simpl. intros H. now apply insert_sorted_not_nil in H.
Qed.

Lemma filter_nil_iff {A : Type} (f : A -> bool) (l : list A) :
  List.filter f l = [] <-> Forall (fun x => f x = false) l.
Proof.
  induction l as [| x l IH]; simpl.
  - split; [constructor|reflexivity].
  - destruct (f x) eqn:E.
    + split; [discriminate|]. intros H. inversion H. congruence.
    + rewrite IH. split; [now constructor|]. intros H. now inversion H.
Qed.

Lemma assert_ok (condition : bool) (message : string) :
  assert condition message = Ok tt <-> condition = true.
Proof. destruct condition; simpl; split; congruence. Qed.

(** X12: the required-categories test passes on the index of the parsed rows
    exactly when each of the five required categories is the category of
    some row. *)
Theorem required_categories_test_passes (rows : list ThreatRow) :
  test_threat_matrix_includes_required_categories (threat_index rows) = Ok tt
  <-> Forall (fun c => Exists (fun row => category row = c) rows) REQUIRED_CATEGORIES.
Proof.
  unfold test_threat_matrix_includes_required_categories.
  rewrite assert_ok, bool_decide_eq_true, sorted_nil_iff, filter_nil_iff.
  apply Forall_iff. intros c.
  rewrite negb_false_iff, bool_decide_eq_true. apply threat_index_is_Some.
Qed.

(** X13: the test-references test passes exactly when the tests cell of
    every row mentions pytest, make or tests/security, letter case aside. *)
Theorem test_references_test_passes (rows : list ThreatRow) :
  test_threat_matrix_rows_have_test_references rows = Ok tt
  <-> Forall (fun row => Exists (mentions (tests row)) ["pytest"; "make"; "tests/security"])
             rows.
Proof.
  unfold test_threat_matrix_rows_have_test_references.
  rewrite assert_ok, bool_decide_eq_true. split.
  - intros H. apply map_eq_nil in H. apply filter_nil_iff in H.
    eapply Forall_impl; [exact H|]. intros row Hrow. cbv beta in Hrow.
    apply negb_false_iff in Hrow. now apply assert_any_iff.
  - intros H. apply (f_equal (map category) (x := List.filter _ rows) (y := [])).
    apply filter_nil_iff. eapply Forall_impl; [exact H|]. intros row Hrow.
    cbv beta. apply negb_false_iff. now apply assert_any_iff.
Qed.

(** X14: the mitigation test for a category passes exactly when some row
    has the category and the last such row mentions every expected keyword in
    its mitigations; an earlier row of the same category does not count. *)
Theorem mitigations_test_passes (rows : list ThreatRow) (c : string)
  (expected_keywords : list string) :
  test_category_mitigations_include_required_terms (threat_index rows) c expected_keywords
  = Ok tt
  <-> exists row,
        last (filter (fun row => category row = c) rows) = Some row
        /\ Forall (mentions (mitigations row)) expected_keywords.
Proof.
  unfold test_category_mitigations_include_required_terms.
  rewrite threat_index_last.
  destruct (last (filter (fun row => category row = c) rows)) as [row|].
  - rewrite assert_ok, assert_all_iff. split.
    + intros H. now exists row.
    + intros (row' & [= <-] & H). exact H.
  - split; [discriminate|]. intros (row & H & _). discriminate.
Qed.

End TestFacts.

(** ** From the text of docs/security.md to the rows *)

Section DocumentFacts.
Import Text Conftest ThreatTable.

Lemma splitlines_single (l : string) :
  break_free l -> l <> "" -> splitlines_from l false = [l].
Proof.
  unfold break_free. induction l as [| c l IH]; [congruence|].
  simpl. intros Hfree _. inversion Hfree as [| ? ? Hc Hl]; subst.
  rewrite Hc. destruct l as [| d l]; [reflexivity|].
  rewrite IH; [reflexivity|exact Hl|discriminate].
Qed.

Lemma splitlines_line (l rest : string) :
  break_free l ->
  splitlines_from (l ++ Py.nl ++ rest) false = l :: splitlines_from rest false.
Proof.
  unfold break_free. induction l as [| c l IH]; intros Hfree.
  - reflexivity.
  - rewrite app_cons. simpl in *. inversion Hfree as [| ? ? Hc Hl]; subst.
    rewrite Hc. now rewrite IH.
Qed.

(** Lines without line breaks, joined by line feeds, are what [splitlines]
    gives back, provided the last line is not empty. *)
Lemma splitlines_join (lines : list string) :
  Forall break_free lines ->
  (exists l, last lines = Some l /\ l <> "") ->
  splitlines (String.concat Py.nl lines) = lines.
Proof.
  unfold splitlines. induction lines as [| l lines IH]; intros Hfree [x [Hlast Hx]].
  - discriminate.
  - inversion Hfree as [| ? ? Hl Hrest]; subst.
    destruct lines as [| l2 lines].
    + simpl in *. injection Hlast as ->. now apply splitlines_single.
    + change (String.concat Py.nl (l :: l2 :: lines))
        with (l ++ Py.nl ++ String.concat Py.nl (l2 :: lines)).
      rewrite splitlines_line by exact Hl. f_equal.
      apply IH; [exact Hrest|]. now exists x.
Qed.

Lemma last_map_Some {A B : Type} (f : A -> B) (l : list A) (x : A) :
  last l = Some x -> last (map f l) = Some (f x).
Proof.
  induction l as [| y l IH]; [discriminate|].
  simpl map. rewrite !last_cons_cases. destruct (last l) as [z|] eqn:E.
  - intros [= ->]. now rewrite (IH eq_refl).
  - intros [= ->]. apply last_None_nil in E. now subst l.
Qed.

Lemma render_row_not_empty (r : ThreatRow) : render_row r <> "".
Proof. unfold render_row. rewrite app_cons. discriminate. Qed.

(** X7: the fixture [threat_rows] reads back the rows of a document whose
    text is a rendered table, its lines joined by line feeds, when no line
    of the table contains a line break. *)
Theorem threat_rows_of_rendered_text (header : string) (rows : list ThreatRow) :
  is_header header = true ->
  break_free header ->
  rows <> [] ->
  Forall clean_row rows ->
  Forall (fun r => reads_as_row (render_row r)) rows ->
  Forall (fun r => break_free (render_row r)) rows ->
  threat_rows (String.concat Py.nl (render header rows)) = Ok rows.
Proof.
  intros Hhead Hfree Hne Hclean Hread Hrows. unfold threat_rows.
  rewrite splitlines_join; [now apply parse_rendered| |].
  - unfold render. constructor; [exact Hfree|].
    constructor; [repeat constructor|]. now apply Forall_map.
  - unfold render. destruct (last rows) as [r|] eqn:Hlast.
    + exists (render_row r). split; [|apply render_row_not_empty].
      rewrite !last_cons_cases. now rewrite (last_map_Some render_row rows r Hlast).
    + apply last_None_nil in Hlast. contradiction.
Qed.

End DocumentFacts.

Lemma threat_rows_of_rendered_text_witness :
  Conftest.threat_rows
    (String.concat Py.nl
       (ThreatTable.render ThreatTable.example_header ThreatTable.example_rows))
  = Conftest.Ok ThreatTable.example_rows.
Proof.
  apply (threat_rows_of_rendered_text ThreatTable.example_header ThreatTable.example_rows).
  - reflexivity.
  - repeat constructor.
  - discriminate.
  - repeat constructor; try discriminate;
      simpl; intros H; repeat (destruct H as [H | H]; [discriminate H|]); exact H.
  - repeat constructor.
  - repeat constructor.
Defined.

(** ** More on the generators *)

Section GeneratorExtras.
Import Py Doc Schema Contract.

Lemma error_response_schema :
  schema document "ErrorResponse"
  = Some (VDict [("type", VStr "object");
                 ("required", VList [VStr "error"]);
                 ("properties",
                  VDict [("error",
                          VDict [("type", VStr "string");
                                 ("description", VStr "Human readable error message.")])]);
                 ("example", VDict [("error", VStr "sandbox 123 not found")])]).
Proof. vm_compute. reflexivity. Qed.

(** X17: whatever the message, [error_example] returns an object that the
    [ErrorResponse] schema of the document accepts. *)
Theorem error_example_is_error_response (message : string) (n : nat) :
  exists doc sch example,
    OpenAPI.build_spec = Ok doc
    /\ schema doc "ErrorResponse" = Some sch
    /\ OpenAPI.error_example message = Ok example
    /\ validates (2 + n) doc sch example = Some true.
Proof.
  eexists document, _, _.
  split; [exact build_spec_returns|].
  split; [exact error_response_schema|].
  split; reflexivity.
Qed.

End GeneratorExtras.

Section SBOMExtras.
Import Py Text Pathlib.
Variable run : list string -> SBOM.completed.
Variable json_loads : string -> option value.
Variable str_of_error : list string -> Z -> string.
Context {FS : Type} {file_system : FileSystem FS}.

Lemma lstrip_empty_iff (s : string) :
  SBOM.lstrip s = "" <-> Forall (fun c => SBOM.is_space c = true) (list_ascii_of_string s).
Proof.
  induction s as [| c s IH]; simpl.
  - split; [constructor|reflexivity].
  - destruct (SBOM.is_space c) eqn:Ec.
    + rewrite IH. split; [now constructor|]. intros H. now inversion H.
    + split; [discriminate|]. intros H. inversion H. congruence.
Qed.

(** [strip] gives the empty string exactly on strings of whitespace. *)
Lemma strip_empty_iff (s : string) :
  SBOM.strip s = "" <-> Forall (fun c => SBOM.is_space c = true) (list_ascii_of_string s).
Proof.
  rewrite <- lstrip_empty_iff. unfold SBOM.strip.
  pose proof (lstrip_head s) as Hh.
  destruct (SBOM.lstrip s) as [| c t]; [easy|].
  destruct (rstrip_head c t Hh) as [r ->]. easy.
Qed.

(** X21: when syft exits with a non-zero code, [run_syft] raises
    [SystemExit] with a message taken from the error output, stripped, unless
    that is empty or whitespace only; then from the standard output,
    stripped, unless that is empty or whitespace only too; then from the
    exception's own text. *)
Theorem run_syft_failure_message (env : gmap string string) (returncode : Z)
  (stdout stderr : string) :
  run (SBOM.args env) = SBOM.Exited returncode stdout stderr ->
  returncode <> 0 ->
  exists message,
    SBOM.run_syft run str_of_error env
    = Raise (SystemExit ("syft command failed: " ++ message))
    /\ (~ Forall (fun c => SBOM.is_space c = true) (list_ascii_of_string stderr) ->
        message = SBOM.strip stderr)
    /\ (Forall (fun c => SBOM.is_space c = true) (list_ascii_of_string stderr) ->
        ~ Forall (fun c => SBOM.is_space c = true) (list_ascii_of_string stdout) ->
        message = SBOM.strip stdout)
    /\ (Forall (fun c => SBOM.is_space c = true) (list_ascii_of_string stderr) ->
        Forall (fun c => SBOM.is_space c = true) (list_ascii_of_string stdout) ->
        message = str_of_error (SBOM.args env) returncode).
Proof.
  intros Hrun Hcode. unfold SBOM.run_syft. rewrite Hrun.
  destruct (Z.eqb_spec returncode 0) as [|_]; [contradiction|].
  eexists. split; [reflexivity|].
  rewrite <- !strip_empty_iff. unfold SBOM.or_else.
  destruct (SBOM.strip stderr) eqn:Eerr, (SBOM.strip stdout) eqn:Eout;
    repeat split; intros; congruence.
Qed.

(** X22: whatever syft and the file system do, [main] leaves the
    environment as it was and does one of three things: it raises before any
    write, with the files and the printed lines as they were; or it asks for
    one write at the output path, of what [run_syft] returned and a newline,
    the write fails, and it raises that exception without printing; or the
    write succeeds, and it prints the one line that reports the output path,
    as [str] gives it, and returns 0. *)
Theorem sbom_main_frame (argv : list string) (w : SBOM.world FS) :
  let outcome := fst (SBOM.main run json_loads str_of_error argv w) in
  let after := snd (SBOM.main run json_loads str_of_error argv w) in
  SBOM.environ after = SBOM.environ w
  /\ ((exists e, outcome = Raise e)
        /\ SBOM.files after = SBOM.files w
        /\ SBOM.printed after = SBOM.printed w
      \/ (exists sbom_content e,
            SBOM.run_syft run str_of_error (SBOM.environ w) = Ok sbom_content
            /\ fs_write (SBOM.output argv) (sbom_content ++ nl) (SBOM.files w)
               = (Some e, SBOM.files after)
            /\ outcome = Raise e
            /\ SBOM.printed after = SBOM.printed w)
      \/ (exists sbom_content,
            SBOM.run_syft run str_of_error (SBOM.environ w) = Ok sbom_content
            /\ fs_write (SBOM.output argv) (sbom_content ++ nl) (SBOM.files w)
               = (None, SBOM.files after)
            /\ outcome = Ok 0
            /\ SBOM.printed after
               = (SBOM.printed w ++ [("SBOM written to " ++ SBOM.output argv)%string])%list)).
Proof.
  unfold SBOM.main.
  destruct (SBOM.run_syft run str_of_error (SBOM.environ w)) as [content | e]; simpl.
  - destruct (json_loads content); simpl.
    + unfold SBOM.write_text, write_text.
      destruct (fs_write (SBOM.output argv) (content ++ nl) (SBOM.files w))
        as [[e|] files'] eqn:E; simpl.
      * split; [reflexivity|]. right. left. now exists content, e.
      * split; [reflexivity|]. right. right. now exists content.
    + split; [reflexivity|]. left. split; [now eexists|]. now split.
  - split; [reflexivity|]. left. split; [now eexists|]. now split.
Qed.

End SBOMExtras.

Lemma sbom_main_frame_witness :
  let files := MemFS.State ["."] ∅ in
  let run := fun _ : list string => SBOM.Exited 0 "{}" "" in
  let result :=
    SBOM.main run (fun _ => Some (Py.VDict [])) (fun _ _ => "")
              ["generate_sbom.py"; "./sbom.json"] (SBOM.World ∅ files []) in
  SBOM.environ (snd result) = ∅
  /\ ((exists e, fst result = Py.Raise e)
        /\ SBOM.files (snd result) = files
        /\ SBOM.printed (snd result) = []
      \/ (exists sbom_content e,
            SBOM.run_syft run (fun _ _ => "") ∅ = Py.Ok sbom_content
            /\ Pathlib.fs_write "sbom.json" (sbom_content ++ Py.nl) files
               = (Some e, SBOM.files (snd result))
            /\ fst result = Py.Raise e
            /\ SBOM.printed (snd result) = [])
      \/ (exists sbom_content,
            SBOM.run_syft run (fun _ _ => "") ∅ = Py.Ok sbom_content
            /\ Pathlib.fs_write "sbom.json" (sbom_content ++ Py.nl) files
               = (None, SBOM.files (snd result))
            /\ fst result = Py.Ok 0
            /\ SBOM.printed (snd result) = ([] ++ ["SBOM written to sbom.json"])%list)).
Proof.
  intros files run result.
  exact (sbom_main_frame run (fun _ => Some (Py.VDict [])) (fun _ _ => "")
           ["generate_sbom.py"; "./sbom.json"] (SBOM.World ∅ files [])).
Defined.

(** A run that succeeds: the path is reported as [str] gives it, without
    the leading [./]. *)
Example sbom_main_reports_path :
  SBOM.main (fun _ => SBOM.Exited 0 "{}" "") (fun _ => Some (Py.VDict [])) (fun _ _ => "")
            ["generate_sbom.py"; "./sbom.json"]
            (SBOM.World ∅ (MemFS.State ["."] ∅) [])
  = (Py.Ok 0,
     SBOM.World ∅ (MemFS.State ["."] {["sbom.json" := "{}" ++ Py.nl]})
                ["SBOM written to sbom.json"]).
Proof. reflexivity. Qed.

(** A run whose write fails: the exception of the file system, and nothing
    printed. *)
Example sbom_main_missing_directory :
  SBOM.main (fun _ => SBOM.Exited 0 "{}" "") (fun _ => Some (Py.VDict [])) (fun _ _ => "")
            ["generate_sbom.py"; "build/sbom.json"]
            (SBOM.World ∅ (MemFS.State ["."] ∅) [])
  = (Py.Raise (Py.OSError "No such file or directory"),
     SBOM.World ∅ (MemFS.State ["."] ∅) []).
Proof. reflexivity. Qed.

Lemma run_syft_failure_message_witness :
  exists message,
    SBOM.run_syft (fun _ => SBOM.Exited 1 "  scan aborted  " "   ") (fun _ _ => "") ∅
    = Py.Raise (Py.SystemExit ("syft command failed: " ++ message))
    /\ (~ Forall (fun c => SBOM.is_space c = true) (list_ascii_of_string "   ") ->
        message = SBOM.strip "   ")
    /\ (Forall (fun c => SBOM.is_space c = true) (list_ascii_of_string "   ") ->
        ~ Forall (fun c => SBOM.is_space c = true)
            (list_ascii_of_string "  scan aborted  ") ->
        message = SBOM.strip "  scan aborted  ")
    /\ (Forall (fun c => SBOM.is_space c = true) (list_ascii_of_string "   ") ->
        Forall (fun c => SBOM.is_space c = true) (list_ascii_of_string "  scan aborted  ") ->
        message = "").
Proof.
  apply (run_syft_failure_message (fun _ => SBOM.Exited 1 "  scan aborted  " "   ")
           (fun _ _ => "") ∅ 1 "  scan aborted  " "   ").
  - reflexivity.
  - lia.
Defined.

(** ** The provenance statement *)

Section SLSAFacts.
Import Py SLSA Pathlib.
Variable run : list string -> SBOM.completed.
Variable str_of_error : list string -> Z -> string.
Variable now : string.
Variable sha256_hexdigest : string -> string.
Variable cwd_uri : string.
Context {FS : Type} {file_system : FileSystem FS}.

Lemma git_outcome (args : list string) :
  match run args with
  | SBOM.Exited returncode stdout _ =>
      if Z.eqb returncode 0 then _git run str_of_error args = Ok (SBOM.strip stdout)
      else exists msg, _git run str_of_error args = Raise (SystemExit msg)
  | SBOM.NotFound => _git run str_of_error args = Raise (OSError "No such file or directory")
  | SBOM.LaunchError e => _git run str_of_error args = Raise e
  end.
Proof.
  unfold _git. destruct (run args) as [| e | returncode stdout stderr]; try reflexivity.
  destruct (Z.eqb returncode 0); [reflexivity|]. eexists. reflexivity.
Qed.

(** X23: [_default_commit] and [_default_branch] take the environment's
    value when it is set and not empty, without running git.  Otherwise they
    ask git: its output, stripped, when it exits with 0, even when that is
    empty; the fallback [UNKNOWN] or [HEAD] when it exits with another code;
    and when the git executable is missing the error is raised, the fallback
    is not reached. *)
Theorem git_fallback_cases (env : gmap string string) :
  (forall commit, env !! "GITHUB_SHA" = Some commit -> commit <> "" ->
     _default_commit run str_of_error env = Ok commit)
  /\ (forall ref, env !! "GITHUB_REF" = Some ref -> ref <> "" ->
        _default_branch run str_of_error env = Ok ref)
  /\ (environ_get env "GITHUB_SHA" = None ->
      match run ["git"; "rev-parse"; "HEAD"] with
      | SBOM.Exited 0 stdout _ =>
          _default_commit run str_of_error env = Ok (SBOM.strip stdout)
      | SBOM.Exited _ _ _ => _default_commit run str_of_error env = Ok "UNKNOWN"
      | SBOM.NotFound =>
          _default_commit run str_of_error env = Raise (OSError "No such file or directory")
      | SBOM.LaunchError _ => True
      end)
  /\ (environ_get env "GITHUB_REF" = None ->
      match run ["git"; "rev-parse"; "--abbrev-ref"; "HEAD"] with
      | SBOM.Exited 0 stdout _ =>
          _default_branch run str_of_error env = Ok (SBOM.strip stdout)
      | SBOM.Exited _ _ _ => _default_branch run str_of_error env = Ok "HEAD"
      | SBOM.NotFound =>
          _default_branch run str_of_error env = Raise (OSError "No such file or directory")
      | SBOM.LaunchError _ => True
      end).
Proof.
  split; [|split; [|split]].
  - intros commit Hc Hne. unfold _default_commit, environ_get. rewrite Hc.
    now destruct commit.
  - intros ref Hr Hne. unfold _default_branch, environ_get. rewrite Hr.
    now destruct ref.
  - intros Hunset. unfold _default_commit, _git. rewrite Hunset.
    destruct (run ["git"; "rev-parse"; "HEAD"]) as [| e | returncode stdout stderr];
      try easy.
    now destruct returncode.
  - intros Hunset. unfold _default_branch, _git. rewrite Hunset.
    destruct (run ["git"; "rev-parse"; "--abbrev-ref"; "HEAD"])
      as [| e | returncode stdout stderr]; try easy.
    now destruct returncode.
Qed.

Lemma suppressed_no_exit {A : Type} (body rest : result A) (e : exn) :
  suppress_SystemExit body rest = Raise e ->
  (forall msg, rest <> Raise (SystemExit msg)) ->
  forall msg, e <> SystemExit msg.
Proof.
  unfold suppress_SystemExit. intros H Hrest msg ->.
  destruct body as [a | []]; try discriminate.
  now apply (Hrest msg).
Qed.

Lemma default_commit_no_exit (env : gmap string string) (e : exn) :
  _default_commit run str_of_error env = Raise e -> forall msg, e <> SystemExit msg.
Proof.
  unfold _default_commit. destruct (environ_get env "GITHUB_SHA"); [discriminate|].
  intros H. apply (suppressed_no_exit _ _ _ H). discriminate.
Qed.

Lemma default_branch_no_exit (env : gmap string string) (e : exn) :
  _default_branch run str_of_error env = Raise e -> forall msg, e <> SystemExit msg.
Proof.
  unfold _default_branch. destruct (environ_get env "GITHUB_REF"); [discriminate|].
  intros H. apply (suppressed_no_exit _ _ _ H). discriminate.
Qed.

Lemma repo_uri_no_exit (env : gmap string string) (e : exn) :
  repo_uri run str_of_error cwd_uri env = Raise e -> forall msg, e <> SystemExit msg.
Proof.
  unfold repo_uri.
  destruct (environ_get env "GITHUB_REPOSITORY") as [repository|]; simpl.
  - now destruct ("https://github.com/" ++ repository).
  - destruct (_git run str_of_error ["git"; "config"; "--get"; "remote.origin.url"])
      as [[| c url] | []]; simpl; try discriminate;
      intros H m E; subst e; discriminate H.
Qed.

(** X24: [build_provenance] never ends in [SystemExit]: each "git command
    failed" exit that [_git] raises is suppressed by its caller, so an
    exception that leaves [build_provenance] is of another kind. *)
Theorem build_provenance_never_exits (env : gmap string string) (e : exn) :
  build_provenance run str_of_error now sha256_hexdigest cwd_uri env = Raise e ->
  forall msg, e <> SystemExit msg.
Proof.
  unfold build_provenance.
  destruct (repo_uri run str_of_error cwd_uri env) as [uri | e1] eqn:Euri; simpl.
  - destruct (_default_commit run str_of_error env) as [commit | e2] eqn:Ecommit; simpl.
    + destruct (_default_branch run str_of_error env) as [branch | e3] eqn:Ebranch;
        simpl; [discriminate|].
      intros [= <-]. now apply (default_branch_no_exit env).
    + intros [= <-]. now apply (default_commit_no_exit env).
  - intros [= <-]. now apply (repo_uri_no_exit env).
Qed.

Lemma repo_uri_not_empty (env : gmap string string) (uri : string) :
  cwd_uri <> "" -> repo_uri run str_of_error cwd_uri env = Ok uri -> uri <> "".
Proof.
  intros Hcwd. unfold repo_uri.
  destruct (environ_get env "GITHUB_REPOSITORY") as [repository|]; simpl.
  - intros [= <-]. discriminate.
  - destruct (_git run str_of_error ["git"; "config"; "--get"; "remote.origin.url"])
      as [[| c url] | []]; simpl; try discriminate; intros [= <-];
      (exact Hcwd || discriminate).
Qed.

(** X25: a statement [build_provenance] returns names a repository URI that
    is not empty (the working directory's when neither the environment nor
    git gives one), identifies the invocation as that URI, an at sign and the
    commit, digests the commit it names, and starts and finishes at the same
    instant. *)
Theorem build_provenance_statement (env : gmap string string)
  (statement : ProvenanceStatement) :
  cwd_uri <> "" ->
  build_provenance run str_of_error now sha256_hexdigest cwd_uri env = Ok statement ->
  exists uri commit branch,
    uri <> ""
    /\ _default_commit run str_of_error env = Ok commit
    /\ _default_branch run str_of_error env = Ok branch
    /\ invocation_id statement = uri ++ "@" ++ commit
    /\ materials statement
       = [VDict [("uri", VStr uri);
                 ("digest", VDict [("sha256", VStr (sha256_hexdigest commit))]);
                 ("branch", VStr branch)]]
    /\ started_at statement = now
    /\ finished_at statement = now.
Proof.
  intros Hcwd. unfold build_provenance.
  destruct (repo_uri run str_of_error cwd_uri env) as [uri | e1] eqn:Euri;
    simpl; [|discriminate].
  destruct (_default_commit run str_of_error env) as [commit | e2]; simpl; [|discriminate].
  destruct (_default_branch run str_of_error env) as [branch | e3]; simpl; [|discriminate].
  intros [= <-]. exists uri, commit, branch. simpl.
  repeat split. now apply (repo_uri_not_empty env).
Qed.

(** A plain character is written as it is. *)
Lemma escape_char_plain (c : ascii) :
  Expected.is_plain (String c "") = true -> Json.escape_char c = String c "".
Proof.
  unfold Expected.is_plain, Json.escape_char.
  cbn [list_ascii_of_string forallb]. cbv zeta.
  rewrite andb_true_r, !andb_true_iff, !negb_true_iff.
  intros [[[Hlo Hhi] Hq] Hb].
  apply Nat.leb_le in Hlo. apply Nat.leb_le in Hhi.
  rewrite Hq, Hb.
  repeat match goal with
         | |- context [Nat.eqb (nat_of_ascii c) ?k] =>
             destruct (Nat.eqb_spec (nat_of_ascii c) k); [lia|]
         end.
  destruct (Nat.ltb_spec (nat_of_ascii c) 32); [lia|].
  destruct (Nat.ltb_spec 126 (nat_of_ascii c)); [lia|].
  reflexivity.
Qed.

Lemma escape_plain (s : string) : Expected.is_plain s = true -> Json.escape s = s.
Proof.
  induction s as [| c s IH]; [reflexivity|].
  unfold Expected.is_plain. cbn [list_ascii_of_string forallb Json.escape].
  rewrite andb_true_iff. intros [Hc Hs].
  rewrite escape_char_plain, (IH Hs); [reflexivity|].
  unfold Expected.is_plain. cbn [list_ascii_of_string forallb].
  now rewrite Hc.
Qed.

Lemma is_plain_app (a b : string) :
  Expected.is_plain (a ++ b) = (Expected.is_plain a && Expected.is_plain b)%bool.
Proof.
  unfold Expected.is_plain.
  induction a as [| c a IH]; [reflexivity|].
  rewrite app_cons. cbn [list_ascii_of_string forallb].
  now rewrite IH, andb_assoc.
Qed.

(** The serialized statement is the expected text. *)
Lemma statement_text (uri commit branch : string) :
  Forall (fun s => Expected.is_plain s = true)
         [uri; commit; branch; now; sha256_hexdigest commit] ->
  Json.dumps
    (sort_keys
       (asdict {| schema_version := "https://slsa.dev/provenance/v0.2";
                  builder := "scripts/generate_slsa.py";
                  build_type := "https://github.com/BinaryKitsuneGuild/bkg-ci";
                  invocation_id := uri ++ "@" ++ commit;
                  started_at := now;
                  finished_at := now;
                  materials :=
                    [VDict [("uri", VStr uri);
                            ("digest", VDict [("sha256", VStr (sha256_hexdigest commit))]);
                            ("branch", VStr branch)]] |})) 2 ++ nl
  = Expected.slsa_text uri commit branch (sha256_hexdigest commit) now.
Proof.
  intros Hplain.
  apply Forall_cons in Hplain as [Huri Hplain].
  apply Forall_cons in Hplain as [Hcommit Hplain].
  apply Forall_cons in Hplain as [Hbranch Hplain].
  apply Forall_cons in Hplain as [Hnow Hplain].
  apply Forall_cons in Hplain as [Hdigest _].
  assert (Hid : Expected.is_plain (uri ++ "@" ++ commit) = true).
  { rewrite !is_plain_app, Huri, Hcommit. reflexivity. }
  generalize dependent (sha256_hexdigest commit). intros digest Hdigest.
  change (Json.dumps ?v 2) with (Json.dumps
    (VDict [("build_type", VStr "https://github.com/BinaryKitsuneGuild/bkg-ci");
            ("builder", VStr "scripts/generate_slsa.py");
            ("finished_at", VStr now);
            ("invocation_id", VStr (uri ++ "@" ++ commit));
            ("materials",
             VList [VDict [("branch", VStr branch);
                           ("digest", VDict [("sha256", VStr digest)]);
                           ("uri", VStr uri)]]);
            ("schema_version", VStr "https://slsa.dev/provenance/v0.2");
            ("started_at", VStr now)]) 2).
  unfold Json.dumps. cbn.
  unfold Json.encode_basestring_ascii.
  rewrite (escape_plain _ Hid), (escape_plain _ Huri), (escape_plain _ Hnow),
    (escape_plain _ Hbranch), (escape_plain _ Hdigest).
  unfold Expected.slsa_text.
  rewrite !append_assoc.
  vm_compute. reflexivity.
Qed.

(** X26: when [build_provenance] raises, [main] raises the same exception
    and the world is as it was.  When it returns a statement whose strings
    are plain, [main] asks for one write at the output path, of the expected
    text: the keys of every object in sorted order, indent 2, a final
    newline.  It then reports the path and returns 0, or raises the
    exception of the file system without printing. *)
Theorem slsa_main_writes_sorted_statement (argv : list string) (w : SBOM.world FS) :
  (forall e,
     build_provenance run str_of_error now sha256_hexdigest cwd_uri (SBOM.environ w)
     = Raise e ->
     main run str_of_error now sha256_hexdigest cwd_uri argv w = (Raise e, w))
  /\ (forall uri commit branch,
        repo_uri run str_of_error cwd_uri (SBOM.environ w) = Ok uri ->
        _default_commit run str_of_error (SBOM.environ w) = Ok commit ->
        _default_branch run str_of_error (SBOM.environ w) = Ok branch ->
        Forall (fun s => Expected.is_plain s = true)
               [uri; commit; branch; now; sha256_hexdigest commit] ->
        main run str_of_error now sha256_hexdigest cwd_uri argv w
        = match fs_write (output argv)
                  (Expected.slsa_text uri commit branch (sha256_hexdigest commit) now)
                  (SBOM.files w) with
          | (None, files') =>
              (Ok 0, SBOM.World (SBOM.environ w) files'
                       (SBOM.printed w
                        ++ [("SLSA provenance written to " ++ output argv)%string])%list)
          | (Some e, files') =>
              (Raise e, SBOM.World (SBOM.environ w) files' (SBOM.printed w))
          end).
Proof.
  split.
  - intros e He. unfold main. now rewrite He.
  - intros uri commit branch Huri Hcommit Hbranch Hplain.
    unfold main, build_provenance. rewrite Huri, Hcommit, Hbranch.
    cbn [bind]. rewrite (statement_text _ _ _ Hplain).
    unfold SBOM.write_text, write_text.
    destruct (fs_write (output argv)
                (Expected.slsa_text uri commit branch (sha256_hexdigest commit) now)
                (SBOM.files w)) as [[e|] files']; reflexivity.
Qed.

(** X27: whatever git and the file system do, [main] leaves the environment
    as it was and does one of three things: it raises before any write, with
    the files and the printed lines as they were; or it asks for one write at
    the output path, of the serialized statement and a newline, the write
    fails, and it raises that exception without printing; or the write
    succeeds, and it prints the one line that reports the output path, as
    [str] gives it, and returns 0. *)
Theorem slsa_main_frame (argv : list string) (w : SBOM.world FS) :
  let outcome := fst (main run str_of_error now sha256_hexdigest cwd_uri argv w) in
  let after := snd (main run str_of_error now sha256_hexdigest cwd_uri argv w) in
  SBOM.environ after = SBOM.environ w
  /\ ((exists e, outcome = Raise e)
        /\ SBOM.files after = SBOM.files w
        /\ SBOM.printed after = SBOM.printed w
      \/ (exists statement e,
            build_provenance run str_of_error now sha256_hexdigest cwd_uri (SBOM.environ w)
            = Ok statement
            /\ fs_write (output argv) (Json.dumps (sort_keys (asdict statement)) 2 ++ nl)
                 (SBOM.files w)
               = (Some e, SBOM.files after)
            /\ outcome = Raise e
            /\ SBOM.printed after = SBOM.printed w)
      \/ (exists statement,
            build_provenance run str_of_error now sha256_hexdigest cwd_uri (SBOM.environ w)
            = Ok statement
            /\ fs_write (output argv) (Json.dumps (sort_keys (asdict statement)) 2 ++ nl)
                 (SBOM.files w)
               = (None, SBOM.files after)
            /\ outcome = Ok 0
            /\ SBOM.printed after
               = (SBOM.printed w
                  ++ [("SLSA provenance written to " ++ output argv)%string])%list)).
Proof.
  unfold main, SBOM.write_text, write_text. cbv zeta.
  destruct (build_provenance run str_of_error now sha256_hexdigest cwd_uri (SBOM.environ w))
    as [statement | e].
  - destruct (fs_write (output argv) (Json.dumps (sort_keys (asdict statement)) 2 ++ nl)
                (SBOM.files w)) as [[e|] files'] eqn:E;
      cbn [fst snd SBOM.environ SBOM.files SBOM.printed SBOM.print].
    + split; [reflexivity|]. right. left. exists statement, e. now rewrite E.
    + split; [reflexivity|]. right. right. exists statement. now rewrite E.
  - split; [reflexivity|]. left. split; [now eexists|]. now split.
Qed.

End SLSAFacts.

Lemma slsa_main_frame_witness :
  let env : gmap string string :=
    {["GITHUB_REPOSITORY" := "eyshoit-commits/alpha"; "GITHUB_SHA" := "4f2a9c";
      "GITHUB_REF" := "refs/heads/main"]} in
  let files := MemFS.State ["."] ∅ in
  let build :=
    SLSA.build_provenance (fun _ => SBOM.NotFound) (fun _ _ => "")
      "2025-10-18T12:00:00+00:00" (fun _ => "ab12") "file:///work" env in
  let result :=
    SLSA.main (fun _ => SBOM.NotFound) (fun _ _ => "") "2025-10-18T12:00:00+00:00"
              (fun _ => "ab12") "file:///work"
              ["generate_slsa.py"; "build/slsa.json"] (SBOM.World env files []) in
  SBOM.environ (snd result) = env
  /\ ((exists e, fst result = Py.Raise e)
        /\ SBOM.files (snd result) = files
        /\ SBOM.printed (snd result) = []
      \/ (exists statement e,
            build = Py.Ok statement
            /\ Pathlib.fs_write "build/slsa.json"
                 (Json.dumps (SLSA.sort_keys (SLSA.asdict statement)) 2 ++ Py.nl) files
               = (Some e, SBOM.files (snd result))
            /\ fst result = Py.Raise e
            /\ SBOM.printed (snd result) = [])
      \/ (exists statement,
            build = Py.Ok statement
            /\ Pathlib.fs_write "build/slsa.json"
                 (Json.dumps (SLSA.sort_keys (SLSA.asdict statement)) 2 ++ Py.nl) files
               = (None, SBOM.files (snd result))
            /\ fst result = Py.Ok 0
            /\ SBOM.printed (snd result)
               = ([] ++ ["SLSA provenance written to build/slsa.json"])%list)).
Proof.
  intros env files build result.
  exact (slsa_main_frame (fun _ => SBOM.NotFound) (fun _ _ => "")
           "2025-10-18T12:00:00+00:00" (fun _ => "ab12") "file:///work"
           ["generate_slsa.py"; "build/slsa.json"] (SBOM.World env files [])).
Defined.

Lemma slsa_main_writes_sorted_statement_witness :
  let env : gmap string string :=
    {["GITHUB_REPOSITORY" := "eyshoit-commits/alpha"; "GITHUB_SHA" := "4f2a9c";
      "GITHUB_REF" := "refs/heads/main"]} in
  SLSA.main (fun _ => SBOM.NotFound) (fun _ _ => "") "2025-10-18T12:00:00+00:00"
            (fun _ => "ab12") "file:///work"
            ["generate_slsa.py"; "./out//slsa.json"]
            (SBOM.World env (MemFS.State ["."; "out"] ∅) [])
  = (Py.Ok 0,
     SBOM.World env
       (MemFS.State ["."; "out"]
          {["out/slsa.json" :=
              Expected.slsa_text "https://github.com/eyshoit-commits/alpha" "4f2a9c"
                "refs/heads/main" "ab12" "2025-10-18T12:00:00+00:00"]})
       ["SLSA provenance written to out/slsa.json"]).
Proof.
  intros env.
  etransitivity.
  - apply (proj2 (slsa_main_writes_sorted_statement
                    (fun _ => SBOM.NotFound) (fun _ _ => "") "2025-10-18T12:00:00+00:00"
                    (fun _ => "ab12") "file:///work"
                    ["generate_slsa.py"; "./out//slsa.json"]
                    (SBOM.World env (MemFS.State ["."; "out"] ∅) []))
             "https://github.com/eyshoit-commits/alpha" "4f2a9c" "refs/heads/main");
      try reflexivity.
    repeat constructor.
  - reflexivity.
Defined.

Lemma build_provenance_never_exits_witness :
  SLSA.build_provenance (fun _ => SBOM.NotFound) (fun _ _ => "")
    "2025-10-18T12:00:00+00:00" (fun s => s) "file:///work" ∅
  = Py.Raise (Py.OSError "No such file or directory")
  /\ Py.OSError "No such file or directory"
     <> Py.SystemExit "git command failed: git rev-parse HEAD: ".
Proof.
  split; [reflexivity|].
  apply (build_provenance_never_exits (fun _ => SBOM.NotFound) (fun _ _ => "")
           "2025-10-18T12:00:00+00:00" (fun s => s) "file:///work" ∅).
  reflexivity.
Defined.

Lemma build_provenance_statement_witness :
  let run := fun args : list string =>
    match args with
    | ["git"; "rev-parse"; "HEAD"] => SBOM.Exited 0 ("4f2a9c" ++ Py.nl) ""
    | _ => SBOM.Exited 128 "" "fatal: not a git repository"
    end in
  exists uri commit branch,
    uri <> ""
    /\ SLSA._default_commit run (fun _ _ => "") ∅ = Py.Ok commit
    /\ SLSA._default_branch run (fun _ _ => "") ∅ = Py.Ok branch
    /\ "file:///work@4f2a9c" = uri ++ "@" ++ commit
    /\ [Py.VDict [("uri", Py.VStr "file:///work");
                  ("digest", Py.VDict [("sha256", Py.VStr "4f2a9c")]);
                  ("branch", Py.VStr "HEAD")]]
       = [Py.VDict [("uri", Py.VStr uri);
                    ("digest", Py.VDict [("sha256", Py.VStr commit)]);
                    ("branch", Py.VStr branch)]]
    /\ "2025-10-18T12:00:00+00:00" = "2025-10-18T12:00:00+00:00"
    /\ "2025-10-18T12:00:00+00:00" = "2025-10-18T12:00:00+00:00".
Proof.
  intros run.
  apply (build_provenance_statement run (fun _ _ => "") "2025-10-18T12:00:00+00:00"
           (fun s => s) "file:///work" ∅
           {| SLSA.schema_version := "https://slsa.dev/provenance/v0.2";
              SLSA.builder := "scripts/generate_slsa.py";
              SLSA.build_type := "https://github.com/BinaryKitsuneGuild/bkg-ci";
              SLSA.invocation_id := "file:///work@4f2a9c";
              SLSA.started_at := "2025-10-18T12:00:00+00:00";
              SLSA.finished_at := "2025-10-18T12:00:00+00:00";
              SLSA.materials :=
                [Py.VDict [("uri", Py.VStr "file:///work");
                           ("digest", Py.VDict [("sha256", Py.VStr "4f2a9c")]);
                           ("branch", Py.VStr "HEAD")]] |}).
  - discriminate.
  - reflexivity.
Defined.

(** ** Invariants of the generated document *)

Section DocumentInvariants.
Import Py Doc Schema Contract Parts.

Lemma assoc_In (k : string) (kvs : list (string * value)) (v : value) :
  assoc k kvs = Some v -> In (k, v) kvs.
Proof.
  induction kvs as [| [k' v'] kvs IH]; simpl; [discriminate|].
  destruct (String.eqb_spec k k') as [->|Hne].
  - intros [= ->]. now left.
  - intros H. right. now apply IH.
Qed.

Lemma member_items (k : string) (v x : value) : member k v = Some x -> In (k, x) (items_of v).
Proof. destruct v; simpl; try discriminate. apply assoc_In. Qed.

(** An operation found by path and method is one of [operations]. *)
Lemma operation_listed (doc : value) (path method : string) (op : value) :
  operation doc path method = Some op -> In (path, method, op) (operations doc).
Proof.
  unfold operation, operations. simpl.
  destruct (member "paths" doc) as [paths|] eqn:Epaths; [|discriminate].
  destruct (member path paths) as [item|] eqn:Eitem; [|discriminate].
  destruct (member method item) as [op'|] eqn:Eop; [|discriminate].
  intros [= ->]. apply in_flat_map. exists (path, item).
  split; [now apply member_items|].
  apply in_map_iff. exists (method, op). split; [reflexivity|].
  now apply member_items.
Qed.

(** X18: every operation of the document that asks for or accepts a bearer
    token declares the 401, 403 and 500 responses, and every operation on a
    path with an [{id}] segment declares 404. *)
Theorem bearer_operations_declare_failures :
  exists doc,
    OpenAPI.build_spec = Ok doc
    /\ forall path method op,
         operation doc path method = Some op ->
         (takes_bearer op = true ->
          In "401" (response_codes op) /\ In "403" (response_codes op)
          /\ In "500" (response_codes op))
         /\ (Text.contains "{id}" path = true -> In "404" (response_codes op)).
Proof.
  exists document. split; [exact build_spec_returns|].
  assert (H : forallb
                (fun o => match o with
                          | (path, _, op) =>
                              implb (takes_bearer op)
                                    (mem "401" (response_codes op)
                                     && mem "403" (response_codes op)
                                     && mem "500" (response_codes op))
                              && implb (Text.contains "{id}" path)
                                       (mem "404" (response_codes op))
                          end)
                (operations document) = true) by (vm_compute; reflexivity).
  rewrite forallb_forall in H.
  intros path method op Hop. apply operation_listed, H in Hop.
  apply andb_prop in Hop as [Hauth Hid]. split.
  - intros Hb. rewrite Hb in Hauth. simpl in Hauth.
    apply andb_prop in Hauth as [Hauth H500]. apply andb_prop in Hauth as [H401 H403].
    auto using mem_In.
  - intros Hp. rewrite Hp in Hid. simpl in Hid. now apply mem_In.
Qed.

(** X19: every reference in the document names a component schema of the
    document; there are 77 of them. *)
Theorem references_resolve :
  exists doc,
    OpenAPI.build_spec = Ok doc
    /\ length (references doc) = 77%nat
    /\ forall target, In target (references doc) -> is_Some (resolve doc target).
Proof.
  exists document. split; [exact build_spec_returns|].
  split; [vm_compute; reflexivity|].
  assert (H : forallb (fun target => bool_decide (is_Some (resolve document target)))
                      (references document) = true) by (vm_compute; reflexivity).
  rewrite forallb_forall in H.
  intros target Hin. apply H in Hin. now apply bool_decide_eq_true in Hin.
Qed.

(** X20: of the 78 examples the document gives beside a schema (for a
    response, a request body or a component schema), the schema accepts
    every one except the examples of [ExecRequest], which give [stdin] as
    null while the schema makes it a string that is not nullable. *)
Theorem examples_accepted_except_null_stdin :
  exists doc,
    OpenAPI.build_spec = Ok doc
    /\ length (examples doc) = 78%nat
    /\ forall sch example,
         In (sch, example) (examples doc) ->
         validates 14 doc sch example
         = Some (negb (bool_decide (member "stdin" example = Some VNone))).
Proof.
  exists document. split; [exact build_spec_returns|].
  split; [vm_compute; reflexivity|].
  assert (H : forallb
                (fun se => bool_decide
                             (validates 14 document (fst se) (snd se)
                              = Some (negb (bool_decide
                                              (member "stdin" (snd se) = Some VNone)))))
                (examples document) = true) by (vm_compute; reflexivity).
  rewrite forallb_forall in H.
  intros sch example Hin. apply H in Hin. now apply bool_decide_eq_true in Hin.
Qed.

End DocumentInvariants.
